(** * The Impala query coordinator (be/src/runtime/coordinator.cc)

    A shallow embedding of the coordinator's state and of the methods that
    drive a query: parsing of the debug_action option, the status-report
    handler, cancellation, Wait/GetNext, and INSERT finalization.

    Conventions.
    - A method that mutates the Coordinator is a function from the state
      before the call to the state after it (and the returned value).
    - What an external collaborator answers during a call (an RPC, the local
      PlanFragmentExecutor, HDFS) is an argument of the function or a
      variable of the enclosing section.
    - DCHECKs compile to nothing in a release build.  The functions follow
      the release build; the message of every DCHECK that fails on the way is
      collected, so that a debug build is the same run with no message. *)

From Stdlib Require Import ZArith List String Ascii Bool Lia DecimalString.
From stdpp Require Import base option list gmap strings fin_maps sorting.
Import ListNotations.

Local Open Scope string_scope.
Local Open Scope Z_scope.
Local Open Scope list_scope.

(** ** Status *)

Module StatusModel.

(** Modelled from the spec: TStatusCode (gen-cpp/Status_types.h is not under
    src/).  The coordinator only tells OK, CANCELLED and INTERNAL_ERROR
    apart; a worker may report any other code. *)
Inductive TStatusCode :=
| OK
| CANCELLED
| INTERNAL_ERROR
| OTHER_ERROR (code : Z).

Definition TStatusCode_eqb (a b : TStatusCode) : bool :=
  match a, b with
  | OK, OK | CANCELLED, CANCELLED | INTERNAL_ERROR, INTERNAL_ERROR => true
  | OTHER_ERROR x, OTHER_ERROR y => Z.eqb x y
  | _, _ => false
  end.

(** Modelled from the spec: the Status class (common/status.h is not under
    src/): a status code with the error messages collected so far.  This is
    also the shape of the wire type TStatus {status_code, error_msgs}. *)
Record Status := mkStatus {
  status_code : TStatusCode;
  error_msgs : list string
}.

(** Status::OK *)
Definition Status_OK : Status := mkStatus OK [].
(** Status::CANCELLED *)
Definition Status_CANCELLED : Status := mkStatus CANCELLED ["Cancelled"].
(** Status(const string& error_msg) *)
Definition Status_of_msg (msg : string) : Status := mkStatus INTERNAL_ERROR [msg].
(** Status(TStatusCode::type code, const string& error_msg) *)
Definition Status_of_code (code : TStatusCode) (msg : string) : Status :=
  mkStatus code [msg].

(** Status::ok() *)
Definition ok (s : Status) : bool := TStatusCode_eqb (status_code s) OK.
(** Status::IsCancelled() *)
Definition IsCancelled (s : Status) : bool := TStatusCode_eqb (status_code s) CANCELLED.

(** Status::AddErrorMsg(msg): appends to the messages of an error status. *)
Definition AddErrorMsg (s : Status) (msg : string) : Status :=
  match status_code s with
  | OK => mkStatus INTERNAL_ERROR [msg]
  | c => mkStatus c (error_msgs s ++ [msg])
  end.

(** Status::AddError(status): appends the messages of a non-OK [other]. *)
Definition AddError (s other : Status) : Status :=
  if ok other then s else fold_left AddErrorMsg (error_msgs other) s.

End StatusModel.
Export StatusModel.

(** ** Debug options: the data and the string functions (lines 74-85) *)

Module DebugAction.

(** struct DebugOptions.  The Thrift enums TDebugAction::type and
    TExecNodePhase::type are C++ enums; a value is its integer. *)
Record DebugOptions := mkDebugOptions {
  backend_num : Z;
  node_id : Z;
  action : Z;
  phase : Z
}.

(** The part of TQueryOptions read here: debug_action with its __isset bit. *)
Record TQueryOptions := mkTQueryOptions {
  debug_action : option string
}.

(** std::toupper in the classic locale, which boost::iequals applies to both
    sides. *)
Definition to_upper (c : ascii) : ascii :=
  let n := nat_of_ascii c in
  if (97 <=? n)%nat && (n <=? 122)%nat then ascii_of_nat (n - 32) else c.

(** boost::iequals(a, b) *)
Fixpoint iequals (a b : string) : bool :=
  match a, b with
  | EmptyString, EmptyString => true
  | String x a', String y b' => Ascii.eqb (to_upper x) (to_upper y) && iequals a' b'
  | _, _ => false
  end.

(** boost::split(components, s, is_any_of(delims), token_compress_on): the
    pieces between runs of delimiters; a run at either end of the input
    leaves an empty piece there, and the empty input is one empty piece.
    [cur] is the piece being read, [in_run] says whether the previous
    character was a delimiter. *)
Fixpoint split_from (is_delim : ascii -> bool) (s cur : string) (in_run : bool)
  : list string :=
  match s with
  | EmptyString => [cur]
  | String c s' =>
      if is_delim c then
        if in_run then split_from is_delim s' cur true
        else cur :: split_from is_delim s' EmptyString true
      else split_from is_delim s' (cur +:+ String c EmptyString) false
  end.

Definition is_colon (c : ascii) : bool := Ascii.eqb c ":"%char.

Definition split (s : string) : list string := split_from is_colon s EmptyString false.

End DebugAction.

(** ** The coordinator's state *)

Module Coord.

(** TUniqueId: a 128-bit id in two halves. *)
Record TUniqueId := mkTUniqueId { hi : Z; lo : Z }.

(** int and int64_t arithmetic as the compiled code does it: two's complement
    with wrap-around. *)
Definition wrap32 (z : Z) : Z := (z + 2147483648) mod 4294967296 - 2147483648.
Definition wrap64 (z : Z) : Z :=
  (z + 9223372036854775808) mod 18446744073709551616 - 9223372036854775808.

(** TStmtType::type, as far as Wait tells it apart. *)
Inductive TStmtType := QUERY | DDL | DML.

Definition TStmtType_is_DML (t : TStmtType) : bool :=
  match t with DML => true | _ => false end.

(** TFinalizeParams: staging_dir with its __isset bit. *)
Record TFinalizeParams := mkTFinalizeParams {
  is_overwrite : bool;
  hdfs_base_dir : string;
  staging_dir : option string
}.

(** Coordinator::BackendExecState.  [profile] is the sequence of cumulative
    profiles applied by profile->Update(); [stopwatch_running] is the state of
    the MonotonicStopWatch.  The counters read from the profile tree
    (aggregate_counters, total_ranges_complete), total_split_size and
    rpc_params are left out:
    no function below branches on them. *)
Record BackendExecState := mkBackendExecState {
  fragment_instance_id : TUniqueId;
  backend_address : string;
  fragment_idx : nat;
  status : Status;
  initiated : bool;
  done : bool;
  profile_created : bool;
  profile : list Z;
  error_log : list string;
  stopwatch_running : bool
}.

Definition set_status (st : Status) (b : BackendExecState) : BackendExecState :=
  mkBackendExecState (fragment_instance_id b) (backend_address b)
    (fragment_idx b) st (initiated b) (done b) (profile_created b) (profile b)
    (error_log b) (stopwatch_running b).

Definition set_initiated (v : bool) (b : BackendExecState) : BackendExecState :=
  mkBackendExecState (fragment_instance_id b) (backend_address b)
    (fragment_idx b) (status b) v (done b) (profile_created b) (profile b)
    (error_log b) (stopwatch_running b).

Definition set_done (v : bool) (b : BackendExecState) : BackendExecState :=
  mkBackendExecState (fragment_instance_id b) (backend_address b)
    (fragment_idx b) (status b) (initiated b) v (profile_created b) (profile b)
    (error_log b) (stopwatch_running b).

Definition set_profile_created (v : bool) (b : BackendExecState) : BackendExecState :=
  mkBackendExecState (fragment_instance_id b) (backend_address b)
    (fragment_idx b) (status b) (initiated b) (done b) v (profile b)
    (error_log b) (stopwatch_running b).

Definition set_profile (v : list Z) (b : BackendExecState) : BackendExecState :=
  mkBackendExecState (fragment_instance_id b) (backend_address b)
    (fragment_idx b) (status b) (initiated b) (done b) (profile_created b) v
    (error_log b) (stopwatch_running b).

Definition set_error_log (v : list string) (b : BackendExecState) : BackendExecState :=
  mkBackendExecState (fragment_instance_id b) (backend_address b)
    (fragment_idx b) (status b) (initiated b) (done b) (profile_created b) (profile b)
    v (stopwatch_running b).

Definition set_stopwatch_running (v : bool) (b : BackendExecState) : BackendExecState :=
  mkBackendExecState (fragment_instance_id b) (backend_address b)
    (fragment_idx b) (status b) (initiated b) (done b) (profile_created b) (profile b)
    (error_log b) v.

(** BackendExecState's constructor: initiated, done and profile_created
    false, a default (OK) status, an empty log. *)
Definition BackendExecState_new (instance_id : TUniqueId) (address : string)
    (fragment : nat) : BackendExecState :=
  mkBackendExecState instance_id address fragment Status_OK
    false false false [] [] false.

(** HDFS bulk operations (util/hdfs-bulk-ops.h): the kind of an operation and
    its arguments. *)
Inductive HdfsOpType := DELETE | CREATE_DIR | RENAME | DELETE_THEN_CREATE.

Record HdfsOp := mkHdfsOp {
  op : HdfsOpType;
  src : string;
  dst : string
}.

Definition HdfsOpType_eqb (a b : HdfsOpType) : bool :=
  match a, b with
  | DELETE, DELETE | CREATE_DIR, CREATE_DIR | RENAME, RENAME
  | DELETE_THEN_CREATE, DELETE_THEN_CREATE => true
  | _, _ => false
  end.

(** libhdfs: tObjectKind and the two fields of hdfsFileInfo that are read. *)
Inductive tObjectKind := kObjectKindFile | kObjectKindDirectory.

Record hdfsFileInfo := mkhdfsFileInfo {
  mKind : tObjectKind;
  mName : string
}.

Definition is_kObjectKindFile (k : tObjectKind) : bool :=
  match k with kObjectKindFile => true | kObjectKindDirectory => false end.

(** Calls made to collaborators, in the order they are made.  This is a
    ghost trace: the code keeps no such list. *)
Inductive Effect :=
| ExecutorPrepare
| ExecutorOpen
| ExecutorGetNext
| ExecutorCancel
| ExecutorReleaseThreadToken
| StreamMgrCancel
| ExecPlanFragmentRpc (backend : nat)
| ExecPlanFragmentRetry (backend : nat)
| CancelPlanFragmentRpc (backend : nat)
| CancelPlanFragmentRetry (backend : nat)
| NotifyAll
| QuerySummary
| FinalizeQueryCall
| InsertStatsInfo.

(** What went wrong in a run that a release build does not notice: a DCHECK
    that would have failed, or a NULL BackendExecState that was read. *)
Inductive Fault :=
| DcheckFailed (what : string)
| NullDereference (what : string).

(** The outcome of the CancelPlanFragment exchange with one backend
    (lines 957-996). *)
Inductive CancelRpcOutcome :=
| CancelConnectFailed (st : Status)
| CancelReturned (res : Status)
| CancelReopenFailed (st : Status)
| CancelRetryReturned (res : Status)
| CancelRetryThrew (what : string).

(** The outcome of the ExecPlanFragment exchange with one backend
    (lines 869-901). *)
Inductive ExecRpcOutcome :=
| ExecConnectFailed (st : Status)
| ExecReturned (res : Status)
| ExecReopenFailed (st : Status)
| ExecRetryReturned (res : Status)
| ExecRetryThrew (what : string).

(** A call that waits on backend_completion_cv_ either returns or stays
    blocked because nothing wakes it any more. *)
Inductive Outcome (A : Type) :=
| Returned (a : A)
| Blocked.
Arguments Returned {A} a.
Arguments Blocked {A}.

(** TInsertStats is opaque to the coordinator (it only passes the values to
    DataSink); an integer stands for one.  The same holds for a RowBatch and a
    TRuntimeProfileTree. *)
Definition TInsertStats : Type := Z.
Definition RowBatch : Type := Z.
Definition TRuntimeProfileTree : Type := Z.

(** TInsertExecStatus; insert_stats with its __isset bit. *)
Record TInsertExecStatus := mkTInsertExecStatus {
  num_appended_rows : gmap string Z;
  files_to_move : gmap string string;
  insert_stats : option (gmap string TInsertStats)
}.

(** The write-side outputs of the local RuntimeState that Wait copies:
    hdfs_files_to_move(), num_appended_rows() and insert_stats(). *)
Module RuntimeState.
Record RuntimeState := mkRuntimeState {
  hdfs_files_to_move : gmap string string;
  num_appended_rows : gmap string Z;
  insert_stats : gmap string TInsertStats
}.
End RuntimeState.
Export RuntimeState (RuntimeState, mkRuntimeState).

(** TReportExecStatusParams; the optional fields with their __isset bits. *)
Module Report.
Record TReportExecStatusParams := mkTReportExecStatusParams {
  backend_num : Z;
  status : Status;
  done : bool;
  profile : TRuntimeProfileTree;
  error_log : option (list string);
  insert_exec_status : option TInsertExecStatus
}.
End Report.
Export Report (TReportExecStatusParams, mkTReportExecStatusParams).

(** The Coordinator's members that the modelled methods read or write.
    [executor_] says whether executor_.get() != NULL.  [effects_] and
    [faults_] are ghost fields (see Effect and Fault). *)
Record Coordinator := mkCoordinator {
  query_id_ : TUniqueId;
  has_called_wait_ : bool;
  returned_all_results_ : bool;
  executor_ : bool;
  backend_exec_states_ : list (option BackendExecState);
  needs_finalization_ : bool;
  finalize_params_ : TFinalizeParams;
  stmt_type_ : TStmtType;
  query_status_ : Status;
  num_remaining_backends_ : Z;
  partition_row_counts_ : gmap string Z;
  files_to_move_ : gmap string string;
  partition_insert_stats_ : gmap string TInsertStats;
  effects_ : list Effect;
  faults_ : list Fault
}.

Definition set_has_called_wait_ (v : bool) (c : Coordinator) : Coordinator :=
  mkCoordinator (query_id_ c) v (returned_all_results_ c) (executor_ c)
    (backend_exec_states_ c) (needs_finalization_ c) (finalize_params_ c) (stmt_type_ c)
    (query_status_ c) (num_remaining_backends_ c) (partition_row_counts_ c)
    (files_to_move_ c) (partition_insert_stats_ c) (effects_ c) (faults_ c).

Definition set_returned_all_results_ (v : bool) (c : Coordinator) : Coordinator :=
  mkCoordinator (query_id_ c) (has_called_wait_ c) v (executor_ c)
    (backend_exec_states_ c) (needs_finalization_ c) (finalize_params_ c) (stmt_type_ c)
    (query_status_ c) (num_remaining_backends_ c) (partition_row_counts_ c)
    (files_to_move_ c) (partition_insert_stats_ c) (effects_ c) (faults_ c).

Definition set_backend_exec_states_ (v : list (option BackendExecState))
    (c : Coordinator) : Coordinator :=
  mkCoordinator (query_id_ c) (has_called_wait_ c) (returned_all_results_ c) (executor_ c)
    v (needs_finalization_ c) (finalize_params_ c) (stmt_type_ c)
    (query_status_ c) (num_remaining_backends_ c) (partition_row_counts_ c)
    (files_to_move_ c) (partition_insert_stats_ c) (effects_ c) (faults_ c).

Definition set_query_status_ (v : Status) (c : Coordinator) : Coordinator :=
  mkCoordinator (query_id_ c) (has_called_wait_ c) (returned_all_results_ c) (executor_ c)
    (backend_exec_states_ c) (needs_finalization_ c) (finalize_params_ c) (stmt_type_ c)
    v (num_remaining_backends_ c) (partition_row_counts_ c)
    (files_to_move_ c) (partition_insert_stats_ c) (effects_ c) (faults_ c).

Definition set_num_remaining_backends_ (v : Z) (c : Coordinator) : Coordinator :=
  mkCoordinator (query_id_ c) (has_called_wait_ c) (returned_all_results_ c) (executor_ c)
    (backend_exec_states_ c) (needs_finalization_ c) (finalize_params_ c) (stmt_type_ c)
    (query_status_ c) v (partition_row_counts_ c)
    (files_to_move_ c) (partition_insert_stats_ c) (effects_ c) (faults_ c).

Definition set_write_outputs (rows : gmap string Z) (files : gmap string string)
    (stats : gmap string TInsertStats) (c : Coordinator) : Coordinator :=
  mkCoordinator (query_id_ c) (has_called_wait_ c) (returned_all_results_ c) (executor_ c)
    (backend_exec_states_ c) (needs_finalization_ c) (finalize_params_ c) (stmt_type_ c)
    (query_status_ c) (num_remaining_backends_ c) rows files stats
    (effects_ c) (faults_ c).

(** Appends to the ghost trace. *)
Definition emit (evs : list Effect) (c : Coordinator) : Coordinator :=
  mkCoordinator (query_id_ c) (has_called_wait_ c) (returned_all_results_ c) (executor_ c)
    (backend_exec_states_ c) (needs_finalization_ c) (finalize_params_ c) (stmt_type_ c)
    (query_status_ c) (num_remaining_backends_ c) (partition_row_counts_ c)
    (files_to_move_ c) (partition_insert_stats_ c) (effects_ c ++ evs) (faults_ c).

Definition fault (fs : list Fault) (c : Coordinator) : Coordinator :=
  mkCoordinator (query_id_ c) (has_called_wait_ c) (returned_all_results_ c) (executor_ c)
    (backend_exec_states_ c) (needs_finalization_ c) (finalize_params_ c) (stmt_type_ c)
    (query_status_ c) (num_remaining_backends_ c) (partition_row_counts_ c)
    (files_to_move_ c) (partition_insert_stats_ c) (effects_ c) (faults_ c ++ fs).

(** DCHECK(cond): a failed check is recorded, the run goes on. *)
Definition DCHECK (cond : bool) (what : string) (c : Coordinator) : Coordinator :=
  if cond then c else fault [DcheckFailed what] c.

(** Coordinator::Coordinator(exec_env).  needs_finalization_, finalize_params_
    and stmt_type_ have no initializer; Exec assigns them first thing, and the
    values here are never read. *)
Definition Coordinator_new : Coordinator :=
  mkCoordinator (mkTUniqueId 0 0) false false false [] false
    (mkTFinalizeParams false EmptyString None) QUERY Status_OK 0 ∅ ∅ ∅ [] [].

(** What other threads do to the Coordinator while a thread waits on
    backend_completion_cv_: RPC handler threads deliver reports, and some
    thread may call Cancel. *)
Inductive Event :=
| ReportArrives (params : TReportExecStatusParams)
| CancelCalled (cause : option Status).

(** TPartitionType::type, as far as Exec tells it apart. *)
Inductive TPartitionType := UNPARTITIONED | OTHER_PARTITION_TYPE (code : Z).

Definition is_UNPARTITIONED (t : TPartitionType) : bool :=
  match t with UNPARTITIONED => true | OTHER_PARTITION_TYPE _ => false end.

(** FragmentExecParams: the hosts of a fragment's instances and their ids,
    aligned by index. *)
Record FragmentExecParams := mkFragmentExecParams {
  hosts : list string;
  instance_ids : list TUniqueId
}.

(** The QuerySchedule with its TQueryExecRequest, as far as Exec reads them:
    request().fragments[i].partition.type, exec_params(), num_backends(),
    request().finalize_params with its __isset bit, request().stmt_type and
    query_id(). *)
Record QuerySchedule := mkQuerySchedule {
  fragments : list TPartitionType;
  exec_params : list FragmentExecParams;
  num_backends : nat;
  finalize_params : option TFinalizeParams;
  stmt_type : TStmtType;
  query_id : TUniqueId
}.

End Coord.
Import DebugAction Coord.

(** ** Sample collaborators

    Answers of the collaborators for the worked examples at the end: RPCs
    that succeed, a file system that never changes and reports an error for
    every CREATE_DIR and DELETE, and the Thrift tables. *)

Module Sample.

Definition PrintId (id : TUniqueId) (separator : string) : string := "id".

Definition cancel_rpc (backend : nat) : CancelRpcOutcome := CancelReturned Status_OK.

Definition exec_rpc (backend : nat) : ExecRpcOutcome := ExecReturned Status_OK.

Definition MergeInsertStats (stats target : gmap string TInsertStats)
  : gmap string TInsertStats := target ∪ stats.

Definition PartitionRowCount_order (m : gmap string Z) : list (string * Z) := map_to_list m.

Definition FileMoveMap_order (m : gmap string string) : list (string * string) :=
  map_to_list m.

(** The root directory of the sample table: a data file, a hidden file and a
    directory. *)
Definition root_files : list hdfsFileInfo :=
  [ mkhdfsFileInfo kObjectKindFile "/t/data0";
    mkhdfsFileInfo kObjectKindFile "/t/.hidden";
    mkhdfsFileInfo kObjectKindDirectory "/t/staging" ].

Definition hdfsListDirectory (fs : unit) (path : string) : option (list hdfsFileInfo) :=
  Some root_files.

Definition hdfsExists (fs : unit) (path : string) : Z := 0.

Definition hdfsDelete (fs : unit) (path : string) (recursive : Z) : unit := tt.

Definition Execute (fs : unit) (ops : list HdfsOp) : unit * list (HdfsOp * string) :=
  (tt,
   flat_map
     (fun o =>
        match op o with
        | CREATE_DIR => [(o, "File exists")]
        | DELETE => [(o, "Permission denied")]
        | _ => []
        end)
     ops).

(** A file is hidden when its name has a dot after the last slash. *)
Fixpoint IsHiddenFile (name : string) : bool :=
  match name with
  | EmptyString => false
  | String c rest => Ascii.eqb c "."%char || IsHiddenFile rest
  end.

Definition path_filename (path : string) : string := path.

Definition GetHdfsErrorMsg (prefix file : string) : Status := Status_of_msg (prefix +:+ file).

Definition TExecNodePhase_VALUES_TO_NAMES : list (Z * string) :=
  [(0, "PREPARE"); (1, "OPEN"); (2, "GETNEXT"); (3, "CLOSE"); (4, "INVALID")].

Definition TDebugAction_VALUES_TO_NAMES : list (Z * string) := [(0, "WAIT"); (1, "FAIL")].

Definition atoi (s : string) : Z := 0.

(** A schedule without a coordinator fragment: one partitioned fragment on
    one host. *)
Definition insert_schedule : QuerySchedule :=
  mkQuerySchedule [OTHER_PARTITION_TYPE 1] [mkFragmentExecParams ["host1"] [mkTUniqueId 1 1]]
    1 None DML (mkTUniqueId 7 7).

(** A schedule with a coordinator fragment and one remote fragment on one
    host. *)
Definition select_schedule : QuerySchedule :=
  mkQuerySchedule [UNPARTITIONED; OTHER_PARTITION_TYPE 1]
    [mkFragmentExecParams ["coord"] [mkTUniqueId 1 0];
     mkFragmentExecParams ["host1"] [mkTUniqueId 1 1]]
    1 None QUERY (mkTUniqueId 7 7).

(** A DML schedule whose sink is in the coordinator fragment: a coordinator
    fragment and one remote fragment on one host, without finalization. *)
Definition dml_schedule : QuerySchedule :=
  mkQuerySchedule [UNPARTITIONED; OTHER_PARTITION_TYPE 1]
    [mkFragmentExecParams ["coord"] [mkTUniqueId 1 0];
     mkFragmentExecParams ["host1"] [mkTUniqueId 1 1]]
    1 None DML (mkTUniqueId 7 7).

(** A schedule with a coordinator fragment and one remote fragment on two
    hosts. *)
Definition select_two_schedule : QuerySchedule :=
  mkQuerySchedule [UNPARTITIONED; OTHER_PARTITION_TYPE 1]
    [mkFragmentExecParams ["coord"] [mkTUniqueId 1 0];
     mkFragmentExecParams ["host1"; "host2"] [mkTUniqueId 1 1; mkTUniqueId 1 2]]
    2 None QUERY (mkTUniqueId 7 7).

(** Reports of backend 0 with done set: one with an OK status, one with an
    error. *)
Definition ok_report : TReportExecStatusParams :=
  mkTReportExecStatusParams 0 Status_OK true 0 None None.

Definition error_report : TReportExecStatusParams :=
  mkTReportExecStatusParams 0 (Status_of_msg "parse error") true 0 None None.

(** Reports of backends 0 and 1 of an INSERT, each with rows appended to
    partition p=1 and a file to move. *)
Definition insert_report (backend : Z) (rows : Z) (file : string) : TReportExecStatusParams :=
  mkTReportExecStatusParams backend Status_OK true 0 None
    (Some (mkTInsertExecStatus {[ "p=1" := rows ]} {[ file := "/t/p=1/" +:+ file ]} None)).

(** A Coordinator with two backends that are running, as Exec leaves it. *)
Definition two_backends : Coordinator :=
  mkCoordinator (mkTUniqueId 7 7) false false false
    [Some (mkBackendExecState (mkTUniqueId 1 1) "host1" 0 Status_OK true false false [] []
             true);
     Some (mkBackendExecState (mkTUniqueId 1 2) "host2" 0 Status_OK true false false [] []
             true)]
    true (mkTFinalizeParams false "/t" (Some "/staging")) DML Status_OK 2 ∅ ∅ ∅ [] [].

(** The sample table after an INSERT OVERWRITE into its root, and after an
    INSERT into partition p=1. *)
Definition overwrite_root : Coordinator :=
  mkCoordinator (mkTUniqueId 7 7) true false false [] true
    (mkTFinalizeParams true "/t" (Some "/staging")) DML Status_OK 0
    {[ EmptyString := 5 ]} ∅ ∅ [] [].

Definition append_partition : Coordinator :=
  mkCoordinator (mkTUniqueId 7 7) true false false [] true
    (mkTFinalizeParams false "/t" (Some "/staging")) DML Status_OK 0
    {[ "p=1" := 5 ]} ∅ ∅ [] [].

End Sample.

Section Model.

(** ** Debug options: the functions (lines 235-283, 386-387, 405-410) *)

(** The generated Thrift tables and enum values (gen-cpp is not under src/).
    A std::map<int, const char*> is read in ascending key order; the list is
    the table in that order. *)
Variable TExecNodePhase_VALUES_TO_NAMES : list (Z * string).
Variable TDebugAction_VALUES_TO_NAMES : list (Z * string).
Variable TExecNodePhase_INVALID : Z.
Variable TExecNodePhase_CLOSE : Z.
Variable TDebugAction_WAIT : Z.
(** atoi of the C library. *)
Variable atoi : string -> Z.

(** The loop shared by GetExecNodePhase and GetDebugAction: the first entry
    whose name equals [key] up to case, else [dflt]. *)
Fixpoint find_name (table : list (Z * string)) (key : string) (dflt : Z) : Z :=
  match table with
  | [] => dflt
  | entry :: rest =>
      if iequals key (snd entry) then fst entry else find_name rest key dflt
  end.

Definition GetExecNodePhase (key : string) : Z :=
  find_name TExecNodePhase_VALUES_TO_NAMES key TExecNodePhase_INVALID.

Definition GetDebugAction (key : string) : Z :=
  find_name TDebugAction_VALUES_TO_NAMES key TDebugAction_WAIT.

(** DebugOptions::DebugOptions() *)
Definition DebugOptions_default : DebugOptions :=
  mkDebugOptions (-1) (-1) TDebugAction_WAIT TExecNodePhase_INVALID.

Definition close_wait_msg : string :=
  "Do not use CLOSE:WAIT debug actions because nodes cannot be cancelled in Close()".

(** ProcessQueryOptions(query_options, debug_options): the options after the
    call and the DCHECKs that failed. *)
Definition ProcessQueryOptions (query_options : TQueryOptions)
    (debug_options : DebugOptions) : DebugOptions * list Fault :=
  match debug_action query_options with
  | None =>
      (mkDebugOptions (backend_num debug_options) (node_id debug_options)
         (action debug_options) TExecNodePhase_INVALID, [])
  | Some s =>
      if String.eqb s EmptyString then
        (mkDebugOptions (backend_num debug_options) (node_id debug_options)
           (action debug_options) TExecNodePhase_INVALID, [])
      else
        let components := split s in
        let size := length components in
        if (size <? 3)%nat || (4 <? size)%nat then (debug_options, [])
        else
          let component i := nth i components EmptyString in
          let d :=
            if (size =? 3)%nat then
              mkDebugOptions (-1) (atoi (component 0%nat))
                (GetDebugAction (component 2%nat)) (GetExecNodePhase (component 1%nat))
            else
              mkDebugOptions (atoi (component 0%nat)) (atoi (component 1%nat))
                (GetDebugAction (component 3%nat)) (GetExecNodePhase (component 2%nat)) in
          (d, if negb (Z.eqb (phase d) TExecNodePhase_CLOSE
                        && Z.eqb (action d) TDebugAction_WAIT)
              then [] else [DcheckFailed close_wait_msg])
  end.

(** Exec, lines 405-410: the debug options handed to backend [num], NULL
    (None) when there are none for it. *)
Definition backend_debug_options (debug_options : DebugOptions) (num : Z)
  : option DebugOptions :=
  if negb (Z.eqb (phase debug_options) TExecNodePhase_INVALID)
     && (Z.eqb (backend_num debug_options) (-1)
         || Z.eqb (backend_num debug_options) num)
  then Some debug_options else None.

(** Exec, lines 386-387: a default-constructed DebugOptions goes through
    ProcessQueryOptions. *)
Definition exec_debug_options (query_options : TQueryOptions) : DebugOptions :=
  fst (ProcessQueryOptions query_options DebugOptions_default).

(** ** Cancellation and status updates (lines 462-487, 909-1001, 1192-1278) *)

(** PrintId(id, separator), also used for operator<< with ":". *)
Variable PrintId : TUniqueId -> string -> string.
(** What the CancelPlanFragment exchange with backend [i] yields. *)
Variable cancel_rpc : nat -> CancelRpcOutcome.
(** DataSink::MergeInsertStats(stats, &target): the new target. *)
Variable MergeInsertStats :
  gmap string TInsertStats -> gmap string TInsertStats -> gmap string TInsertStats.
(** The order in which a PartitionRowCount (a map from partition key to row
    count) is iterated. *)
Variable PartitionRowCount_order : gmap string Z -> list (string * Z).
Hypothesis PartitionRowCount_order_perm :
  forall m : gmap string Z, PartitionRowCount_order m ≡ₚ map_to_list m.
(** The order in which a FileMoveMap is iterated. *)
Variable FileMoveMap_order : gmap string string -> list (string * string).

(** boost::algorithm::join(msgs, sep) *)
Definition join (msgs : list string) (sep : string) : string := String.concat sep msgs.

(** ReportQuerySummary: returns at once before Wait has been called;
    otherwise it recomputes and sorts the profiles, which is recorded as one
    QuerySummary.  It reads every BackendExecState, so a NULL one is a
    fault. *)
Definition ReportQuerySummary (c : Coordinator) : Coordinator :=
  if negb (has_called_wait_ c) then c
  else
    let c := emit [QuerySummary] c in
    if existsb (fun s => match s with None => true | Some _ => false end)
         (backend_exec_states_ c)
    then fault [NullDereference "ReportQuerySummary"] c else c.

(** The body of the loop of CancelRemoteFragments for backend_exec_states_[i]:
    the state afterwards and the RPCs sent. *)
Definition cancel_exec_state (query_id : TUniqueId) (i : nat)
    (exec_state : option BackendExecState) : option BackendExecState * list Effect :=
  match exec_state with
  | None => (None, [])
  | Some b =>
      if negb (ok (status b)) then (Some b, [])
      else if negb (initiated b) then (Some b, [])
      else if done b then (Some b, [])
      else
        let b := set_status Status_CANCELLED b in
        match cancel_rpc i with
        | CancelConnectFailed _ => (Some b, [])
        | CancelReturned res =>
            (Some (if negb (ok res)
                   then set_status (AddErrorMsg (status b) (join (error_msgs res) "; ")) b
                   else b),
             [CancelPlanFragmentRpc i])
        | CancelReopenFailed st =>
            (Some (set_status (AddError (status b) st) b), [CancelPlanFragmentRpc i])
        | CancelRetryReturned res =>
            (Some (if negb (ok res)
                   then set_status (AddErrorMsg (status b) (join (error_msgs res) "; ")) b
                   else b),
             [CancelPlanFragmentRpc i; CancelPlanFragmentRetry i])
        | CancelRetryThrew what =>
            (Some (set_status
                     (AddErrorMsg (status b)
                        ("CancelPlanFragment rpc query_id=" +:+ PrintId query_id ":"
                         +:+ " instance_id=" +:+ PrintId (fragment_instance_id b) ":"
                         +:+ " failed: " +:+ what)) b),
             [CancelPlanFragmentRpc i; CancelPlanFragmentRetry i])
        end
  end.

(** The loop of CancelRemoteFragments from index [i] on. *)
Fixpoint cancel_exec_states (query_id : TUniqueId) (i : nat)
    (states : list (option BackendExecState))
  : list (option BackendExecState) * list Effect :=
  match states with
  | [] => ([], [])
  | exec_state :: rest =>
      let r := cancel_exec_state query_id i exec_state in
      let rs := cancel_exec_states query_id (S i) rest in
      (fst r :: fst rs, snd r ++ snd rs)
  end.

Definition CancelRemoteFragments (c : Coordinator) : Coordinator :=
  let r := cancel_exec_states (query_id_ c) 0 (backend_exec_states_ c) in
  emit (snd r ++ [NotifyAll]) (set_backend_exec_states_ (fst r) c).

Definition CancelInternal (c : Coordinator) : Coordinator :=
  let c := DCHECK (negb (ok (query_status_ c))) "!query_status_.ok()" c in
  let c := if executor_ c then emit [ExecutorCancel] c else c in
  let c := CancelRemoteFragments c in
  ReportQuerySummary c.

(** Cancel(cause); [None] is the NULL cause. *)
Definition Cancel (cause : option Status) (c : Coordinator) : Coordinator :=
  if negb (ok (query_status_ c)) then c
  else
    let st :=
      match cause with
      | Some s => if negb (ok s) then s else Status_CANCELLED
      | None => Status_CANCELLED
      end in
    CancelInternal (set_query_status_ st c).

(** UpdateStatus(status, instance_id); the instance id is only logged. *)
Definition UpdateStatus (st : Status) (c : Coordinator) : Status * Coordinator :=
  if returned_all_results_ c && IsCancelled st then (query_status_ c, c)
  else if ok st then (query_status_ c, c)
  else if negb (ok (query_status_ c)) then (query_status_ c, c)
  else
    let c := CancelInternal (set_query_status_ st c) in
    (query_status_ c, c).

(** GetStatus() *)
Definition GetStatus (c : Coordinator) : Status := query_status_ c.

(** ** Status reports (lines 1003-1123) *)

(** partition_row_counts_[key] += rows, on int64_t; operator[] starts a
    missing key at 0. *)
Definition add_appended_rows (counts : gmap string Z) (partition : string * Z)
  : gmap string Z :=
  <[fst partition := wrap64 (default 0 (counts !! fst partition) + snd partition)]> counts.

(** The block guarded by params.done && params.__isset.insert_exec_status
    (lines 1055-1072).  std::map::insert(first, last) keeps the entry of a
    key that is already present. *)
Definition merge_insert_exec_status (ies : TInsertExecStatus) (c : Coordinator)
  : Coordinator :=
  set_write_outputs
    (fold_left add_appended_rows (PartitionRowCount_order (num_appended_rows ies))
       (partition_row_counts_ c))
    (files_to_move_ c ∪ files_to_move ies)
    (match insert_stats ies with
     | Some stats => MergeInsertStats stats (partition_insert_stats_ c)
     | None => partition_insert_stats_ c
     end)
    c.

(** The block under the state's lock (lines 1014-1053), without the scan
    range counters. *)
Definition update_exec_state (params : TReportExecStatusParams)
    (exec_state : BackendExecState) : BackendExecState :=
  let b := exec_state in
  let b := if negb (ok (Report.status params)) then set_status (Report.status params) b
           else b in
  let b := set_done (Report.done params) b in
  let b := if ok (status b) then set_profile (profile b ++ [Report.profile params]) b
           else b in
  let b := set_profile_created true b in
  match Report.error_log params with
  | Some log =>
      if (0 <? length log)%nat then set_error_log (error_log b ++ log) b else b
  | None => b
  end.

(** The block guarded by params.done at the end (lines 1098-1120). *)
Definition backend_completed (n : nat) (c : Coordinator) : Coordinator :=
  let c :=
    set_backend_exec_states_
      (alter (fmap (set_stopwatch_running false)) n (backend_exec_states_ c)) c in
  let c := DCHECK (0 <? num_remaining_backends_ c) "num_remaining_backends_ > 0" c in
  let c := set_num_remaining_backends_ (wrap32 (num_remaining_backends_ c - 1)) c in
  if num_remaining_backends_ c =? 0 then emit [NotifyAll] c else c.

(** UpdateFragmentExecStatus(params).  params.backend_num is an int compared
    with a size_t, so a negative number is out of range as well.  A slot in
    range that is still NULL is dereferenced without a test (lines 1010-1015):
    that is recorded as a fault, and the OK of that branch stands for no
    result of the code. *)
Definition UpdateFragmentExecStatus (params : TReportExecStatusParams)
    (c : Coordinator) : Status * Coordinator :=
  if (Report.backend_num params <? 0)
     || (Z.of_nat (length (backend_exec_states_ c)) <=? Report.backend_num params)
  then (Status_of_code INTERNAL_ERROR "unknown backend number", c)
  else
    let n := Z.to_nat (Report.backend_num params) in
    match backend_exec_states_ c !! n with
    | Some (Some exec_state) =>
        let st := Report.status params in
        let c :=
          set_backend_exec_states_
            (<[n := Some (update_exec_state params exec_state)]> (backend_exec_states_ c))
            c in
        let c :=
          match Report.insert_exec_status params with
          | Some ies => if Report.done params then merge_insert_exec_status ies c else c
          | None => c
          end in
        if negb (returned_all_results_ c && IsCancelled st) && negb (ok st) then
          (Status_OK, snd (UpdateStatus st c))
        else if Report.done params then (Status_OK, backend_completed n c)
        else (Status_OK, c)
    | _ => (Status_OK, fault [NullDereference "UpdateFragmentExecStatus"] c)
    end.

(** ** Waiting for the backends (lines 626-640) *)

Definition handle (c : Coordinator) (e : Event) : Coordinator :=
  match e with
  | ReportArrives params => snd (UpdateFragmentExecStatus params c)
  | CancelCalled cause => Cancel cause c
  end.

Definition run (events : list Event) (c : Coordinator) : Coordinator :=
  fold_left handle events c.

(** WaitForAllBackends().  Each element of [wakeups] is what happened between
    two returns of backend_completion_cv_.wait(l); when the list runs out
    while the loop condition still holds, the caller stays blocked. *)
Fixpoint WaitForAllBackends (wakeups : list (list Event)) (c : Coordinator)
  : Outcome (Status * Coordinator) :=
  if (0 <? num_remaining_backends_ c) && ok (query_status_ c) then
    match wakeups with
    | [] => Blocked
    | events :: rest => WaitForAllBackends rest (run events c)
    end
  else Returned (query_status_ c, c).

(** ** INSERT finalization (lines 489-624) *)

(** The file system.  [FS] is its state; the calls made through libhdfs and
    HdfsOperationSet are functions of it. *)
Variable FS : Type.
(** hdfsListDirectory: NULL (None) or the entries of the directory. *)
Variable hdfsListDirectory : FS -> string -> option (list hdfsFileInfo).
(** hdfsExists: 0 when the path exists, -1 otherwise. *)
Variable hdfsExists : FS -> string -> Z.
(** hdfsDelete(fs, path, recursive): the file system afterwards. *)
Variable hdfsDelete : FS -> string -> Z -> FS.
(** Modelled from the spec: HdfsOperationSet::Execute (util/hdfs-bulk-ops.h is
    not under src/) runs the operations of a set and collects the ones that
    failed, each with its message, as errors(); it returns whether there was
    none. *)
Variable Execute : FS -> list HdfsOp -> FS * list (HdfsOp * string).
(** IsHiddenFile (util/hdfs-util.h). *)
Variable IsHiddenFile : string -> bool.
(** boost::filesystem::path(p).filename().string() *)
Variable path_filename : string -> string.
(** GetHdfsErrorMsg(prefix, file) (util/hdfs-util.h). *)
Variable GetHdfsErrorMsg : string -> string -> Status.

(** operator<< of an unsigned size. *)
Definition print_size (n : nat) : string := NilEmpty.string_of_uint (Nat.to_uint n).

(** What the first loop adds to partition_create_ops for one file of the
    root directory (lines 519-522). *)
Definition root_file_ops (file : hdfsFileInfo) : list HdfsOp :=
  if is_kObjectKindFile (mKind file) && negb (IsHiddenFile (path_filename (mName file)))
  then [mkHdfsOp DELETE (mName file) EmptyString] else [].

(** The body of the first loop for one partition (lines 497-539): an early
    return with a status, or the operations added, and the DCHECKs that
    failed. *)
Definition partition_ops (fs : FS) (params : TFinalizeParams) (num_partitions : nat)
    (partition : string * Z) : (Status + list HdfsOp) * list Fault :=
  let part_path := hdfs_base_dir params +:+ "/" +:+ fst partition in
  if is_overwrite params then
    if String.eqb (fst partition) EmptyString then
      let faults :=
        if (num_partitions =? 1)%nat then []
        else [DcheckFailed "partition_row_counts_.size() == 1"] in
      match hdfsListDirectory fs part_path with
      | None => (inl (GetHdfsErrorMsg "Could not list directory: " part_path), faults)
      | Some existing_files => (inr (concat (map root_file_ops existing_files)), faults)
      end
    else if negb (hdfsExists fs part_path =? -1) then
      (inr [mkHdfsOp DELETE_THEN_CREATE part_path EmptyString], [])
    else (inr [mkHdfsOp CREATE_DIR part_path EmptyString], [])
  else (inr [mkHdfsOp CREATE_DIR part_path EmptyString], []).

(** The first loop (lines 495-540) over the partitions still to visit;
    [ops] is partition_create_ops so far. *)
Fixpoint partition_create_ops (fs : FS) (params : TFinalizeParams) (num_partitions : nat)
    (partitions : list (string * Z)) (ops : list HdfsOp)
  : (Status + list HdfsOp) * list Fault :=
  match partitions with
  | [] => (inr ops, [])
  | partition :: rest =>
      match partition_ops fs params num_partitions partition with
      | (inl st, faults) => (inl st, faults)
      | (inr new_ops, faults) =>
          let r := partition_create_ops fs params num_partitions rest (ops ++ new_ops) in
          (fst r, faults ++ snd r)
      end
  end.

(** The loop over the errors of partition_create_ops (lines 546-555): the
    status returned at the first error of an operation other than
    CREATE_DIR. *)
Definition first_fatal_error (errors : list (HdfsOp * string)) : option Status :=
  match List.find (fun err => negb (HdfsOpType_eqb (op (fst err)) CREATE_DIR)) errors with
  | Some err =>
      Some (Status_of_msg
              ("Error(s) deleting partition directories. First error (of "
               +:+ print_size (length errors) +:+ ") was: " +:+ snd err))
  | None => None
  end.

(** The second loop (lines 563-573): move_ops and dir_deletion_ops. *)
Fixpoint move_and_deletion_ops (moves : list (string * string))
  : list HdfsOp * list HdfsOp :=
  match moves with
  | [] => ([], [])
  | move :: rest =>
      let r := move_and_deletion_ops rest in
      if String.eqb (snd move) EmptyString
      then (fst r, mkHdfsOp DELETE (fst move) EmptyString :: snd r)
      else (mkHdfsOp RENAME (fst move) (snd move) :: fst r, snd r)
  end.

(** What a failed Execute of [what] returns (lines 578-581, 590-594). *)
Definition first_error_status (what : string) (errors : list (HdfsOp * string))
  : option Status :=
  match errors with
  | [] => None
  | err :: _ =>
      Some (Status_of_msg
              (what +:+ " First error (of " +:+ print_size (length errors)
               +:+ ") was: " +:+ snd err))
  end.

(** The second half of FinalizeSuccessfulInsert (lines 559-598): the staged
    files are moved, then the staging directories deleted. *)
Definition move_tmp_files (fs : FS) (c : Coordinator) : Status * FS :=
  let ops := move_and_deletion_ops (FileMoveMap_order (files_to_move_ c)) in
  let r2 := Execute fs (fst ops) in
  match first_error_status "Error(s) moving partition files." (snd r2) with
  | Some st => (st, fst r2)
  | None =>
      let r3 := Execute (fst r2) (snd ops) in
      match first_error_status "Error(s) deleting staging directories." (snd r3) with
      | Some st => (st, fst r3)
      | None => (Status_OK, fst r3)
      end
  end.

(** FinalizeSuccessfulInsert(): the returned status, the file system
    afterwards and the DCHECKs that failed. *)
Definition FinalizeSuccessfulInsert (fs : FS) (c : Coordinator)
  : Status * FS * list Fault :=
  match partition_create_ops fs (finalize_params_ c) (size (partition_row_counts_ c))
          (PartitionRowCount_order (partition_row_counts_ c)) [] with
  | (inl st, faults) => (st, fs, faults)
  | (inr create_ops, faults) =>
      let r1 := Execute fs create_ops in
      match first_fatal_error (snd r1) with
      | Some st => (st, fst r1, faults)
      | None => (move_tmp_files (fst r1) c, faults)
      end
  end.

Definition FinalizeQuery (fs : FS) (c : Coordinator) : Status * FS * Coordinator :=
  let c := DCHECK (has_called_wait_ c) "has_called_wait_" c in
  let c := DCHECK (needs_finalization_ c) "needs_finalization_" c in
  let c := emit [FinalizeQueryCall] c in
  let r :=
    if ok (GetStatus c) then FinalizeSuccessfulInsert fs c else (GetStatus c, fs, []) in
  let c := fault (snd r) c in
  let c :=
    DCHECK (bool_decide (is_Some (staging_dir (finalize_params_ c))))
      "finalize_params_.__isset.staging_dir" c in
  let staging :=
    default EmptyString (staging_dir (finalize_params_ c))
    +:+ "/" +:+ PrintId (query_id_ c) "_" +:+ "/" in
  (fst (fst r), hdfsDelete (snd (fst r)) staging 1, c).

(** ** Wait and GetNext (lines 642-746) *)

(** The end of Wait (lines 680-694): finalization, and the summary of a DML
    statement. *)
Definition finish_Wait (fs : FS) (c : Coordinator) : Status * FS * Coordinator :=
  let finalized :=
    if needs_finalization_ c then FinalizeQuery fs c else (Status_OK, fs, c) in
  if negb (ok (fst (fst finalized))) then finalized
  else
    let c := snd finalized in
    (Status_OK, snd (fst finalized),
     if TStmtType_is_DML (stmt_type_ c)
     then ReportQuerySummary (emit [InsertStatsInfo] c) else c).

(** Wait(), for a caller that holds wait_lock_.
    - [open_result] is what executor_->Open() returns and [during_open] what
      other threads do while it runs;
    - [state] is the local RuntimeState read after a successful Open;
    - [wakeups] feeds WaitForAllBackends;
    - [fs] is the file system before the call. *)
Definition Wait (open_result : Status) (during_open : list Event)
    (state : RuntimeState) (wakeups : list (list Event)) (fs : FS)
    (c : Coordinator) : Outcome (Status * FS * Coordinator) :=
  if has_called_wait_ c then Returned (Status_OK, fs, c)
  else
    let c := set_has_called_wait_ true c in
    if executor_ c then
      let c := run during_open (emit [ExecutorOpen] c) in
      let r := UpdateStatus open_result c in
      if ok (fst r) then
        let c := snd r in
        let c := DCHECK (size (files_to_move_ c) =? 0)%nat "files_to_move_.size() == 0" c in
        let c :=
          DCHECK (size (partition_row_counts_ c) =? 0)%nat
            "partition_row_counts_.size() == 0" c in
        Returned
          (finish_Wait fs
             (set_write_outputs (RuntimeState.num_appended_rows state)
                (RuntimeState.hdfs_files_to_move state)
                (RuntimeState.insert_stats state) c))
      else Returned (finish_Wait fs (snd r))
    else
      match WaitForAllBackends wakeups c with
      | Blocked => Blocked
      | Returned (st, c) =>
          if negb (needs_finalization_ c) && negb (ok st)
          then Returned (st, fs, c) else Returned (finish_Wait fs c)
      end.

(** GetNext(batch, state).
    - [next_result] and [next_batch] are what executor_->GetNext(batch) returns
      and stores, [during_next] what other threads do while it runs;
    - [reached_limit] is executor_->ReachedLimit();
    - [wakeups] feeds WaitForAllBackends.
    The result holds the returned status and *batch.  runtime_state() is not
    NULL where it is tested (line 726), since executor_ is not. *)
Definition GetNext (next_result : Status) (next_batch : option RowBatch)
    (during_next : list Event) (reached_limit : bool) (wakeups : list (list Event))
    (c : Coordinator) : Outcome (Status * option RowBatch * Coordinator) :=
  let c := DCHECK (has_called_wait_ c) "has_called_wait_" c in
  if negb (executor_ c) then Returned (GetStatus c, None, c)
  else
    let c := run during_next (emit [ExecutorGetNext] c) in
    let r := UpdateStatus next_result c in
    if negb (ok (fst r)) then Returned (fst r, next_batch, snd r)
    else
      let c := snd r in
      match next_batch with
      | Some _ => Returned (Status_OK, next_batch, c)
      | None =>
          let c := set_returned_all_results_ true c in
          let c :=
            if reached_limit then emit [StreamMgrCancel] (CancelRemoteFragments c)
            else c in
          match WaitForAllBackends wakeups c with
          | Blocked => Blocked
          | Returned (st, c) =>
              if negb (ok st) then Returned (st, None, c)
              else
                let c := if ok (query_status_ c) then ReportQuerySummary c else c in
                Returned (Status_OK, None, c)
          end
      end.

(** ** Exec (lines 285-455, 862-907) *)

(** What the ExecPlanFragment exchange with backend [i] yields. *)
Variable exec_rpc : nat -> ExecRpcOutcome.

(** ExecRemoteFragment(exec_state) for backend_exec_states_[i]: the returned
    status, the state afterwards and the RPCs sent. *)
Definition ExecRemoteFragment (query_id : TUniqueId) (i : nat)
    (exec_state : BackendExecState) : Status * BackendExecState * list Effect :=
  let finish res sent :=
    let b := set_status res exec_state in
    if ok res
    then (res, set_stopwatch_running true (set_initiated true b), sent)
    else (res, b, sent) in
  match exec_rpc i with
  | ExecConnectFailed st => (st, exec_state, [])
  | ExecReturned res => finish res [ExecPlanFragmentRpc i]
  | ExecReopenFailed st => (st, set_status st exec_state, [ExecPlanFragmentRpc i])
  | ExecRetryReturned res => finish res [ExecPlanFragmentRpc i; ExecPlanFragmentRetry i]
  | ExecRetryThrew what =>
      let st :=
        Status_of_msg
          ("ExecPlanRequest rpc query_id=" +:+ PrintId query_id ":"
           +:+ " instance_id=" +:+ PrintId (fragment_instance_id exec_state) ":"
           +:+ " failed: " +:+ what) in
      (st, set_status st exec_state, [ExecPlanFragmentRpc i; ExecPlanFragmentRetry i])
  end.

(** Modelled from the spec: ParallelExecutor::Exec (runtime/parallel-executor.h
    is not under src/) runs ExecRemoteFragment on the [num] states from index
    [i] on and returns the first error status, if any; the model takes the
    first in index order.  [first_error] is the status so far. *)
Fixpoint ParallelExecutor_Exec (i num : nat) (first_error : Status) (c : Coordinator)
  : Status * Coordinator :=
  match num with
  | O => (first_error, c)
  | S num' =>
      match backend_exec_states_ c !! i with
      | Some (Some exec_state) =>
          let r := ExecRemoteFragment (query_id_ c) i exec_state in
          let c :=
            emit (snd r)
              (set_backend_exec_states_
                 (<[i := Some (snd (fst r))]> (backend_exec_states_ c)) c) in
          ParallelExecutor_Exec (S i) num'
            (if ok first_error then fst (fst r) else first_error) c
      | _ =>
          ParallelExecutor_Exec (S i) num' first_error
            (fault [NullDereference "ExecRemoteFragment"] c)
      end
  end.

(** The inner loop of Exec (lines 404-420): the states of one fragment's
    instances from [instance_idx] on are put at backend_exec_states_[backend_num]
    and the following indices.  A write past the end of the vector is a
    fault. *)
Fixpoint set_up_exec_states (fragment_idx instance_idx : nat) (params : FragmentExecParams)
    (remaining_hosts : list string) (backend_num : nat) (c : Coordinator) : Coordinator :=
  match remaining_hosts with
  | [] => c
  | host :: rest =>
      let exec_state :=
        BackendExecState_new (nth instance_idx (instance_ids params) (mkTUniqueId 0 0))
          host fragment_idx in
      let c :=
        if (backend_num <? length (backend_exec_states_ c))%nat
        then set_backend_exec_states_
               (<[backend_num := Some exec_state]> (backend_exec_states_ c)) c
        else fault [NullDereference "backend_exec_states_[backend_num]"] c in
      set_up_exec_states fragment_idx (S instance_idx) params rest (S backend_num) c
  end.

(** The loop over the fragments (lines 397-436), for the fragment indices in
    [fragment_idxs]: the status to return from Exec, if the loop returns. *)
Fixpoint start_fragments (schedule : QuerySchedule) (fragment_idxs : list nat)
    (backend_num : nat) (c : Coordinator) : option Status * Coordinator :=
  match fragment_idxs with
  | [] => (None, c)
  | fragment_idx :: rest =>
      let params :=
        default (mkFragmentExecParams [] []) (exec_params schedule !! fragment_idx) in
      let num_hosts := length (hosts params) in
      let c := DCHECK (0 <? num_hosts)%nat "num_hosts > 0" c in
      let c := set_up_exec_states fragment_idx 0 params (hosts params) backend_num c in
      let r := ParallelExecutor_Exec backend_num num_hosts Status_OK c in
      if negb (ok (fst r)) then
        let c := DCHECK (ok (query_status_ (snd r))) "query_status_.ok()" (snd r) in
        (Some (fst r), CancelInternal (set_query_status_ (fst r) c))
      else start_fragments schedule rest (backend_num + num_hosts)%nat (snd r)
  end.

(** The members Exec assigns before anything else (lines 288-298), and
    executor_ (lines 318, 339). *)
Definition set_request (schedule : QuerySchedule) (has_executor : bool) (c : Coordinator)
  : Coordinator :=
  mkCoordinator (query_id schedule) (has_called_wait_ c) (returned_all_results_ c)
    has_executor (backend_exec_states_ c)
    (bool_decide (is_Some (finalize_params schedule)))
    (default (finalize_params_ c) (finalize_params schedule)) (stmt_type schedule)
    (query_status_ c) (num_remaining_backends_ c) (partition_row_counts_ c)
    (files_to_move_ c) (partition_insert_stats_ c) (effects_ c) (faults_ c).

(** Exec(schedule, output_exprs).  [prepare] is what executor_->Prepare
    returns, [create_expr_trees] and [expr_prepare] what Expr::CreateExprTrees
    and Expr::Prepare return.  The debug options only go into rpc_params (see
    DebugAction), and PrintBackendInfo only into the profiles. *)
Definition Exec (schedule : QuerySchedule) (prepare create_expr_trees expr_prepare : Status)
    (c : Coordinator) : Status * Coordinator :=
  let c := DCHECK (0 <? length (fragments schedule))%nat "request.fragments.size() > 0" c in
  let has_coordinator_fragment :=
    match fragments schedule with
    | partition_type :: _ => is_UNPARTITIONED partition_type
    | [] => false
    end in
  let c := set_request schedule has_coordinator_fragment c in
  let c := if has_coordinator_fragment then emit [ExecutorPrepare] c else c in
  if has_coordinator_fragment && negb (ok prepare) then (prepare, c)
  else if has_coordinator_fragment && negb (ok create_expr_trees) then (create_expr_trees, c)
  else if has_coordinator_fragment && negb (ok expr_prepare) then (expr_prepare, c)
  else
    let c :=
      set_num_remaining_backends_ (Z.of_nat (num_backends schedule))
        (set_backend_exec_states_
           (resize (num_backends schedule) None (backend_exec_states_ c)) c) in
    let first := if has_coordinator_fragment then 1%nat else 0%nat in
    let r :=
      start_fragments schedule (seq first (length (fragments schedule) - first)) 0 c in
    match fst r with
    | Some st => (st, snd r)
    | None =>
        let c := snd r in
        let c :=
          if has_coordinator_fragment && (1 <? length (fragments schedule))%nat
          then emit [ExecutorReleaseThreadToken] c else c in
        (Status_OK, c)
    end.

(** ** The error log, the catalog update and the scan-range progress
    (lines 211-222, 1134-1145, 1280-1295) *)






(** PrepareCatalogUpdate(catalog_update): the returned bool,
    catalog_update->created_partitions afterwards (a std::set<string>) and the
    DCHECK that failed. *)
Definition PrepareCatalogUpdate (created_partitions : gset string) (c : Coordinator)
  : bool * gset string * list Fault :=
  let created :=
    fold_left (fun created partition => {[ fst partition ]} ∪ created)
      (PartitionRowCount_order (partition_row_counts_ c)) created_partitions in
  (negb (size created =? 0)%nat, created,
   if has_called_wait_ c then [] else [DcheckFailed "has_called_wait_"]).

(** BackendExecState::UpdateNumScanRangesCompleted().  [values] are the
    values of the counters in scan_ranges_complete_counters, in the order of
    the map; the result is the returned delta, total_ranges_complete
    afterwards and the DCHECK that failed.  The arithmetic is on int64_t. *)
Definition UpdateNumScanRangesCompleted (values : list Z) (total_ranges_complete : Z)
  : Z * Z * list Fault :=
  let total := fold_left (fun total value => wrap64 (total + value)) values 0 in
  let delta := wrap64 (total - total_ranges_complete) in
  (delta, total, if 0 <=? delta then [] else [DcheckFailed "delta >= 0"]).

(** * Properties: what the statements are written with *)

(** No name of [table] equals [key] up to case. *)
Definition no_name_matches (table : list (Z * string)) (key : string) : bool :=
  forallb (fun entry => negb (iequals key (snd entry))) table.

(** The components of a debug_action string that name the phase and the
    action: the last but one and the last. *)
Definition phase_component (s : string) : string :=
  nth (length (split s) - 2) (split s) EmptyString.

Definition action_component (s : string) : string :=
  nth (length (split s) - 1) (split s) EmptyString.

(** The operations that delete the regular, non-hidden files among [files]. *)
Definition root_deletions (files : list hdfsFileInfo) : list HdfsOp :=
  map (fun file => mkHdfsOp DELETE (mName file) EmptyString)
    (List.filter
       (fun file =>
          is_kObjectKindFile (mKind file)
          && negb (IsHiddenFile (path_filename (mName file))))
       files).

(** The members that only Exec, Wait, GetNext and the merge of a report's
    insert status assign. *)
Definition bookkeeping (c : Coordinator) :=
  (query_id_ c, has_called_wait_ c, returned_all_results_ c, executor_ c,
   needs_finalization_ c, finalize_params_ c, stmt_type_ c,
   num_remaining_backends_ c, partition_row_counts_ c, files_to_move_ c,
   partition_insert_stats_ c).

(** Which slots of backend_exec_states_ hold a state. *)
Definition shape (c : Coordinator) : list bool :=
  map (fun s : option BackendExecState => bool_decide (is_Some s)) (backend_exec_states_ c).

(** How CancelRemoteFragments may change one slot: a state whose status is
    OK, that is initiated and not done gets a CANCELLED status; any other slot
    stays as it is. *)
Definition cancelled_or_same (s s' : option BackendExecState) : Prop :=
  match s, s' with
  | None, None => True
  | Some b, Some b' =>
      b' = b
      \/ (ok (status b) = true /\ initiated b = true /\ done b = false
          /\ IsCancelled (status b') = true /\ ok (status b') = false
          /\ exists st, b' = set_status st b)
  | _, _ => False
  end.

(** The done flag of every slot of backend_exec_states_ (None for NULL). *)
Definition done_flags (c : Coordinator) : list (option bool) :=
  map (fmap done) (backend_exec_states_ c).

(** The number of BackendExecStates whose done is false. *)
Definition not_done (flags : list (option bool)) : nat :=
  length (List.filter (fun f => match f with Some false => true | _ => false end) flags).

Definition count_not_done (c : Coordinator) : nat := not_done (done_flags c).

(** The worker protocol: a backend sends reports until the one with done set,
    and none after it.  A report is expected when it names a state that is
    not yet done. *)
Definition report_expected (flags : list (option bool)) (params : TReportExecStatusParams)
  : bool :=
  (0 <=? Report.backend_num params)
  && match flags !! Z.to_nat (Report.backend_num params) with
     | Some (Some false) => true
     | _ => false
     end.

Definition flags_after_report (flags : list (option bool))
    (params : TReportExecStatusParams) : list (option bool) :=
  <[Z.to_nat (Report.backend_num params) := Some (Report.done params)]> flags.

Fixpoint reports_expected (flags : list (option bool)) (events : list Event) : bool :=
  match events with
  | [] => true
  | CancelCalled _ :: rest => reports_expected flags rest
  | ReportArrives params :: rest =>
      report_expected flags params
      && reports_expected (flags_after_report flags params) rest
  end.

(** The events that a call of Wait or GetNext lets in, in order. *)
Definition Wait_events (c : Coordinator) (during_open : list Event)
    (wakeups : list (list Event)) : list Event :=
  if has_called_wait_ c then []
  else if executor_ c then during_open else concat wakeups.

Definition GetNext_events (c : Coordinator) (during_next : list Event)
    (wakeups : list (list Event)) : list Event :=
  if executor_ c then during_next ++ concat wakeups else [].

(** One completed call on the Coordinator after Exec.  [guard] restricts the
    reports that arrive: it is given the done flags before the call and the
    events the call lets in. *)
Inductive step (guard : list (option bool) -> list Event -> Prop)
  : Coordinator -> Coordinator -> Prop :=
| step_UpdateFragmentExecStatus params c :
    guard (done_flags c) [ReportArrives params] ->
    step guard c (snd (UpdateFragmentExecStatus params c))
| step_Cancel cause c :
    step guard c (Cancel cause c)
| step_UpdateStatus st c :
    step guard c (snd (UpdateStatus st c))
| step_Wait open_result during_open state wakeups fs c st fs' c' :
    guard (done_flags c) (Wait_events c during_open wakeups) ->
    Wait open_result during_open state wakeups fs c = Returned (st, fs', c') ->
    step guard c c'
| step_GetNext next_result next_batch during_next reached_limit wakeups c st batch c' :
    guard (done_flags c) (GetNext_events c during_next wakeups) ->
    GetNext next_result next_batch during_next reached_limit wakeups c
      = Returned (st, batch, c') ->
    step guard c c'.

(** Any reports at all. *)
Definition any_reports (flags : list (option bool)) (events : list Event) : Prop := True.

(** Only reports that follow the worker protocol. *)
Definition expected_reports (flags : list (option bool)) (events : list Event) : Prop :=
  reports_expected flags events = true.

(** How a call may change one slot of backend_exec_states_: a NULL slot stays
    NULL, a state stays a state, and a status that is not OK stays not OK. *)
Definition slot_evolves (s s' : option BackendExecState) : Prop :=
  match s, s' with
  | None, None => True
  | Some b, Some b' => ok (status b) = false -> ok (status b') = false
  | _, _ => False
  end.

(** What every call preserves. *)
Record evolves (c c' : Coordinator) : Prop := mkEvolves {
  evolves_query_status : ok (query_status_ c) = false -> query_status_ c' = query_status_ c;
  evolves_states : Forall2 slot_evolves (backend_exec_states_ c) (backend_exec_states_ c');
  evolves_executor : executor_ c' = executor_ c;
  evolves_has_called_wait : has_called_wait_ c = true -> has_called_wait_ c' = true;
  evolves_effects : exists added, effects_ c' = effects_ c ++ added
}.

(** The range of an int. *)
Definition INT_MAX : Z := 2147483647.

Definition INT_MIN : Z := -2147483648.

(** What holds of the counters in every state reached from Exec while the
    backends follow the worker protocol. *)
Record counters_ok_upto (waited : bool) (c : Coordinator) : Prop := mkCountersOk {
  counters_not_done : Z.of_nat (count_not_done c) <= num_remaining_backends_ c;
  counters_int : num_remaining_backends_ c <= INT_MAX;
  counters_waited :
    waited = true -> has_called_wait_ c = true -> executor_ c = false ->
    ok (query_status_ c) = false \/ num_remaining_backends_ c <= 0
}.

(** With [waited] false the last part is left out: it does not hold between
    the moment Wait sets has_called_wait_ and the return of
    WaitForAllBackends. *)
Definition counters_ok (c : Coordinator) : Prop := counters_ok_upto true c.

(** The states reached from a new Coordinator by Exec and then by calls
    during which the backends follow the worker protocol. *)
Definition reachable (c : Coordinator) : Prop :=
  exists schedule prepare create_expr_trees expr_prepare,
    Z.of_nat (num_backends schedule) <= INT_MAX
    /\ rtc (step expected_reports)
         (snd (Exec schedule prepare create_expr_trees expr_prepare Coordinator_new)) c.

(** The status that Cancel(cause) assigns. *)
Definition cancel_status (cause : option Status) : Status :=
  match cause with
  | Some s => if negb (ok s) then s else Status_CANCELLED
  | None => Status_CANCELLED
  end.

(** The Coordinator after the state named by a report has been updated and
    the report's insert status merged (lines 1014-1072). *)
Definition report_received (params : TReportExecStatusParams) (n : nat)
    (exec_state : BackendExecState) (c : Coordinator) : Coordinator :=
  let c :=
    set_backend_exec_states_
      (<[n := Some (update_exec_state params exec_state)]> (backend_exec_states_ c)) c in
  match Report.insert_exec_status params with
  | Some ies => if Report.done params then merge_insert_exec_status ies c else c
  | None => c
  end.

(** The backends to which a trace sends a CancelPlanFragment RPC (first
    attempts; a retry after a transport exception is a CancelPlanFragmentRetry). *)
Definition cancel_rpcs (effects : list Effect) : list nat :=
  flat_map (fun e => match e with CancelPlanFragmentRpc i => [i] | _ => [] end) effects.

(** A state that CancelRemoteFragments cancels: OK, initiated, not done. *)
Definition to_cancel (s : option BackendExecState) : Prop :=
  exists b, s = Some b /\ ok (status b) = true /\ initiated b = true /\ done b = false.

(** [k] further calls of Cancel, with any causes. *)
Definition Cancel_again (causes : list (option Status)) (c : Coordinator) : Coordinator :=
  fold_left (fun c cause => Cancel cause c) causes c.

(** The calls that only Wait makes: opening the local executor, finalizing,
    and adding the insert stats to the profile before the summary. *)
Definition is_wait_effect (e : Effect) : bool :=
  match e with
  | ExecutorOpen | FinalizeQueryCall | InsertStatsInfo => true
  | _ => false
  end.

Definition wait_effects (effects : list Effect) : list Effect :=
  List.filter is_wait_effect effects.

(** A change during which none of Wait's own calls is made. *)
Definition quiet (c c' : Coordinator) : Prop :=
  wait_effects (effects_ c') = wait_effects (effects_ c).

(** Whether params.backend_num names a BackendExecState of [c]. *)
Definition names_exec_state (c : Coordinator) (params : TReportExecStatusParams) : bool :=
  (0 <=? Report.backend_num params)
  && match backend_exec_states_ c !! Z.to_nat (Report.backend_num params) with
     | Some (Some _) => true
     | _ => false
     end.

(** The insert status of a report that names a state, has done set and
    carries one. *)
Definition merged_status (c : Coordinator) (params : TReportExecStatusParams)
  : option TInsertExecStatus :=
  if names_exec_state c params && Report.done params
  then Report.insert_exec_status params else None.

(** The row counts that the insert statuses [merged] hold for partition
    [key], in order. *)
Definition reported_rows (merged : list TInsertExecStatus) (key : string) : list Z :=
  omap (fun ies => num_appended_rows ies !! key) merged.

Definition sum_rows (rows : list Z) : Z := fold_right Z.add 0 rows.

Definition INT64_MAX : Z := 9223372036854775807.

(** The row counts of partition [key] are counts, and their sum with the
    count the Coordinator starts from is an int64_t. *)
Definition rows_fit (start : Z) (rows : list Z) : Prop :=
  0 <= start /\ Forall (fun v => 0 <= v) rows /\ start + sum_rows rows <= INT64_MAX.

(** A change that leaves the done flags, num_remaining_backends_,
    has_called_wait_ and executor_ as they are. *)
Record calm (c c' : Coordinator) : Prop := mkCalm {
  calm_flags : done_flags c' = done_flags c;
  calm_remaining : num_remaining_backends_ c' = num_remaining_backends_ c;
  calm_wait : has_called_wait_ c' = has_called_wait_ c;
  calm_executor : executor_ c' = executor_ c
}.

(** The done flags after the reports among [events]. *)
Fixpoint flags_after (flags : list (option bool)) (events : list Event)
  : list (option bool) :=
  match events with
  | [] => flags
  | CancelCalled _ :: rest => flags_after flags rest
  | ReportArrives params :: rest => flags_after (flags_after_report flags params) rest
  end.

(** A change during which num_remaining_backends_ does not grow and
    has_called_wait_ and executor_ stay as they are. *)
Record advances (c c' : Coordinator) : Prop := mkAdvances {
  advances_remaining : num_remaining_backends_ c' <= num_remaining_backends_ c;
  advances_wait : has_called_wait_ c' = has_called_wait_ c;
  advances_executor : executor_ c' = executor_ c
}.

(** A change that keeps the size of backend_exec_states_, the count of
    remaining backends and has_called_wait_. *)
Record sized (c c' : Coordinator) : Prop := mkSized {
  sized_length : length (backend_exec_states_ c') = length (backend_exec_states_ c);
  sized_remaining : num_remaining_backends_ c' = num_remaining_backends_ c;
  sized_wait : has_called_wait_ c' = has_called_wait_ c
}.

(** Whether UpdateFragmentExecStatus takes a report's status for an error of
    the query (line 1093). *)
Definition is_query_error (c : Coordinator) (st : Status) : bool :=
  negb (returned_all_results_ c && IsCancelled st) && negb (ok st).

(** [s] with every character in upper case. *)
Fixpoint upper (s : string) : string :=
  match s with
  | EmptyString => EmptyString
  | String c rest => String (to_upper c) (upper rest)
  end.

(** The first component of a debug_action string. *)
Definition first_component (s : string) : string := nth 0 (split s) EmptyString.

(** The members that Exec takes from the request and nothing assigns
    afterwards. *)
Definition request (c : Coordinator) :=
  (query_id_ c, needs_finalization_ c, finalize_params_ c, stmt_type_ c).

(** The condition of the loop of WaitForAllBackends (line 628). *)
Definition waiting (c : Coordinator) : bool :=
  (0 <? num_remaining_backends_ c) && ok (query_status_ c).

(** The Coordinator after the first [k] wake-ups of [wakeups]. *)
Definition after_wakeups (k : nat) (wakeups : list (list Event)) (c : Coordinator)
  : Coordinator :=
  run (concat (take k wakeups)) c.

(** The staging directory of the query, which FinalizeQuery removes
    (line 619). *)
Definition staging_path (c : Coordinator) : string :=
  default EmptyString (staging_dir (finalize_params_ c))
  +:+ "/" +:+ PrintId (query_id_ c) "_" +:+ "/".

(** The path of the partition with key [key] (line 501). *)
Definition partition_path (c : Coordinator) (key : string) : string :=
  hdfs_base_dir (finalize_params_ c) +:+ "/" +:+ key.

(** The lines that event [e] adds to the error log of backend [j]: the
    error_log of a report that names [j]. *)
Definition report_log_for (j : nat) (e : Event) : list string :=
  match e with
  | ReportArrives params =>
      if Report.backend_num params =? Z.of_nat j
      then default [] (Report.error_log params) else []
  | CancelCalled _ => []
  end.

(** How the calls after Exec change a BackendExecState: its identity
    stays, its error log grows by [added], and once its status is not OK its
    status stays an error and its profile stays as it is. *)
Definition extends_log (added : list string) (b b' : BackendExecState) : Prop :=
  fragment_instance_id b' = fragment_instance_id b
  /\ backend_address b' = backend_address b
  /\ error_log b' = error_log b ++ added
  /\ (ok (status b) = false -> ok (status b') = false /\ profile b' = profile b).

(** The deltas that successive calls of UpdateNumScanRangesCompleted return
    when the counters hold [values] at each call and total_ranges_complete is
    [total] before the first. *)
Fixpoint scan_range_deltas (calls : list (list Z)) (total : Z) : list Z :=
  match calls with
  | [] => []
  | values :: rest =>
      let r := UpdateNumScanRangesCompleted values total in
      fst (fst r) :: scan_range_deltas rest (snd (fst r))
  end.

(** total_ranges_complete after those calls. *)
Fixpoint scan_ranges_total (calls : list (list Z)) (total : Z) : Z :=
  match calls with
  | [] => total
  | values :: rest =>
      scan_ranges_total rest (snd (fst (UpdateNumScanRangesCompleted values total)))
  end.

(** The counters are counts whose sum is an int64_t, and from one call to
    the next the sum does not go down. *)
Fixpoint counters_grow (calls : list (list Z)) (total : Z) : Prop :=
  match calls with
  | [] => True
  | values :: rest =>
      Forall (fun v => 0 <= v) values
      /\ total <= sum_rows values <= INT64_MAX
      /\ counters_grow rest (sum_rows values)
  end.

(** Whether the request has a coordinator fragment (line 314). *)
Definition has_coordinator_fragment (schedule : QuerySchedule) : bool :=
  match fragments schedule with
  | partition_type :: _ => is_UNPARTITIONED partition_type
  | [] => false
  end.

(** The status that makes Exec return before it starts any backend
    (lines 328-335), if there is one. *)
Definition coordinator_fragment_error (schedule : QuerySchedule)
    (prepare create_expr_trees expr_prepare : Status) : option Status :=
  if negb (has_coordinator_fragment schedule) then None
  else if negb (ok prepare) then Some prepare
  else if negb (ok create_expr_trees) then Some create_expr_trees
  else if negb (ok expr_prepare) then Some expr_prepare
  else None.

(** A BackendExecState whose fragment instance has been started and has not
    reported since. *)
Definition started (b : BackendExecState) : Prop :=
  initiated b = true /\ ok (status b) = true /\ done b = false.

(** The answers of exec_rpc are what they say: a failure to connect or to
    reopen the connection carries a status that is not OK. *)
Definition exec_rpc_failures_are_errors : Prop :=
  forall i st,
    exec_rpc i = ExecConnectFailed st \/ exec_rpc i = ExecReopenFailed st -> ok st = false.

(** The number of summaries reported: the calls of ReportQuerySummary that
    got past its guard (line 1196). *)
Definition summaries (effects : list Effect) : nat :=
  length (List.filter (fun e => match e with QuerySummary => true | _ => false end) effects).

(** The write outputs, which Wait copies from the local RuntimeState after a
    successful Open (lines 665-667). *)
Definition write_outputs (c : Coordinator) :=
  (partition_row_counts_ c, files_to_move_ c, partition_insert_stats_ c).

(** What UpdateStatus, Cancel and the reports do to the summary: one is
    reported when query_status_ leaves OK after Wait has been called (by
    CancelInternal, line 928), and none otherwise. *)
Record tallied (c c' : Coordinator) : Prop := mkTallied {
  tallied_called : has_called_wait_ c' = has_called_wait_ c;
  tallied_sticky : ok (query_status_ c) = false -> ok (query_status_ c') = false;
  tallied_summaries :
    summaries (effects_ c')
    = (summaries (effects_ c)
       + if has_called_wait_ c && ok (query_status_ c) && negb (ok (query_status_ c'))
         then 1 else 0)%nat
}.

(** * Properties: proofs *)

(** ** The debug_action option *)

Lemma find_name_no_match table key dflt :
  no_name_matches table key = true -> find_name table key dflt = dflt.
Proof.
  induction table as [|entry rest IH]; simpl; [reflexivity|].
  intros H. apply andb_prop in H as [Hentry Hrest].
  apply negb_true_iff in Hentry. rewrite Hentry. auto.
Qed.

Lemma backend_debug_options_INVALID d num :
  DebugAction.phase d = TExecNodePhase_INVALID -> backend_debug_options d num = None.
Proof.
  intros H. unfold backend_debug_options. rewrite H, Z.eqb_refl. reflexivity.
Qed.

Lemma ProcessQueryOptions_components s d :
  s <> EmptyString ->
  (3 <= length (split s) <= 4)%nat ->
  DebugAction.phase (fst (ProcessQueryOptions (mkTQueryOptions (Some s)) d))
    = GetExecNodePhase (phase_component s)
  /\ DebugAction.action (fst (ProcessQueryOptions (mkTQueryOptions (Some s)) d))
    = GetDebugAction (action_component s).
Proof.
  intros Hs Hlen. unfold ProcessQueryOptions, phase_component, action_component. simpl.
  destruct (String.eqb_spec s EmptyString) as [->|_]; [congruence|].
  destruct (length (split s) <? 3)%nat eqn:H3; [apply Nat.ltb_lt in H3; lia|].
  destruct (4 <? length (split s))%nat eqn:H4; [apply Nat.ltb_lt in H4; lia|].
  simpl. destruct (length (split s) =? 3)%nat eqn:E.
  - apply Nat.eqb_eq in E. rewrite E. simpl. auto.
  - apply Nat.eqb_neq in E. assert (length (split s) = 4%nat) as -> by lia. simpl. auto.
Qed.

Lemma ProcessQueryOptions_wrong_size s d :
  s <> EmptyString ->
  (length (split s) < 3 \/ 4 < length (split s))%nat ->
  ProcessQueryOptions (mkTQueryOptions (Some s)) d = (d, []).
Proof.
  intros Hs Hlen. unfold ProcessQueryOptions. simpl.
  destruct (String.eqb_spec s EmptyString) as [->|_]; [congruence|].
  destruct (length (split s) <? 3)%nat eqn:H3; [reflexivity|].
  destruct (4 <? length (split s))%nat eqn:H4; [reflexivity|].
  apply Nat.ltb_ge in H3, H4. lia.
Qed.

(** C10.  Parsing of the debug_action option.  (1) A non-empty string that
    splits at its colons into fewer than 3 or more than 4 components leaves
    the DebugOptions as they were; from their default value the phase is
    still INVALID and Exec hands no debug options to any backend.  (2) A
    phase name that equals no name of the phase table up to case yields
    INVALID, so such a phase component attaches no debug action either.
    (3) An action name that equals no name of the action table up to case
    yields WAIT, and ProcessQueryOptions stores WAIT as the action. *)
Theorem debug_action_parsing :
  (forall s d, s <> EmptyString ->
     (length (split s) < 3 \/ 4 < length (split s))%nat ->
     ProcessQueryOptions (mkTQueryOptions (Some s)) d = (d, [])
     /\ DebugAction.phase (exec_debug_options (mkTQueryOptions (Some s)))
        = TExecNodePhase_INVALID
     /\ forall num,
         backend_debug_options (exec_debug_options (mkTQueryOptions (Some s))) num = None)
  /\ (forall key, no_name_matches TExecNodePhase_VALUES_TO_NAMES key = true ->
       GetExecNodePhase key = TExecNodePhase_INVALID)
  /\ (forall s num, s <> EmptyString ->
       (3 <= length (split s) <= 4)%nat ->
       no_name_matches TExecNodePhase_VALUES_TO_NAMES (phase_component s) = true ->
       backend_debug_options (exec_debug_options (mkTQueryOptions (Some s))) num = None)
  /\ (forall key, no_name_matches TDebugAction_VALUES_TO_NAMES key = true ->
       GetDebugAction key = TDebugAction_WAIT)
  /\ (forall s d, s <> EmptyString ->
       (3 <= length (split s) <= 4)%nat ->
       no_name_matches TDebugAction_VALUES_TO_NAMES (action_component s) = true ->
       DebugAction.action (fst (ProcessQueryOptions (mkTQueryOptions (Some s)) d))
         = TDebugAction_WAIT).
Proof.
  repeat split.
  - apply ProcessQueryOptions_wrong_size; assumption.
  - unfold exec_debug_options. rewrite ProcessQueryOptions_wrong_size by assumption.
    reflexivity.
  - intros num. apply backend_debug_options_INVALID.
    unfold exec_debug_options. rewrite ProcessQueryOptions_wrong_size by assumption.
    reflexivity.
  - intros key H. apply find_name_no_match, H.
  - intros s num Hs Hlen H. apply backend_debug_options_INVALID.
    unfold exec_debug_options.
    destruct (ProcessQueryOptions_components s DebugOptions_default Hs Hlen) as [-> _].
    apply find_name_no_match, H.
  - intros key H. apply find_name_no_match, H.
  - intros s d Hs Hlen H.
    destruct (ProcessQueryOptions_components s d Hs Hlen) as [_ ->].
    apply find_name_no_match, H.
Qed.

(** ** Finalization: the partition directories *)

Lemma concat_root_file_ops files :
  concat (map root_file_ops files) = root_deletions files.
Proof.
  unfold root_deletions. induction files as [|file rest IH]; simpl; [reflexivity|].
  unfold root_file_ops at 1.
  destruct (is_kObjectKindFile (mKind file)
            && negb (IsHiddenFile (path_filename (mName file)))); simpl; congruence.
Qed.

Lemma In_root_deletions files o :
  In o (root_deletions files) <->
  exists file, In file files /\ mKind file = kObjectKindFile
    /\ IsHiddenFile (path_filename (mName file)) = false
    /\ o = mkHdfsOp DELETE (mName file) EmptyString.
Proof.
  unfold root_deletions. rewrite in_map_iff. split.
  - intros (file & <- & Hin). apply filter_In in Hin as [Hin Hkeep].
    apply andb_prop in Hkeep as [Hkind Hhidden]. apply negb_true_iff in Hhidden.
    exists file. repeat split; try assumption.
    destruct (mKind file); [reflexivity|discriminate].
  - intros (file & Hin & Hkind & Hhidden & ->). exists file. split; [reflexivity|].
    apply filter_In. split; [assumption|]. rewrite Hkind, Hhidden. reflexivity.
Qed.

Lemma partition_ops_root fs params n rows files :
  is_overwrite params = true ->
  hdfsListDirectory fs (hdfs_base_dir params +:+ "/" +:+ EmptyString) = Some files ->
  partition_ops fs params n (EmptyString, rows)
  = (inr (root_deletions files),
     if (n =? 1)%nat then [] else [DcheckFailed "partition_row_counts_.size() == 1"]).
Proof.
  intros Hover Hlist. unfold partition_ops. simpl. rewrite Hover, Hlist.
  rewrite concat_root_file_ops. reflexivity.
Qed.

Lemma partition_ops_not_root fs params n partition :
  fst partition <> EmptyString ->
  exists ops, partition_ops fs params n partition = (inr ops, []).
Proof.
  intros Hkey. unfold partition_ops.
  destruct (String.eqb_spec (fst partition) EmptyString) as [E|_]; [contradiction|].
  destruct (is_overwrite params); [|eauto].
  destruct (negb _); eauto.
Qed.

(** The DCHECK of line 506 fails on the way whenever the empty key is among
    the partitions visited and there is more than one partition. *)
Lemma partition_create_ops_dcheck fs params n rows partitions ops :
  is_overwrite params = true ->
  NoDup (partitions.*1) ->
  In (EmptyString, rows) partitions ->
  n <> 1%nat ->
  snd (partition_create_ops fs params n partitions ops) <> [].
Proof.
  intros Hover. revert ops.
  induction partitions as [|partition rest IH]; intros ops Hnodup Hin Hn; [destruct Hin|].
  simpl. apply NoDup_cons in Hnodup as [Hfresh Hnodup].
  destruct Hin as [->|Hin].
  - unfold partition_ops. simpl. rewrite Hover.
    apply Nat.eqb_neq in Hn. rewrite Hn.
    destruct (hdfsListDirectory _ _); simpl; discriminate.
  - assert (fst partition <> EmptyString) as Hkey.
    { intros E. apply Hfresh. rewrite E.
      apply list_elem_of_In. apply (in_map fst) in Hin. exact Hin. }
    destruct (partition_ops_not_root fs params n partition Hkey) as [new ->].
    simpl. apply IH; assumption.
Qed.

Lemma singleton_partition (counts : gmap string Z) key rows :
  counts !! key = Some rows -> size counts = 1%nat ->
  PartitionRowCount_order counts = [(key, rows)].
Proof.
  intros Hlookup Hsize. apply Permutation_singleton_r.
  rewrite PartitionRowCount_order_perm.
  apply elem_of_map_to_list in Hlookup.
  rewrite <- length_map_to_list in Hsize.
  destruct (map_to_list counts) as [|entry [|? ?]]; try discriminate.
  apply list_elem_of_singleton in Hlookup. subst. reflexivity.
Qed.

(** C8.  Overwrite of an unpartitioned table: the partition key is empty.
    Given the listing [files] of the root directory, the pass over that
    partition schedules exactly the DELETE of each entry that is a regular
    file and is not hidden, which is never an entry that is a directory, and
    it checks (DCHECK) that the partition is the only one.  So when no DCHECK
    fails during the first loop, there is one partition entry, and the
    operations scheduled by the whole loop are those deletions. *)
Theorem overwrite_root_deletes_only_files (fs : FS) (c : Coordinator) (rows : Z)
    (files : list hdfsFileInfo) :
  is_overwrite (finalize_params_ c) = true ->
  partition_row_counts_ c !! EmptyString = Some rows ->
  hdfsListDirectory fs (hdfs_base_dir (finalize_params_ c) +:+ "/" +:+ EmptyString)
    = Some files ->
  let num_partitions := size (partition_row_counts_ c) in
  let loop :=
    partition_create_ops fs (finalize_params_ c) num_partitions
      (PartitionRowCount_order (partition_row_counts_ c)) [] in
  partition_ops fs (finalize_params_ c) num_partitions (EmptyString, rows)
  = (inr (root_deletions files),
     if (num_partitions =? 1)%nat then []
     else [DcheckFailed "partition_row_counts_.size() == 1"])
  /\ (forall o, In o (root_deletions files) <->
        exists file, In file files /\ mKind file = kObjectKindFile
          /\ IsHiddenFile (path_filename (mName file)) = false
          /\ o = mkHdfsOp DELETE (mName file) EmptyString)
  /\ (forall file, In file files -> mKind file = kObjectKindDirectory ->
        ~ In file
            (List.filter
               (fun file =>
                  is_kObjectKindFile (mKind file)
                  && negb (IsHiddenFile (path_filename (mName file))))
               files))
  /\ (snd loop = [] -> num_partitions = 1%nat /\ fst loop = inr (root_deletions files)).
Proof.
  intros Hover Hlookup Hlist num_partitions loop.
  split; [apply partition_ops_root; assumption|].
  split; [apply In_root_deletions|].
  split.
  { intros file _ Hkind Hin. apply filter_In in Hin as [_ Hkeep].
    rewrite Hkind in Hkeep. discriminate. }
  intros Hfaults.
  assert (num_partitions = 1%nat) as Hone.
  { destruct (Nat.eq_dec num_partitions 1%nat) as [E|E]; [exact E|].
    exfalso. revert Hfaults.
    apply partition_create_ops_dcheck with (rows := rows); try assumption.
    - rewrite PartitionRowCount_order_perm. apply NoDup_fst_map_to_list.
    - apply list_elem_of_In. rewrite PartitionRowCount_order_perm.
      apply elem_of_map_to_list. exact Hlookup. }
  split; [exact Hone|].
  subst loop. rewrite (singleton_partition _ _ _ Hlookup Hone). simpl.
  rewrite (partition_ops_root _ _ _ _ files) by assumption. reflexivity.
Qed.

(** ** Finalization: errors of the partition operations *)

Lemma first_fatal_error_tolerated (errors : list (HdfsOp * string)) :
  Forall (fun err => op (fst err) = CREATE_DIR) errors -> first_fatal_error errors = None.
Proof.
  intros H. unfold first_fatal_error.
  destruct (List.find _ errors) as [err|] eqn:E; [|reflexivity].
  apply find_some in E as [Hin Hop].
  rewrite List.Forall_forall in H. rewrite (H _ Hin) in Hop. discriminate.
Qed.

Lemma find_first_fatal (pre : list (HdfsOp * string)) err post :
  Forall (fun err => op (fst err) = CREATE_DIR) pre ->
  op (fst err) <> CREATE_DIR ->
  List.find (fun err => negb (HdfsOpType_eqb (op (fst err)) CREATE_DIR)) (pre ++ err :: post)
  = Some err.
Proof.
  intros Hpre Herr. induction Hpre as [|e pre He _ IH]; simpl.
  - destruct (op (fst err)); try reflexivity. contradiction.
  - rewrite He. simpl. exact IH.
Qed.

(** C9.  After the first loop has scheduled [create_ops]: (1) when every
    error of their execution is the error of a CREATE_DIR operation,
    FinalizeSuccessfulInsert goes on to move the staged files, and it returns
    OK when the moves and the deletion of the staging directories report no
    error; (2) when some error is the error of another operation (DELETE or
    DELETE_THEN_CREATE), it returns an error status whose message holds the
    number of all errors and the message of the first such error. *)
Theorem partition_directory_errors (fs : FS) (c : Coordinator)
    (create_ops : list HdfsOp) (faults : list Fault) :
  partition_create_ops fs (finalize_params_ c) (size (partition_row_counts_ c))
    (PartitionRowCount_order (partition_row_counts_ c)) [] = (inr create_ops, faults) ->
  let executed := Execute fs create_ops in
  (Forall (fun err => op (fst err) = CREATE_DIR) (snd executed) ->
     FinalizeSuccessfulInsert fs c = (move_tmp_files (fst executed) c, faults)
     /\ (let ops := move_and_deletion_ops (FileMoveMap_order (files_to_move_ c)) in
         let moved := Execute (fst executed) (fst ops) in
         snd moved = [] -> snd (Execute (fst moved) (snd ops)) = [] ->
         fst (fst (FinalizeSuccessfulInsert fs c)) = Status_OK))
  /\ (forall pre err post,
        snd executed = pre ++ err :: post ->
        Forall (fun err => op (fst err) = CREATE_DIR) pre ->
        op (fst err) <> CREATE_DIR ->
        FinalizeSuccessfulInsert fs c
        = (Status_of_msg
             ("Error(s) deleting partition directories. First error (of "
              +:+ print_size (length (snd executed)) +:+ ") was: " +:+ snd err),
           fst executed, faults)
        /\ ok (fst (fst (FinalizeSuccessfulInsert fs c))) = false).
Proof.
  intros Hloop executed. split.
  - intros Htolerated.
    assert (FinalizeSuccessfulInsert fs c = (move_tmp_files (fst executed) c, faults)) as E.
    { unfold FinalizeSuccessfulInsert. rewrite Hloop. fold executed.
      rewrite first_fatal_error_tolerated by assumption. reflexivity. }
    split; [exact E|].
    intros ops moved Hmoved Hdeleted. rewrite E. simpl.
    unfold move_tmp_files. fold ops. fold moved. rewrite Hmoved. simpl.
    rewrite Hdeleted. reflexivity.
  - intros pre err post Herrors Hpre Herr.
    assert (FinalizeSuccessfulInsert fs c
            = (Status_of_msg
                 ("Error(s) deleting partition directories. First error (of "
                  +:+ print_size (length (snd executed)) +:+ ") was: " +:+ snd err),
               fst executed, faults)) as E.
    { unfold FinalizeSuccessfulInsert. rewrite Hloop. fold executed.
      unfold first_fatal_error. rewrite Herrors at 1.
      rewrite find_first_fatal by assumption. reflexivity. }
    split; [exact E|]. rewrite E. reflexivity.
Qed.

(** ** What cancellation leaves alone *)

Lemma AddErrorMsg_code st msg :
  status_code st <> OK -> status_code (AddErrorMsg st msg) = status_code st.
Proof. unfold AddErrorMsg. destruct (status_code st); simpl; congruence. Qed.

Lemma AddError_code st other :
  status_code st <> OK -> status_code (AddError st other) = status_code st.
Proof.
  unfold AddError. destruct (ok other); [reflexivity|].
  revert st. induction (error_msgs other) as [|msg msgs IH]; simpl; intros st H.
  - reflexivity.
  - rewrite IH; rewrite AddErrorMsg_code; auto.
Qed.

Lemma cancel_exec_state_spec query_id i s :
  cancelled_or_same s (fst (cancel_exec_state query_id i s)).
Proof.
  destruct s as [b|]; simpl; [|exact I].
  destruct (ok (status b)) eqn:Hok; simpl; [|left; reflexivity].
  destruct (initiated b) eqn:Hinit; simpl; [|left; reflexivity].
  destruct (done b) eqn:Hdone; simpl; [left; reflexivity|].
  assert (forall st, status_code st = CANCELLED -> IsCancelled st = true) as Hc1.
  { intros st E. unfold IsCancelled. rewrite E. reflexivity. }
  assert (forall st, status_code st = CANCELLED -> ok st = false) as Hc2.
  { intros st E. unfold ok. rewrite E. reflexivity. }
  destruct (cancel_rpc i) as [st|res|st|res|what]; simpl;
    try destruct (ok res); simpl;
    right; do 3 (split; [reflexivity|]);
    (split; [apply Hc1|split; [apply Hc2|eexists; reflexivity]]);
    try reflexivity;
    try (rewrite AddErrorMsg_code; [reflexivity|discriminate]);
    try (rewrite AddError_code; [reflexivity|discriminate]).
Qed.

Lemma cancel_exec_states_spec query_id i states :
  Forall2 cancelled_or_same states (fst (cancel_exec_states query_id i states)).
Proof.
  revert i. induction states as [|s rest IH]; intros i; simpl; constructor.
  - apply cancel_exec_state_spec.
  - apply IH.
Qed.

Lemma CancelRemoteFragments_bookkeeping c :
  bookkeeping (CancelRemoteFragments c) = bookkeeping c
  /\ query_status_ (CancelRemoteFragments c) = query_status_ c
  /\ faults_ (CancelRemoteFragments c) = faults_ c.
Proof. repeat split. Qed.

Lemma ReportQuerySummary_bookkeeping c :
  bookkeeping (ReportQuerySummary c) = bookkeeping c
  /\ query_status_ (ReportQuerySummary c) = query_status_ c
  /\ backend_exec_states_ (ReportQuerySummary c) = backend_exec_states_ c.
Proof.
  unfold ReportQuerySummary. destruct (has_called_wait_ c); simpl; [|auto].
  destruct (existsb _ _); auto.
Qed.

Lemma CancelInternal_bookkeeping c :
  bookkeeping (CancelInternal c) = bookkeeping c
  /\ query_status_ (CancelInternal c) = query_status_ c.
Proof.
  unfold CancelInternal.
  match goal with |- context [ReportQuerySummary ?x] =>
    destruct (ReportQuerySummary_bookkeeping x) as (-> & -> & _) end.
  unfold DCHECK. destruct (negb (ok (query_status_ c))); simpl;
    destruct (executor_ c); split; reflexivity.
Qed.

Lemma CancelInternal_states c :
  Forall2 cancelled_or_same (backend_exec_states_ c) (backend_exec_states_ (CancelInternal c)).
Proof.
  unfold CancelInternal.
  match goal with |- context [ReportQuerySummary ?x] =>
    destruct (ReportQuerySummary_bookkeeping x) as (_ & _ & ->) end.
  unfold DCHECK. destruct (negb (ok (query_status_ c))); simpl;
    destruct (executor_ c); simpl; apply cancel_exec_states_spec.
Qed.

(** ** Calls, and what every call preserves *)

Lemma slot_evolves_refl s : slot_evolves s s.
Proof. destruct s; simpl; auto. Qed.

Lemma slot_evolves_trans s1 s2 s3 :
  slot_evolves s1 s2 -> slot_evolves s2 s3 -> slot_evolves s1 s3.
Proof. destruct s1, s2, s3; simpl; auto; contradiction. Qed.

Lemma slots_evolve_refl states : Forall2 slot_evolves states states.
Proof. induction states; constructor; auto using slot_evolves_refl. Qed.

Lemma slots_evolve_trans l1 l2 l3 :
  Forall2 slot_evolves l1 l2 -> Forall2 slot_evolves l2 l3 -> Forall2 slot_evolves l1 l3.
Proof.
  intros H12. revert l3. induction H12; intros l3 H23; inversion H23; subst; constructor.
  - eapply slot_evolves_trans; eassumption.
  - auto.
Qed.

Lemma cancelled_or_same_evolves s s' : cancelled_or_same s s' -> slot_evolves s s'.
Proof.
  destruct s as [b|], s' as [b'|]; simpl; auto.
  intros [->|(Hok & _)]; [auto|]. intros E. congruence.
Qed.

Lemma evolves_refl c : evolves c c.
Proof.
  split; auto using slots_evolve_refl. exists []. symmetry. apply app_nil_r.
Qed.

Lemma evolves_trans c1 c2 c3 : evolves c1 c2 -> evolves c2 c3 -> evolves c1 c3.
Proof.
  intros [Q1 S1 X1 W1 [a1 E1]] [Q2 S2 X2 W2 [a2 E2]]. split.
  - intros H. rewrite Q2; rewrite Q1; auto.
  - eapply slots_evolve_trans; eassumption.
  - congruence.
  - auto.
  - exists (a1 ++ a2). rewrite E2, E1. symmetry. apply app_assoc.
Qed.

(** A change that touches neither query_status_, backend_exec_states_,
    executor_ nor has_called_wait_, and only appends to the trace. *)
Lemma evolves_frame c c' :
  query_status_ c' = query_status_ c ->
  backend_exec_states_ c' = backend_exec_states_ c ->
  executor_ c' = executor_ c ->
  has_called_wait_ c' = has_called_wait_ c ->
  (exists added, effects_ c' = effects_ c ++ added) ->
  evolves c c'.
Proof.
  intros Q S X W E. split; try congruence.
  rewrite S. apply slots_evolve_refl.
Qed.

Lemma effects_same c c' : effects_ c' = effects_ c -> exists added, effects_ c' = effects_ c ++ added.
Proof. intros ->. exists []. symmetry. apply app_nil_r. Qed.

Lemma evolves_emit evs c : evolves c (emit evs c).
Proof. apply evolves_frame; try reflexivity. exists evs. reflexivity. Qed.

Lemma evolves_fault fs c : evolves c (fault fs c).
Proof. apply evolves_frame; try reflexivity. apply effects_same. reflexivity. Qed.

Lemma evolves_DCHECK cond what c : evolves c (DCHECK cond what c).
Proof. unfold DCHECK. destruct cond; [apply evolves_refl|apply evolves_fault]. Qed.

Lemma evolves_set_returned_all_results_ v c : evolves c (set_returned_all_results_ v c).
Proof. apply evolves_frame; try reflexivity. apply effects_same. reflexivity. Qed.

Lemma evolves_set_num_remaining_backends_ v c : evolves c (set_num_remaining_backends_ v c).
Proof. apply evolves_frame; try reflexivity. apply effects_same. reflexivity. Qed.

Lemma evolves_set_write_outputs rows files stats c :
  evolves c (set_write_outputs rows files stats c).
Proof. apply evolves_frame; try reflexivity. apply effects_same. reflexivity. Qed.

Lemma evolves_set_has_called_wait_ c : evolves c (set_has_called_wait_ true c).
Proof.
  split; try reflexivity; auto using slots_evolve_refl.
  apply effects_same. reflexivity.
Qed.

Lemma evolves_set_query_status_ st c :
  ok (query_status_ c) = true -> evolves c (set_query_status_ st c).
Proof.
  intros H. split; try reflexivity; auto using slots_evolve_refl.
  - congruence.
  - apply effects_same. reflexivity.
Qed.

Lemma evolves_set_backend_exec_states_ states c :
  Forall2 slot_evolves (backend_exec_states_ c) states ->
  evolves c (set_backend_exec_states_ states c).
Proof.
  intros H. split; try reflexivity; auto. apply effects_same. reflexivity.
Qed.

Lemma evolves_ReportQuerySummary c : evolves c (ReportQuerySummary c).
Proof.
  unfold ReportQuerySummary. destruct (has_called_wait_ c); simpl; [|apply evolves_refl].
  destruct (existsb _ _).
  - eapply evolves_trans; [apply evolves_emit|apply evolves_fault].
  - apply evolves_emit.
Qed.

Lemma evolves_CancelRemoteFragments c : evolves c (CancelRemoteFragments c).
Proof.
  unfold CancelRemoteFragments.
  eapply evolves_trans; [|apply evolves_emit].
  apply evolves_set_backend_exec_states_.
  eapply Forall2_impl; [apply cancel_exec_states_spec|].
  apply cancelled_or_same_evolves.
Qed.

Lemma evolves_CancelInternal c : evolves c (CancelInternal c).
Proof.
  unfold CancelInternal.
  eapply evolves_trans; [apply evolves_DCHECK|].
  eapply evolves_trans; [|apply evolves_ReportQuerySummary].
  eapply evolves_trans; [|apply evolves_CancelRemoteFragments].
  destruct (executor_ _); [apply evolves_emit|apply evolves_refl].
Qed.

Lemma evolves_Cancel cause c : evolves c (Cancel cause c).
Proof.
  unfold Cancel. destruct (ok (query_status_ c)) eqn:H; simpl; [|apply evolves_refl].
  eapply evolves_trans; [apply evolves_set_query_status_, H|apply evolves_CancelInternal].
Qed.

Lemma evolves_UpdateStatus st c : evolves c (snd (UpdateStatus st c)).
Proof.
  unfold UpdateStatus.
  destruct (returned_all_results_ c && IsCancelled st); [apply evolves_refl|].
  destruct (ok st); [apply evolves_refl|].
  destruct (ok (query_status_ c)) eqn:H; simpl; [|apply evolves_refl].
  eapply evolves_trans; [apply evolves_set_query_status_, H|apply evolves_CancelInternal].
Qed.

Lemma update_exec_state_status params b :
  status (update_exec_state params b)
  = if ok (Report.status params) then status b else Report.status params.
Proof.
  unfold update_exec_state.
  destruct (ok (Report.status params)); simpl;
    repeat match goal with |- context [if ?x then _ else _] => destruct x; simpl end;
    destruct (Report.error_log params) as [log|]; simpl;
    repeat match goal with |- context [if ?x then _ else _] => destruct x; simpl end;
    reflexivity.
Qed.

Lemma update_exec_state_done params b :
  done (update_exec_state params b) = Report.done params.
Proof.
  unfold update_exec_state.
  destruct (Report.error_log params) as [log|]; simpl;
    repeat match goal with |- context [if ?x then _ else _] => destruct x; simpl end;
    reflexivity.
Qed.

Lemma slots_evolve_insert states n b b' :
  states !! n = Some (Some b) ->
  (ok (status b) = false -> ok (status b') = false) ->
  Forall2 slot_evolves states (<[n := Some b']> states).
Proof.
  intros Hn Hb. rewrite <- (list_insert_id states n (Some b)) at 1 by exact Hn.
  apply Forall2_insert; [apply slots_evolve_refl|exact Hb].
Qed.

Lemma slots_evolve_stopwatch states n :
  Forall2 slot_evolves states (alter (fmap (set_stopwatch_running false)) n states).
Proof.
  apply Forall2_alter_r; [apply slots_evolve_refl|].
  intros s s' _ _. destruct s, s'; simpl; auto.
Qed.

Lemma evolves_merge_insert_exec_status ies c : evolves c (merge_insert_exec_status ies c).
Proof. apply evolves_set_write_outputs. Qed.

Lemma evolves_backend_completed n c : evolves c (backend_completed n c).
Proof.
  unfold backend_completed.
  eapply evolves_trans;
    [apply evolves_set_backend_exec_states_, slots_evolve_stopwatch|].
  eapply evolves_trans; [apply evolves_DCHECK|].
  eapply evolves_trans; [apply evolves_set_num_remaining_backends_|].
  match goal with |- context [if ?x then _ else _] => destruct x end;
    [apply evolves_emit|apply evolves_refl].
Qed.

Lemma evolves_UpdateFragmentExecStatus params c :
  evolves c (snd (UpdateFragmentExecStatus params c)).
Proof.
  unfold UpdateFragmentExecStatus.
  destruct (_ || _); [apply evolves_refl|].
  destruct (backend_exec_states_ c !! _) as [[b|]|] eqn:Hn; simpl;
    try apply evolves_fault.
  match goal with
  | |- evolves c (snd (if ?x then _ else if ?y then _ else _)) =>
      assert (evolves c
                (match Report.insert_exec_status params with
                 | Some ies =>
                     if Report.done params
                     then merge_insert_exec_status ies
                            (set_backend_exec_states_
                               (<[Z.to_nat (Report.backend_num params)
                                  := Some (update_exec_state params b)]>
                                  (backend_exec_states_ c)) c)
                     else set_backend_exec_states_
                            (<[Z.to_nat (Report.backend_num params)
                               := Some (update_exec_state params b)]>
                               (backend_exec_states_ c)) c
                 | None =>
                     set_backend_exec_states_
                       (<[Z.to_nat (Report.backend_num params)
                          := Some (update_exec_state params b)]>
                          (backend_exec_states_ c)) c
                 end)) as Hmerged
  end.
  { assert (evolves c
              (set_backend_exec_states_
                 (<[Z.to_nat (Report.backend_num params)
                    := Some (update_exec_state params b)]>
                    (backend_exec_states_ c)) c)) as Hupdated.
    { apply evolves_set_backend_exec_states_.
      eapply slots_evolve_insert; [exact Hn|].
      rewrite update_exec_state_status. destruct (ok (Report.status params)) eqn:E; auto. }
    destruct (Report.insert_exec_status params) as [ies|]; [|exact Hupdated].
    destruct (Report.done params); [|exact Hupdated].
    eapply evolves_trans; [exact Hupdated|apply evolves_merge_insert_exec_status]. }
  destruct (negb (returned_all_results_ _ && IsCancelled _) && negb _); simpl.
  - eapply evolves_trans; [exact Hmerged|apply evolves_UpdateStatus].
  - destruct (Report.done params) eqn:Hdone; simpl.
    + eapply evolves_trans; [exact Hmerged|apply evolves_backend_completed].
    + exact Hmerged.
Qed.

Lemma evolves_handle c e : evolves c (handle c e).
Proof.
  destruct e; simpl; [apply evolves_UpdateFragmentExecStatus|apply evolves_Cancel].
Qed.

Lemma evolves_run events c : evolves c (run events c).
Proof.
  unfold run. revert c. induction events as [|e rest IH]; intros c; simpl.
  - apply evolves_refl.
  - eapply evolves_trans; [apply evolves_handle|apply IH].
Qed.

Lemma evolves_WaitForAllBackends wakeups c st c' :
  WaitForAllBackends wakeups c = Returned (st, c') ->
  evolves c c' /\ st = query_status_ c'
  /\ ((0 <? num_remaining_backends_ c') && ok (query_status_ c') = false).
Proof.
  revert c. induction wakeups as [|events rest IH]; intros c; simpl;
    destruct ((0 <? num_remaining_backends_ c) && ok (query_status_ c)) eqn:Hcond;
    intros H; try discriminate.
  - injection H as <- <-. auto using evolves_refl.
  - apply IH in H as (He & Hst & Hc). split; [|auto].
    eapply evolves_trans; [apply evolves_run|exact He].
  - injection H as <- <-. auto using evolves_refl.
Qed.

(** Peels one layer off the state on the right of [evolves]. *)
Ltac evolve_step :=
  match goal with
  | |- evolves ?c ?c => apply evolves_refl
  | H : evolves ?c ?x |- evolves ?c ?x => exact H
  | H : evolves _ ?x |- evolves _ ?x => eapply evolves_trans; [|exact H]
  | |- evolves _ (emit _ _) => eapply evolves_trans; [|apply evolves_emit]
  | |- evolves _ (fault _ _) => eapply evolves_trans; [|apply evolves_fault]
  | |- evolves _ (DCHECK _ _ _) => eapply evolves_trans; [|apply evolves_DCHECK]
  | |- evolves _ (set_returned_all_results_ _ _) =>
      eapply evolves_trans; [|apply evolves_set_returned_all_results_]
  | |- evolves _ (set_write_outputs _ _ _ _) =>
      eapply evolves_trans; [|apply evolves_set_write_outputs]
  | |- evolves _ (set_has_called_wait_ true _) =>
      eapply evolves_trans; [|apply evolves_set_has_called_wait_]
  | |- evolves _ (ReportQuerySummary _) =>
      eapply evolves_trans; [|apply evolves_ReportQuerySummary]
  | |- evolves _ (CancelRemoteFragments _) =>
      eapply evolves_trans; [|apply evolves_CancelRemoteFragments]
  | |- evolves _ (run _ _) => eapply evolves_trans; [|apply evolves_run]
  | |- evolves _ (snd (UpdateStatus _ _)) =>
      eapply evolves_trans; [|apply evolves_UpdateStatus]
  | |- evolves _ (if ?x then _ else _) => destruct x
  end.

Lemma FinalizeQuery_spec fs c :
  evolves c (snd (FinalizeQuery fs c))
  /\ bookkeeping (snd (FinalizeQuery fs c)) = bookkeeping c
  /\ query_status_ (snd (FinalizeQuery fs c)) = query_status_ c
  /\ backend_exec_states_ (snd (FinalizeQuery fs c)) = backend_exec_states_ c.
Proof.
  unfold FinalizeQuery. simpl. split; [repeat evolve_step|].
  unfold DCHECK.
  destruct (has_called_wait_ c); simpl; destruct (needs_finalization_ c); simpl;
    destruct (bool_decide _); simpl; repeat split.
Qed.

Lemma finish_Wait_spec fs c :
  evolves c (snd (finish_Wait fs c))
  /\ bookkeeping (snd (finish_Wait fs c)) = bookkeeping c
  /\ query_status_ (snd (finish_Wait fs c)) = query_status_ c
  /\ backend_exec_states_ (snd (finish_Wait fs c)) = backend_exec_states_ c.
Proof.
  unfold finish_Wait.
  destruct (FinalizeQuery_spec fs c) as (Hev & Hbook & Hq & Hs).
  destruct (needs_finalization_ c).
  - destruct (negb (ok (fst (fst (FinalizeQuery fs c))))); [auto|]. simpl.
    destruct (TStmtType_is_DML _).
    + match goal with |- context [ReportQuerySummary ?x] =>
        destruct (ReportQuerySummary_bookkeeping x) as (-> & -> & ->) end.
      split; [repeat evolve_step|auto].
    + auto.
  - simpl. destruct (TStmtType_is_DML _).
    + match goal with |- context [ReportQuerySummary ?x] =>
        destruct (ReportQuerySummary_bookkeeping x) as (-> & -> & ->) end.
      split; [repeat evolve_step|auto].
    + auto using evolves_refl.
Qed.

Lemma Wait_first open_result during_open state wakeups fs c st fs' c' :
  has_called_wait_ c = false ->
  Wait open_result during_open state wakeups fs c = Returned (st, fs', c') ->
  evolves (set_has_called_wait_ true c) c'.
Proof.
  intros Hcalled. unfold Wait. rewrite Hcalled. simpl.
  destruct (executor_ c) eqn:Hexec.
  - destruct (ok (fst (UpdateStatus open_result _))) eqn:Hopen; intros H;
      injection H as H;
      match type of H with finish_Wait fs ?x = _ =>
        destruct (finish_Wait_spec fs x) as (Hfin & _); rewrite H in Hfin end;
      simpl in Hfin; repeat evolve_step.
  - destruct (WaitForAllBackends wakeups _) as [[st0 c0]|] eqn:Hwait; [|discriminate].
    apply evolves_WaitForAllBackends in Hwait as (Hev & _ & _).
    destruct (negb (needs_finalization_ c0) && negb (ok st0)); intros H.
    + injection H as <- <- <-. exact Hev.
    + injection H as H.
      destruct (finish_Wait_spec fs c0) as (Hfin & _). rewrite H in Hfin. simpl in Hfin.
      repeat evolve_step.
Qed.

Lemma evolves_Wait open_result during_open state wakeups fs c st fs' c' :
  Wait open_result during_open state wakeups fs c = Returned (st, fs', c') ->
  evolves c c'.
Proof.
  destruct (has_called_wait_ c) eqn:Hcalled.
  - unfold Wait. rewrite Hcalled. intros H. injection H as <- <- <-. apply evolves_refl.
  - intros H. eapply evolves_trans; [apply evolves_set_has_called_wait_|].
    eapply Wait_first; eassumption.
Qed.

Lemma evolves_GetNext next_result next_batch during_next reached_limit wakeups c st batch c' :
  GetNext next_result next_batch during_next reached_limit wakeups c
    = Returned (st, batch, c') ->
  evolves c c'.
Proof.
  unfold GetNext.
  assert (evolves c (DCHECK (has_called_wait_ c) "has_called_wait_" c)) as Hd
    by apply evolves_DCHECK.
  revert Hd. generalize (DCHECK (has_called_wait_ c) "has_called_wait_" c). intros d Hd.
  destruct (negb (executor_ d)).
  { intros H. injection H as <- <- <-. exact Hd. }
  destruct (negb (ok (fst (UpdateStatus next_result _)))).
  { intros H. injection H as <- <- <-. repeat evolve_step. }
  destruct next_batch as [rows|].
  { intros H. injection H as <- <- <-. repeat evolve_step. }
  destruct (WaitForAllBackends wakeups _) as [[st0 c0]|] eqn:Hwait; [|discriminate].
  apply evolves_WaitForAllBackends in Hwait as (Hev & _ & _).
  assert (evolves c c0) as Hc0.
  { eapply evolves_trans; [|exact Hev]. repeat evolve_step. }
  destruct (negb (ok st0)); intros H; injection H as <- <- <-; repeat evolve_step.
Qed.

Lemma step_evolves guard c c' : step guard c c' -> evolves c c'.
Proof.
  destruct 1.
  - apply evolves_UpdateFragmentExecStatus.
  - apply evolves_Cancel.
  - apply evolves_UpdateStatus.
  - eapply evolves_Wait; eassumption.
  - eapply evolves_GetNext; eassumption.
Qed.

Lemma steps_evolve guard c c' : rtc (step guard) c c' -> evolves c c'.
Proof.
  induction 1 as [|c1 c2 c3 H12 _ IH]; [apply evolves_refl|].
  eapply evolves_trans; [eapply step_evolves; exact H12|exact IH].
Qed.

(** ** query_status_ is sticky *)

Lemma cancel_status_not_ok cause : ok (cancel_status cause) = false.
Proof.
  destruct cause as [s|]; simpl; [|reflexivity].
  destruct (ok s) eqn:E; simpl; [reflexivity|exact E].
Qed.

(** C3.  query_status_ is error-sticky.  Once it is not OK, no sequence of
    calls (UpdateStatus, Cancel, UpdateFragmentExecStatus, Wait, GetNext)
    changes it; in particular UpdateStatus and Cancel then return without any
    effect.  While it is OK, the first error given to UpdateStatus (other
    than a CANCELLED that arrives after all results were returned) or the
    cause given to Cancel becomes its value, and by the first part keeps
    being its value. *)
Theorem query_status_error_sticky :
  (forall c c', rtc (step any_reports) c c' ->
     ok (query_status_ c) = false -> query_status_ c' = query_status_ c)
  /\ (forall c st, ok (query_status_ c) = false -> UpdateStatus st c = (query_status_ c, c))
  /\ (forall c cause, ok (query_status_ c) = false -> Cancel cause c = c)
  /\ (forall c st, ok (query_status_ c) = true -> ok st = false ->
       returned_all_results_ c && IsCancelled st = false ->
       fst (UpdateStatus st c) = st /\ query_status_ (snd (UpdateStatus st c)) = st)
  /\ (forall c cause, ok (query_status_ c) = true ->
       query_status_ (Cancel cause c) = cancel_status cause
       /\ ok (query_status_ (Cancel cause c)) = false).
Proof.
  split; [|split; [|split; [|split]]].
  - intros c c' Hsteps. apply steps_evolve in Hsteps. apply Hsteps.
  - intros c st H. unfold UpdateStatus. rewrite H. simpl.
    destruct (returned_all_results_ c && IsCancelled st); [reflexivity|].
    destruct (ok st); reflexivity.
  - intros c cause H. unfold Cancel. rewrite H. reflexivity.
  - intros c st Hok Hst Hignored. unfold UpdateStatus. rewrite Hignored, Hst, Hok. simpl.
    destruct (CancelInternal_bookkeeping (set_query_status_ st c)) as [_ ->].
    split; reflexivity.
  - intros c cause Hok. unfold Cancel. rewrite Hok. simpl. fold (cancel_status cause).
    destruct (CancelInternal_bookkeeping (set_query_status_ (cancel_status cause) c))
      as [_ ->].
    simpl. split; [reflexivity|apply cancel_status_not_ok].
Qed.

(** ** The status of a backend *)

Lemma cancel_exec_states_lookup query_id i states j :
  fst (cancel_exec_states query_id i states) !! j
  = (fun s => fst (cancel_exec_state query_id (i + j) s)) <$> states !! j.
Proof.
  revert i j. induction states as [|s rest IH]; intros i j; simpl; [reflexivity|].
  destruct j as [|j]; simpl.
  - rewrite Nat.add_0_r. reflexivity.
  - rewrite IH. replace (S i + j)%nat with (i + S j)%nat by lia. reflexivity.
Qed.

Lemma CancelInternal_lookup c j :
  backend_exec_states_ (CancelInternal c) !! j
  = (fun s => fst (cancel_exec_state (query_id_ c) j s)) <$> backend_exec_states_ c !! j.
Proof.
  unfold CancelInternal.
  match goal with |- context [ReportQuerySummary ?x] =>
    destruct (ReportQuerySummary_bookkeeping x) as (_ & _ & ->) end.
  unfold DCHECK. destruct (negb (ok (query_status_ c))); simpl;
    destruct (executor_ c); simpl; apply cancel_exec_states_lookup.
Qed.

Lemma wrap32_id z : INT_MIN <= z <= INT_MAX -> wrap32 z = z.
Proof.
  unfold INT_MIN, INT_MAX, wrap32. intros H.
  rewrite Z.mod_small by lia. lia.
Qed.

Lemma UpdateFragmentExecStatus_received params c n b :
  0 <= Report.backend_num params ->
  n = Z.to_nat (Report.backend_num params) ->
  backend_exec_states_ c !! n = Some (Some b) ->
  UpdateFragmentExecStatus params c
  = let c1 := report_received params n b c in
    if negb (returned_all_results_ c && IsCancelled (Report.status params))
       && negb (ok (Report.status params))
    then (Status_OK, snd (UpdateStatus (Report.status params) c1))
    else if Report.done params then (Status_OK, backend_completed n c1)
    else (Status_OK, c1).
Proof.
  intros Hpos -> Hn. unfold UpdateFragmentExecStatus, report_received.
  apply lookup_lt_Some in Hn as Hlt.
  destruct (Report.backend_num params <? 0) eqn:E1; [apply Z.ltb_lt in E1; lia|].
  destruct (Z.of_nat (length (backend_exec_states_ c)) <=? Report.backend_num params)
    eqn:E2; [apply Z.leb_le in E2; lia|].
  simpl. rewrite Hn.
  destruct (Report.insert_exec_status params) as [ies|]; [|reflexivity].
  destruct (Report.done params); reflexivity.
Qed.

Lemma report_received_spec params n b c :
  query_status_ (report_received params n b c) = query_status_ c
  /\ num_remaining_backends_ (report_received params n b c) = num_remaining_backends_ c
  /\ backend_exec_states_ (report_received params n b c)
     = <[n := Some (update_exec_state params b)]> (backend_exec_states_ c)
  /\ returned_all_results_ (report_received params n b c) = returned_all_results_ c
  /\ has_called_wait_ (report_received params n b c) = has_called_wait_ c
  /\ executor_ (report_received params n b c) = executor_ c.
Proof.
  unfold report_received. destruct (Report.insert_exec_status params) as [ies|];
    [destruct (Report.done params)|]; repeat split.
Qed.

Lemma backend_completed_spec n c :
  INT_MIN < num_remaining_backends_ c <= INT_MAX ->
  num_remaining_backends_ (backend_completed n c) = num_remaining_backends_ c - 1
  /\ query_status_ (backend_completed n c) = query_status_ c
  /\ backend_exec_states_ (backend_completed n c)
     = alter (fmap (set_stopwatch_running false)) n (backend_exec_states_ c).
Proof.
  intros Hrange. unfold backend_completed, DCHECK.
  destruct (0 <? num_remaining_backends_ _); simpl;
    rewrite wrap32_id by (unfold INT_MIN, INT_MAX in *; lia);
    destruct (_ =? 0); repeat split.
Qed.

Lemma cancel_exec_state_eligible query_id i b :
  ok (status b) = true -> initiated b = true -> done b = false ->
  exists b1, fst (cancel_exec_state query_id i (Some b)) = Some b1
    /\ IsCancelled (status b1) = true /\ ok (status b1) = false.
Proof.
  intros Hok Hinit Hdone.
  pose proof (cancel_exec_state_spec query_id i (Some b)) as Hspec.
  destruct (fst (cancel_exec_state query_id i (Some b))) as [b1|] eqn:E;
    simpl in Hspec; [|contradiction].
  exists b1. split; [reflexivity|].
  destruct Hspec as [->|(_ & _ & _ & Hcancelled & Hnotok & _)]; [|auto].
  exfalso. revert E. simpl. rewrite Hok, Hinit, Hdone. simpl.
  destruct (cancel_rpc i) as [?|res|?|res|?]; simpl; try destruct (ok res); simpl;
    intros E; injection E as E; apply (f_equal status) in E; simpl in E;
    apply (f_equal ok) in E; rewrite Hok in E;
    unfold ok in E; try rewrite AddErrorMsg_code in E by discriminate;
    try rewrite AddError_code in E by discriminate; discriminate.
Qed.

(** C2.  The status of a backend only goes from OK to not OK.  (1) Whatever
    calls are made (UpdateFragmentExecStatus with any report, Cancel,
    UpdateStatus, Wait, GetNext), a state whose status is not OK keeps a
    status that is not OK.  (2) Late OK after Cancel: let the query status
    be OK and backend [i] be initiated, not done and OK.  After Cancel its
    status is CANCELLED; when its report with an OK status and done set is
    then processed, done is true, num_remaining_backends_ is one less, the
    state's status is the one Cancel left, and query_status_ is the one
    Cancel set. *)
Theorem backend_status_never_back_to_OK :
  (forall c c' i b, rtc (step any_reports) c c' ->
     backend_exec_states_ c !! i = Some (Some b) -> ok (status b) = false ->
     exists b', backend_exec_states_ c' !! i = Some (Some b') /\ ok (status b') = false)
  /\ (forall c cause i b params,
       ok (query_status_ c) = true ->
       backend_exec_states_ c !! i = Some (Some b) ->
       ok (status b) = true -> initiated b = true -> done b = false ->
       Report.backend_num params = Z.of_nat i ->
       ok (Report.status params) = true -> Report.done params = true ->
       INT_MIN < num_remaining_backends_ c <= INT_MAX ->
       let c1 := Cancel cause c in
       let c2 := snd (UpdateFragmentExecStatus params c1) in
       exists b1 b2,
         backend_exec_states_ c1 !! i = Some (Some b1)
         /\ IsCancelled (status b1) = true
         /\ backend_exec_states_ c2 !! i = Some (Some b2)
         /\ done b2 = true
         /\ status b2 = status b1
         /\ num_remaining_backends_ c1 = num_remaining_backends_ c
         /\ num_remaining_backends_ c2 = num_remaining_backends_ c1 - 1
         /\ query_status_ c1 = cancel_status cause
         /\ query_status_ c2 = query_status_ c1).
Proof.
  split.
  - intros c c' i b Hsteps Hi Hb. apply steps_evolve in Hsteps.
    destruct Hsteps as [_ Hstates _ _ _].
    destruct (Forall2_lookup_l _ _ _ _ _ Hstates Hi) as (s' & Hi' & Hslot).
    destruct s' as [b'|]; simpl in Hslot; [|contradiction]. eauto.
  - intros c cause i b params Hquery Hi Hok Hinit Hdone Hnum Hst Hpdone Hrange c1 c2.
    assert (c1 = CancelInternal (set_query_status_ (cancel_status cause) c)) as Ec1.
    { subst c1. unfold Cancel. rewrite Hquery. reflexivity. }
    destruct (CancelInternal_bookkeeping (set_query_status_ (cancel_status cause) c))
      as [Hbook Hq1].
    rewrite <- Ec1 in Hbook, Hq1. simpl in Hq1.
    assert (num_remaining_backends_ c1 = num_remaining_backends_ c
            /\ returned_all_results_ c1 = returned_all_results_ c) as [Hn1 Hr1].
    { unfold bookkeeping in Hbook. simpl in Hbook. split; congruence. }
    destruct (cancel_exec_state_eligible (query_id_ c) i b Hok Hinit Hdone)
      as (b1 & Eb1 & Hcancelled & Hnotok).
    assert (backend_exec_states_ c1 !! i = Some (Some b1)) as Hl.
    { rewrite Ec1, CancelInternal_lookup.
      change (backend_exec_states_ (set_query_status_ (cancel_status cause) c))
        with (backend_exec_states_ c).
      change (query_id_ (set_query_status_ (cancel_status cause) c)) with (query_id_ c).
      rewrite Hi. cbn [fmap option_fmap option_map]. rewrite Eb1. reflexivity. }
    assert (UpdateFragmentExecStatus params c1
            = (Status_OK, backend_completed i (report_received params i b1 c1))) as Eupd.
    { rewrite (UpdateFragmentExecStatus_received params c1 i b1); [|lia|lia|exact Hl].
      simpl. rewrite Hst, Hpdone, andb_false_r. reflexivity. }
    destruct (report_received_spec params i b1 c1) as (Hq & Hn & Hs & _).
    destruct (backend_completed_spec i (report_received params i b1 c1)) as (Hn2 & Hq2 & Hs2).
    { rewrite Hn, Hn1. exact Hrange. }
    exists b1, (set_stopwatch_running false (update_exec_state params b1)).
    subst c2. rewrite Eupd. simpl.
    split; [exact Hl|]. split; [exact Hcancelled|].
    split.
    { rewrite Hs2, Hs. rewrite list_lookup_alter_eq.
      rewrite list_lookup_insert_eq by (apply lookup_lt_Some in Hl; exact Hl).
      reflexivity. }
    split; [simpl; rewrite update_exec_state_done; exact Hpdone|].
    split; [simpl; rewrite update_exec_state_status, Hst; reflexivity|].
    split; [exact Hn1|]. split; [rewrite Hn2, Hn; reflexivity|].
    split; [exact Hq1|]. rewrite Hq2, Hq. reflexivity.
Qed.

(** ** Cancel is idempotent *)

Lemma cancel_rpcs_app l1 l2 : cancel_rpcs (l1 ++ l2) = cancel_rpcs l1 ++ cancel_rpcs l2.
Proof. apply flat_map_app. Qed.

Lemma cancel_rpcs_cancel_exec_state query_id i s j :
  In j (cancel_rpcs (snd (cancel_exec_state query_id i s))) -> j = i /\ to_cancel s.
Proof.
  destruct s as [b|]; simpl; [|contradiction].
  destruct (ok (status b)) eqn:Hok; simpl; [|contradiction].
  destruct (initiated b) eqn:Hinit; simpl; [|contradiction].
  destruct (done b) eqn:Hdone; simpl; [contradiction|].
  assert (to_cancel (Some b)) as Hb by (exists b; auto).
  destruct (cancel_rpc i); simpl; intros H;
    try contradiction; destruct H as [->|[]]; auto.
Qed.

Lemma cancel_rpcs_cancel_exec_state_once query_id i s :
  NoDup (cancel_rpcs (snd (cancel_exec_state query_id i s))).
Proof.
  destruct s as [b|]; simpl; [|constructor].
  destruct (negb (ok (status b))); simpl; [constructor|].
  destruct (negb (initiated b)); simpl; [constructor|].
  destruct (done b); simpl; [constructor|].
  destruct (cancel_rpc i); simpl; try constructor;
    try (apply NoDup_singleton); try (intros H; inversion H); try constructor.
Qed.

Lemma cancel_rpcs_cancel_exec_states query_id i states j :
  In j (cancel_rpcs (snd (cancel_exec_states query_id i states))) ->
  (i <= j)%nat /\ exists s, states !! (j - i)%nat = Some s /\ to_cancel s.
Proof.
  revert i. induction states as [|s rest IH]; intros i; simpl; [contradiction|].
  rewrite cancel_rpcs_app, in_app_iff. intros [H|H].
  - apply cancel_rpcs_cancel_exec_state in H as [-> Hs]. split; [lia|].
    exists s. rewrite Nat.sub_diag. auto.
  - apply IH in H as (Hle & s' & Hs' & Hc). split; [lia|].
    exists s'. split; [|exact Hc].
    replace (j - i)%nat with (S (j - S i)) by lia. exact Hs'.
Qed.

Lemma cancel_rpcs_cancel_exec_states_once query_id i states :
  NoDup (cancel_rpcs (snd (cancel_exec_states query_id i states))).
Proof.
  revert i. induction states as [|s rest IH]; intros i; simpl; [constructor|].
  rewrite cancel_rpcs_app. apply NoDup_app. split; [|split].
  - apply cancel_rpcs_cancel_exec_state_once.
  - intros j Hj Hj'. apply list_elem_of_In in Hj, Hj'.
    apply cancel_rpcs_cancel_exec_state in Hj as [-> _].
    apply cancel_rpcs_cancel_exec_states in Hj' as [Hle _]. lia.
  - apply IH.
Qed.

Lemma CancelInternal_effects c :
  exists before after,
    effects_ (CancelInternal c)
    = effects_ c
      ++ before ++ snd (cancel_exec_states (query_id_ c) 0 (backend_exec_states_ c))
      ++ after
    /\ cancel_rpcs before = [] /\ cancel_rpcs after = [].
Proof.
  unfold CancelInternal, ReportQuerySummary, DCHECK.
  destruct (negb (ok (query_status_ c))); simpl;
    destruct (executor_ c); simpl; destruct (has_called_wait_ c); simpl;
    try destruct (existsb _ _); simpl;
    first
      [ exists [ExecutorCancel], [NotifyAll; QuerySummary];
        repeat rewrite <- app_assoc; simpl; auto; fail
      | exists [ExecutorCancel], [NotifyAll];
        repeat rewrite <- app_assoc; simpl; auto; fail
      | exists [], [NotifyAll; QuerySummary];
        repeat rewrite <- app_assoc; simpl; auto; fail
      | exists [], [NotifyAll]; repeat rewrite <- app_assoc; simpl; auto ].
Qed.

Lemma Cancel_again_done causes c :
  ok (query_status_ c) = false -> Cancel_again causes c = c.
Proof.
  intros H. unfold Cancel_again. induction causes as [|cause rest IH]; simpl; [reflexivity|].
  unfold Cancel at 2. rewrite H. simpl. exact IH.
Qed.

(** C5.  Cancel is idempotent.  (1) When query_status_ is not OK, Cancel
    changes nothing.  (2) Otherwise it sets query_status_ to the cause (to
    CANCELLED for a NULL or OK cause) and runs CancelInternal.  (3) One call
    followed by any number of further calls, with any causes, leaves the
    Coordinator, its trace of RPCs included, exactly as the one call did.
    (4) So however many calls are made, they send CancelPlanFragment to a
    backend at most once, and only to backends that were OK, initiated and
    not done. *)
Theorem Cancel_idempotent :
  (forall c cause, ok (query_status_ c) = false -> Cancel cause c = c)
  /\ (forall c cause, ok (query_status_ c) = true ->
       Cancel cause c = CancelInternal (set_query_status_ (cancel_status cause) c)
       /\ query_status_ (Cancel cause c) = cancel_status cause)
  /\ (forall c cause causes, Cancel_again causes (Cancel cause c) = Cancel cause c)
  /\ (forall c cause causes,
       exists added,
         effects_ (Cancel_again causes (Cancel cause c)) = effects_ c ++ added
         /\ NoDup (cancel_rpcs added)
         /\ forall i, In i (cancel_rpcs added) ->
              exists s, backend_exec_states_ c !! i = Some s /\ to_cancel s).
Proof.
  assert (forall c cause, ok (query_status_ c) = false -> Cancel cause c = c) as Hdone.
  { intros c cause H. unfold Cancel. rewrite H. reflexivity. }
  assert (forall c cause, ok (query_status_ c) = true ->
            Cancel cause c = CancelInternal (set_query_status_ (cancel_status cause) c)
            /\ query_status_ (Cancel cause c) = cancel_status cause) as Hfirst.
  { intros c cause H. unfold Cancel. rewrite H. simpl. fold (cancel_status cause).
    split; [reflexivity|].
    destruct (CancelInternal_bookkeeping (set_query_status_ (cancel_status cause) c))
      as [_ ->]. reflexivity. }
  assert (forall c cause causes, Cancel_again causes (Cancel cause c) = Cancel cause c)
    as Hagain.
  { intros c cause causes. apply Cancel_again_done.
    destruct (ok (query_status_ c)) eqn:H.
    - destruct (Hfirst c cause H) as [_ ->]. apply cancel_status_not_ok.
    - rewrite Hdone; assumption. }
  split; [exact Hdone|]. split; [exact Hfirst|]. split; [exact Hagain|].
  intros c cause causes. rewrite Hagain.
  destruct (ok (query_status_ c)) eqn:H.
  - destruct (Hfirst c cause H) as [-> _].
    destruct (CancelInternal_effects (set_query_status_ (cancel_status cause) c))
      as (before & after & -> & Hbefore & Hafter).
    simpl. eexists. split; [reflexivity|].
    rewrite !cancel_rpcs_app, Hbefore, Hafter, app_nil_r. simpl. split.
    + apply cancel_rpcs_cancel_exec_states_once.
    + intros i Hi. apply cancel_rpcs_cancel_exec_states in Hi as (_ & s & Hs & Hc).
      rewrite Nat.sub_0_r in Hs. eauto.
  - rewrite Hdone by exact H. exists []. split; [symmetry; apply app_nil_r|].
    split; [constructor|]. intros i [].
Qed.

(** ** Wait does its work once *)

Lemma wait_effects_app l1 l2 : wait_effects (l1 ++ l2) = wait_effects l1 ++ wait_effects l2.
Proof. unfold wait_effects. apply List.filter_app. Qed.

Lemma quiet_refl c : quiet c c.
Proof. reflexivity. Qed.

Lemma quiet_trans c1 c2 c3 : quiet c1 c2 -> quiet c2 c3 -> quiet c1 c3.
Proof. unfold quiet. congruence. Qed.

Lemma quiet_same c c' : effects_ c' = effects_ c -> quiet c c'.
Proof. unfold quiet. congruence. Qed.

Lemma quiet_emit evs c : wait_effects evs = [] -> quiet c (emit evs c).
Proof. intros H. unfold quiet. simpl. rewrite wait_effects_app, H. apply app_nil_r. Qed.

Lemma quiet_DCHECK cond what c : quiet c (DCHECK cond what c).
Proof. unfold DCHECK. destruct cond; apply quiet_same; reflexivity. Qed.

Lemma wait_effects_cancel_exec_states query_id i states :
  wait_effects (snd (cancel_exec_states query_id i states)) = [].
Proof.
  revert i. induction states as [|s rest IH]; intros i; simpl; [reflexivity|].
  rewrite wait_effects_app, IH, app_nil_r.
  destruct s as [b|]; simpl; [|reflexivity].
  destruct (negb (ok (status b))); simpl; [reflexivity|].
  destruct (negb (initiated b)); simpl; [reflexivity|].
  destruct (done b); simpl; [reflexivity|].
  destruct (cancel_rpc i); reflexivity.
Qed.

Lemma quiet_ReportQuerySummary c : quiet c (ReportQuerySummary c).
Proof.
  unfold ReportQuerySummary. destruct (has_called_wait_ c); simpl; [|apply quiet_refl].
  destruct (existsb _ _); unfold quiet; simpl; rewrite wait_effects_app; apply app_nil_r.
Qed.

Lemma quiet_CancelRemoteFragments c : quiet c (CancelRemoteFragments c).
Proof.
  unfold CancelRemoteFragments, quiet. simpl.
  rewrite !wait_effects_app, wait_effects_cancel_exec_states. apply app_nil_r.
Qed.

Lemma quiet_CancelInternal c : quiet c (CancelInternal c).
Proof.
  unfold CancelInternal.
  eapply quiet_trans; [|apply quiet_ReportQuerySummary].
  eapply quiet_trans; [|apply quiet_CancelRemoteFragments].
  eapply quiet_trans; [apply quiet_DCHECK|].
  destruct (executor_ _); [apply quiet_emit; reflexivity|apply quiet_refl].
Qed.

Lemma quiet_Cancel cause c : quiet c (Cancel cause c).
Proof.
  unfold Cancel. destruct (negb (ok (query_status_ c))); [apply quiet_refl|].
  eapply quiet_trans; [|apply quiet_CancelInternal]. apply quiet_same. reflexivity.
Qed.

Lemma quiet_UpdateStatus st c : quiet c (snd (UpdateStatus st c)).
Proof.
  unfold UpdateStatus.
  destruct (returned_all_results_ c && IsCancelled st); [apply quiet_refl|].
  destruct (ok st); [apply quiet_refl|].
  destruct (negb (ok (query_status_ c))); simpl; [apply quiet_refl|].
  eapply quiet_trans; [|apply quiet_CancelInternal]. apply quiet_same. reflexivity.
Qed.

Lemma quiet_backend_completed n c : quiet c (backend_completed n c).
Proof.
  unfold backend_completed, DCHECK.
  destruct (0 <? _); simpl; destruct (_ =? 0); unfold quiet; simpl;
    try rewrite wait_effects_app; simpl; try rewrite app_nil_r; reflexivity.
Qed.

Lemma quiet_report_received params n b c : quiet c (report_received params n b c).
Proof.
  unfold report_received. destruct (Report.insert_exec_status params) as [ies|];
    [destruct (Report.done params)|]; apply quiet_same; reflexivity.
Qed.

Lemma quiet_UpdateFragmentExecStatus params c :
  quiet c (snd (UpdateFragmentExecStatus params c)).
Proof.
  destruct (Report.backend_num params <? 0) eqn:E1.
  { unfold UpdateFragmentExecStatus. rewrite E1. apply quiet_refl. }
  destruct (Z.of_nat (length (backend_exec_states_ c)) <=? Report.backend_num params) eqn:E2.
  { unfold UpdateFragmentExecStatus. rewrite E1, E2. apply quiet_refl. }
  destruct (backend_exec_states_ c !! Z.to_nat (Report.backend_num params))
    as [[b|]|] eqn:Hn.
  - apply Z.ltb_ge in E1.
    rewrite (UpdateFragmentExecStatus_received params c _ b E1 eq_refl Hn). simpl.
    destruct (negb _ && negb _); simpl;
      [eapply quiet_trans; [apply quiet_report_received|apply quiet_UpdateStatus]|].
    destruct (Report.done params); simpl;
      [eapply quiet_trans; [apply quiet_report_received|apply quiet_backend_completed]|].
    apply quiet_report_received.
  - unfold UpdateFragmentExecStatus. rewrite E1, E2, Hn. apply quiet_same. reflexivity.
  - unfold UpdateFragmentExecStatus. rewrite E1, E2, Hn. apply quiet_same. reflexivity.
Qed.

Lemma quiet_run events c : quiet c (run events c).
Proof.
  unfold run. revert c. induction events as [|e rest IH]; intros c; simpl.
  - apply quiet_refl.
  - eapply quiet_trans; [|apply IH].
    destruct e; simpl; [apply quiet_UpdateFragmentExecStatus|apply quiet_Cancel].
Qed.

Lemma quiet_WaitForAllBackends wakeups c st c' :
  WaitForAllBackends wakeups c = Returned (st, c') -> quiet c c'.
Proof.
  revert c. induction wakeups as [|events rest IH]; intros c; simpl;
    destruct ((0 <? num_remaining_backends_ c) && ok (query_status_ c));
    intros H; try discriminate.
  - injection H as <- <-. apply quiet_refl.
  - eapply quiet_trans; [apply quiet_run|apply IH, H].
  - injection H as <- <-. apply quiet_refl.
Qed.

Lemma FinalizeQuery_effects fs c :
  effects_ (snd (FinalizeQuery fs c)) = effects_ c ++ [FinalizeQueryCall].
Proof.
  unfold FinalizeQuery, DCHECK. simpl.
  destruct (has_called_wait_ c); simpl; destruct (needs_finalization_ c); simpl;
    destruct (bool_decide _); reflexivity.
Qed.

Lemma finish_Wait_effects fs c :
  exists l,
    wait_effects (effects_ (snd (finish_Wait fs c))) = wait_effects (effects_ c) ++ l
    /\ sublist l [FinalizeQueryCall; InsertStatsInfo].
Proof.
  unfold finish_Wait.
  assert (forall x, quiet (emit [InsertStatsInfo] x)
                      (ReportQuerySummary (emit [InsertStatsInfo] x))) as Hsummary
    by (intros x; apply quiet_ReportQuerySummary).
  unfold quiet in Hsummary.
  pose proof (FinalizeQuery_effects fs c) as Hfin.
  destruct (FinalizeQuery_spec fs c) as (_ & Hbook & _).
  destruct (needs_finalization_ c); cbv iota.
  - destruct (negb (ok (fst (fst (FinalizeQuery fs c))))); cbv iota.
    + exists [FinalizeQueryCall]. rewrite Hfin, wait_effects_app. split; [reflexivity|].
      constructor. apply sublist_nil_l.
    + cbn [fst snd]. destruct (TStmtType_is_DML _).
      * exists [FinalizeQueryCall; InsertStatsInfo]. rewrite Hsummary.
        cbn [effects_ emit].
        rewrite Hfin, !wait_effects_app, <- app_assoc. split; reflexivity.
      * exists [FinalizeQueryCall]. rewrite Hfin, wait_effects_app. split; [reflexivity|].
        constructor. apply sublist_nil_l.
  - simpl. destruct (TStmtType_is_DML _).
    + exists [InsertStatsInfo]. rewrite Hsummary. simpl. rewrite wait_effects_app.
      split; [reflexivity|]. apply sublist_cons. reflexivity.
    + exists []. rewrite app_nil_r. split; [reflexivity|]. apply sublist_nil_l.
Qed.

(** The guard of Wait.  When a call returns, has_called_wait_ is set, and
    every later call returns OK and leaves everything as it is.  A call makes
    each of Wait's own calls at most once, in the order of the code. *)
Lemma Wait_guarded (open_result : Status) (during_open : list Event)
    (state : RuntimeState) (wakeups : list (list Event)) (fs : FS) (c : Coordinator)
    (st : Status) (fs' : FS) (c' : Coordinator) :
  Wait open_result during_open state wakeups fs c = Returned (st, fs', c') ->
  has_called_wait_ c' = true
  /\ (forall open_result2 during_open2 state2 wakeups2 fs2,
        Wait open_result2 during_open2 state2 wakeups2 fs2 c'
        = Returned (Status_OK, fs2, c'))
  /\ (exists l,
        wait_effects (effects_ c') = wait_effects (effects_ c) ++ l
        /\ sublist l [ExecutorOpen; FinalizeQueryCall; InsertStatsInfo])
  /\ (has_called_wait_ c = true -> st = Status_OK /\ fs' = fs /\ c' = c).
Proof.
  intros HWait.
  assert (has_called_wait_ c' = true) as Hcalled'.
  { destruct (has_called_wait_ c) eqn:Hcalled.
    - revert HWait. unfold Wait. rewrite Hcalled. intros H. injection H as <- <- <-.
      exact Hcalled.
    - apply (Wait_first _ _ _ _ _ _ _ _ _ Hcalled) in HWait.
      apply HWait. reflexivity. }
  split; [exact Hcalled'|]. split.
  { intros. unfold Wait. rewrite Hcalled'. reflexivity. }
  split.
  - revert HWait. unfold Wait. destruct (has_called_wait_ c) eqn:Hcalled.
    { intros H. injection H as <- <- <-. exists []. rewrite app_nil_r.
      split; [reflexivity|apply sublist_nil_l]. }
    simpl. destruct (executor_ c) eqn:Hexec.
    + assert (forall x,
                quiet (emit [ExecutorOpen] (set_has_called_wait_ true c)) x ->
                forall r, finish_Wait fs x = r ->
                exists l, wait_effects (effects_ (snd r)) = wait_effects (effects_ c) ++ l
                  /\ sublist l [ExecutorOpen; FinalizeQueryCall; InsertStatsInfo]) as Hopen.
      { intros x Hx r <-. destruct (finish_Wait_effects fs x) as (l & -> & Hl).
        rewrite Hx. simpl. rewrite wait_effects_app, <- app_assoc. simpl.
        exists (ExecutorOpen :: l). split; [reflexivity|]. apply sublist_skip, Hl. }
      destruct (ok (fst (UpdateStatus open_result _))); intros H; injection H as H;
        apply Hopen in H; simpl in H; try exact H.
      * eapply quiet_trans; [apply quiet_run|].
        eapply quiet_trans; [apply quiet_UpdateStatus|].
        eapply quiet_trans; [apply quiet_DCHECK|].
        eapply quiet_trans; [apply quiet_DCHECK|]. apply quiet_same. reflexivity.
      * eapply quiet_trans; [apply quiet_run|apply quiet_UpdateStatus].
    + destruct (WaitForAllBackends wakeups _) as [[st0 c0]|] eqn:Hwait; [|discriminate].
      apply quiet_WaitForAllBackends in Hwait. unfold quiet in Hwait. simpl in Hwait.
      destruct (negb (needs_finalization_ c0) && negb (ok st0)); intros H.
      * injection H as <- <- <-. exists []. rewrite app_nil_r, Hwait.
        split; [reflexivity|apply sublist_nil_l].
      * injection H as H. destruct (finish_Wait_effects fs c0) as (l & Hl & Hsub).
        rewrite H in Hl. simpl in Hl. exists l. rewrite Hl, Hwait.
        split; [reflexivity|]. apply sublist_cons, Hsub.
  - intros Hcalled. revert HWait. unfold Wait. rewrite Hcalled.
    intros H. injection H as <- <- <-. auto.
Qed.

(** ** The write outputs merged from the reports *)

Lemma wrap64_id z : 0 <= z <= INT64_MAX -> wrap64 z = z.
Proof.
  unfold INT64_MAX, wrap64. intros H. rewrite Z.mod_small by lia. lia.
Qed.

Lemma fold_add_appended_rows (partitions : list (string * Z)) (counts : gmap string Z) key :
  NoDup (partitions.*1) ->
  fold_left add_appended_rows partitions counts !! key
  = match (list_to_map partitions : gmap string Z) !! key with
    | Some v => Some (wrap64 (default 0 (counts !! key) + v))
    | None => counts !! key
    end.
Proof.
  revert counts. induction partitions as [|[k v] rest IH]; intros counts Hnodup; simpl.
  - rewrite lookup_empty. reflexivity.
  - apply NoDup_cons in Hnodup as [Hfresh Hnodup].
    rewrite IH by exact Hnodup. unfold add_appended_rows at 1 2. simpl.
    destruct (decide (k = key)) as [->|Hne].
    + rewrite lookup_insert_eq.
      rewrite (not_elem_of_list_to_map_1 rest key) by exact Hfresh.
      rewrite lookup_insert_eq. reflexivity.
    + rewrite !lookup_insert_ne by exact Hne. reflexivity.
Qed.

Lemma merge_rows_lookup (reported counts : gmap string Z) key :
  fold_left add_appended_rows (PartitionRowCount_order reported) counts !! key
  = match reported !! key with
    | Some v => Some (wrap64 (default 0 (counts !! key) + v))
    | None => counts !! key
    end.
Proof.
  rewrite fold_add_appended_rows.
  - assert ((list_to_map (PartitionRowCount_order reported) : gmap string Z) = reported)
      as ->; [|reflexivity].
    rewrite <- (list_to_map_to_list reported) at 2.
    apply list_to_map_proper; [|apply PartitionRowCount_order_perm].
    rewrite PartitionRowCount_order_perm. apply NoDup_fst_map_to_list.
  - rewrite PartitionRowCount_order_perm. apply NoDup_fst_map_to_list.
Qed.

Lemma evolves_shape c c' : evolves c c' -> shape c' = shape c.
Proof.
  intros [_ H _ _ _]. unfold shape.
  induction H as [|s s' l l' Hs _ IH]; simpl; [reflexivity|].
  rewrite IH. f_equal. destruct s, s'; simpl in Hs; try contradiction; reflexivity.
Qed.

Lemma names_exec_state_shape c c' params :
  shape c' = shape c -> names_exec_state c' params = names_exec_state c params.
Proof.
  intros H. unfold names_exec_state. f_equal.
  apply (f_equal (fun l => l !! Z.to_nat (Report.backend_num params))) in H.
  unfold shape in H. rewrite !list_lookup_fmap in H.
  destruct (backend_exec_states_ c' !! _) as [[?|]|],
           (backend_exec_states_ c !! _) as [[?|]|]; simpl in H;
    try reflexivity; try discriminate;
    injection H as H; apply bool_decide_eq_true in H || apply eq_sym in H;
    try (apply bool_decide_eq_true in H); destruct H; discriminate.
Qed.

Lemma UpdateStatus_bookkeeping st c : bookkeeping (snd (UpdateStatus st c)) = bookkeeping c.
Proof.
  unfold UpdateStatus.
  destruct (returned_all_results_ c && IsCancelled st); [reflexivity|].
  destruct (ok st); [reflexivity|].
  destruct (negb (ok (query_status_ c))); simpl; [reflexivity|].
  destruct (CancelInternal_bookkeeping (set_query_status_ st c)) as [-> _]. reflexivity.
Qed.

Lemma bookkeeping_outputs c c' :
  bookkeeping c' = bookkeeping c ->
  partition_row_counts_ c' = partition_row_counts_ c /\ files_to_move_ c' = files_to_move_ c.
Proof. unfold bookkeeping. intros H. split; congruence. Qed.

Lemma backend_completed_outputs n c :
  partition_row_counts_ (backend_completed n c) = partition_row_counts_ c
  /\ files_to_move_ (backend_completed n c) = files_to_move_ c.
Proof.
  unfold backend_completed, DCHECK. destruct (0 <? _); simpl; destruct (_ =? 0); auto.
Qed.

(** What one report does to the write outputs. *)
Lemma UpdateFragmentExecStatus_outputs params c :
  let c' := snd (UpdateFragmentExecStatus params c) in
  partition_row_counts_ c'
  = match merged_status c params with
    | Some ies =>
        fold_left add_appended_rows (PartitionRowCount_order (num_appended_rows ies))
          (partition_row_counts_ c)
    | None => partition_row_counts_ c
    end
  /\ files_to_move_ c'
     = match merged_status c params with
       | Some ies => files_to_move_ c ∪ files_to_move ies
       | None => files_to_move_ c
       end.
Proof.
  unfold merged_status, names_exec_state.
  destruct (0 <=? Report.backend_num params) eqn:E1; simpl.
  2:{ unfold UpdateFragmentExecStatus. apply Z.leb_gt in E1.
      apply Z.ltb_lt in E1. rewrite E1. auto. }
  apply Z.leb_le in E1.
  destruct (backend_exec_states_ c !! Z.to_nat (Report.backend_num params))
    as [[b|]|] eqn:Hn; simpl.
  - set (n := Z.to_nat (Report.backend_num params)) in *.
    rewrite (UpdateFragmentExecStatus_received params c n b E1 eq_refl Hn).
    assert (partition_row_counts_ (report_received params n b c)
            = match (if Report.done params then Report.insert_exec_status params else None)
              with
              | Some ies =>
                  fold_left add_appended_rows
                    (PartitionRowCount_order (num_appended_rows ies)) (partition_row_counts_ c)
              | None => partition_row_counts_ c
              end
            /\ files_to_move_ (report_received params n b c)
               = match (if Report.done params then Report.insert_exec_status params else None)
                 with
                 | Some ies => files_to_move_ c ∪ files_to_move ies
                 | None => files_to_move_ c
                 end) as [Hrows Hfiles].
    { unfold report_received.
      destruct (Report.insert_exec_status params) as [ies|], (Report.done params); auto. }
    cbv zeta. destruct (negb _ && negb _); cbn [snd].
    + destruct (bookkeeping_outputs _ _ (UpdateStatus_bookkeeping (Report.status params)
                  (report_received params n b c))) as [-> ->]. auto.
    + destruct (Report.done params) eqn:Hdone; cbn [snd]; [|auto].
      destruct (backend_completed_outputs n (report_received params n b c)) as [-> ->].
      auto.
  - unfold UpdateFragmentExecStatus. rewrite Hn.
    destruct (_ || _); auto.
  - unfold UpdateFragmentExecStatus. rewrite Hn.
    destruct (_ || _); auto.
Qed.

Lemma run_reports_outputs reports c :
  let merged := omap (merged_status c) reports in
  let c' := run (map ReportArrives reports) c in
  (forall key,
     partition_row_counts_ c' !! key
     = fold_left (fun acc v => Some (wrap64 (default 0 acc + v))) (reported_rows merged key)
         (partition_row_counts_ c !! key))
  /\ files_to_move_ c'
     = fold_left (fun files ies => files ∪ files_to_move ies) merged (files_to_move_ c).
Proof.
  revert c. induction reports as [|params rest IH]; intros c; [simpl; auto|].
  cbn zeta. unfold run. cbn [map fold_left handle]. fold (run (map ReportArrives rest)).
  set (c1 := snd (UpdateFragmentExecStatus params c)).
  destruct (IH c1) as [IHrows IHfiles].
  assert (omap (merged_status c1) rest = omap (merged_status c) rest) as Hsame.
  { assert (forall p, merged_status c1 p = merged_status c p) as Hm.
    { intros p. unfold merged_status. rewrite (names_exec_state_shape c c1 p); [reflexivity|].
      apply evolves_shape, evolves_UpdateFragmentExecStatus. }
    clear -Hm. induction rest as [|p rest IH]; [reflexivity|].
    cbn [omap list_omap]. rewrite Hm. fold (omap (merged_status c1) rest).
    fold (omap (merged_status c) rest). rewrite IH. reflexivity. }
  rewrite Hsame in IHrows, IHfiles.
  destruct (UpdateFragmentExecStatus_outputs params c) as [Hrows Hfiles].
  fold c1 in Hrows, Hfiles.
  split.
  - intros key. rewrite IHrows, Hrows. cbn [omap list_omap].
    unfold reported_rows. cbn [omap list_omap].
    destruct (merged_status c params) as [ies|]; [|reflexivity].
    cbn [omap list_omap]. rewrite merge_rows_lookup.
    destruct (num_appended_rows ies !! key); reflexivity.
  - change (fold_left handle (map ReportArrives rest) c1)
      with (run (map ReportArrives rest) c1).
    rewrite IHfiles, Hfiles. cbn [omap list_omap].
    destruct (merged_status c params) as [ies|]; reflexivity.
Qed.

Lemma sum_rows_exact rows acc :
  rows_fit (default 0 acc) rows ->
  fold_left (fun acc v => Some (wrap64 (default 0 acc + v))) rows acc
  = match rows with
    | [] => acc
    | _ => Some (default 0 acc + sum_rows rows)
    end.
Proof.
  revert acc. induction rows as [|v rest IH]; intros acc (Hstart & Hrows & Hsum);
    [reflexivity|].
  apply Forall_cons in Hrows as [Hv Hrest]. simpl in Hsum. simpl.
  assert (0 <= sum_rows rest) as Hpos.
  { clear -Hrest. induction Hrest; simpl; lia. }
  rewrite wrap64_id by lia.
  rewrite IH; [|repeat split; simpl; try assumption; lia].
  destruct rest; simpl; f_equal; lia.
Qed.

Lemma files_union_lookup (merged : list TInsertExecStatus) (files : gmap string string)
    src dst :
  fold_left (fun files ies => files ∪ files_to_move ies) merged files !! src = Some dst ->
  files !! src = Some dst
  \/ exists ies, In ies merged /\ files_to_move ies !! src = Some dst.
Proof.
  revert files. induction merged as [|ies rest IH]; intros files; simpl; [auto|].
  intros H. apply IH in H as [H|(ies' & Hin & H)]; [|eauto].
  apply lookup_union_Some_raw in H as [H|[_ H]]; eauto.
Qed.

Lemma files_union_kept (merged : list TInsertExecStatus) (files : gmap string string)
    src dst :
  files !! src = Some dst ->
  fold_left (fun files ies => files ∪ files_to_move ies) merged files !! src = Some dst.
Proof.
  revert files. induction merged as [|ies rest IH]; intros files H; simpl; [exact H|].
  apply IH. apply lookup_union_Some_l. exact H.
Qed.

Lemma files_union_present (merged : list TInsertExecStatus) (files : gmap string string)
    src :
  is_Some (files !! src)
  \/ (exists ies, In ies merged /\ is_Some (files_to_move ies !! src)) ->
  is_Some (fold_left (fun files ies => files ∪ files_to_move ies) merged files !! src).
Proof.
  revert files. induction merged as [|ies rest IH]; intros files; simpl.
  - intros [H|(ies & [] & _)]. exact H.
  - intros [H|(ies' & [<-|Hin] & H)]; apply IH.
    + left. apply lookup_union_is_Some. auto.
    + left. apply lookup_union_is_Some. auto.
    + right. eauto.
Qed.

(** C7.  Let the reports [reports] be processed one after the other, and let
    [merged] be the insert statuses of those that name a state, have done set
    and carry an insert status.  Then, for every partition key whose row
    counts fit an int64_t, partition_row_counts_ holds the count it started
    from plus the sum of the counts in [merged], and no entry for a key that
    neither it nor a status in [merged] has; files_to_move_ is what it
    started from united with the files of every status in [merged] (for a
    source reported twice the earlier entry stays); and a report without done
    or without an insert status merges nothing. *)
Theorem write_outputs_are_merged (reports : list TReportExecStatusParams)
    (c : Coordinator) :
  let merged := omap (merged_status c) reports in
  let c' := run (map ReportArrives reports) c in
  (forall key,
     rows_fit (default 0 (partition_row_counts_ c !! key)) (reported_rows merged key)) ->
  (forall key,
     partition_row_counts_ c' !! key
     = match reported_rows merged key with
       | [] => partition_row_counts_ c !! key
       | rows => Some (default 0 (partition_row_counts_ c !! key) + sum_rows rows)
       end)
  /\ files_to_move_ c'
     = fold_left (fun files ies => files ∪ files_to_move ies) merged (files_to_move_ c)
  /\ (forall src dst,
        files_to_move_ c' !! src = Some dst ->
        files_to_move_ c !! src = Some dst
        \/ exists ies, In ies merged /\ files_to_move ies !! src = Some dst)
  /\ (forall src,
        is_Some (files_to_move_ c !! src)
        \/ (exists ies, In ies merged /\ is_Some (files_to_move ies !! src)) ->
        is_Some (files_to_move_ c' !! src))
  /\ (forall params,
        Report.done params = false \/ Report.insert_exec_status params = None ->
        merged_status c params = None).
Proof.
  intros merged c' Hfit.
  destruct (run_reports_outputs reports c) as [Hrows Hfiles].
  fold merged in Hrows, Hfiles. fold c' in Hrows, Hfiles.
  split; [|split; [exact Hfiles|split; [|split]]].
  - intros key. rewrite Hrows, sum_rows_exact by apply Hfit.
    destruct (reported_rows merged key); reflexivity.
  - intros src dst. rewrite Hfiles. apply files_union_lookup.
  - intros src. rewrite Hfiles. apply files_union_present.
  - intros params [H|H]; unfold merged_status; rewrite H.
    + rewrite andb_false_r. reflexivity.
    + destruct (_ && _); reflexivity.
Qed.

(** ** The count of remaining backends *)

Lemma calm_refl c : calm c c.
Proof. split; reflexivity. Qed.

Lemma calm_trans c1 c2 c3 : calm c1 c2 -> calm c2 c3 -> calm c1 c3.
Proof. intros [] []. split; congruence. Qed.

Lemma calm_frame c c' :
  backend_exec_states_ c' = backend_exec_states_ c ->
  bookkeeping c' = bookkeeping c -> calm c c'.
Proof.
  unfold bookkeeping. intros Hs Hb. split; try congruence.
  unfold done_flags. rewrite Hs. reflexivity.
Qed.

Lemma cancelled_or_same_done s s' : cancelled_or_same s s' -> fmap done s' = fmap done s.
Proof.
  destruct s as [b|], s' as [b'|]; simpl; try contradiction; [|reflexivity].
  intros [->|(_ & _ & _ & _ & _ & st & ->)]; reflexivity.
Qed.

Lemma calm_CancelInternal c : calm c (CancelInternal c).
Proof.
  destruct (CancelInternal_bookkeeping c) as [Hbook _].
  unfold bookkeeping in Hbook. split; try congruence.
  unfold done_flags. pose proof (CancelInternal_states c) as H.
  induction H as [|s s' l l' Hs _ IH]; simpl; [reflexivity|].
  rewrite IH, (cancelled_or_same_done _ _ Hs). reflexivity.
Qed.

Lemma calm_Cancel cause c : calm c (Cancel cause c).
Proof.
  unfold Cancel. destruct (negb (ok (query_status_ c))); [apply calm_refl|].
  eapply calm_trans; [|apply calm_CancelInternal]. apply calm_frame; reflexivity.
Qed.

Lemma calm_UpdateStatus st c : calm c (snd (UpdateStatus st c)).
Proof.
  unfold UpdateStatus.
  destruct (returned_all_results_ c && IsCancelled st); [apply calm_refl|].
  destruct (ok st); [apply calm_refl|].
  destruct (negb (ok (query_status_ c))); simpl; [apply calm_refl|].
  eapply calm_trans; [|apply calm_CancelInternal]. apply calm_frame; reflexivity.
Qed.

Lemma calm_ReportQuerySummary c : calm c (ReportQuerySummary c).
Proof.
  destruct (ReportQuerySummary_bookkeeping c) as (Hb & _ & Hs). apply calm_frame; assumption.
Qed.

Lemma calm_CancelRemoteFragments c : calm c (CancelRemoteFragments c).
Proof.
  split; try reflexivity.
  unfold done_flags, CancelRemoteFragments. simpl.
  pose proof (cancel_exec_states_spec (query_id_ c) 0 (backend_exec_states_ c)) as H.
  induction H as [|s s' l l' Hs _ IH]; simpl; [reflexivity|].
  rewrite IH, (cancelled_or_same_done _ _ Hs). reflexivity.
Qed.

Lemma calm_finish_Wait fs c : calm c (snd (finish_Wait fs c)).
Proof.
  destruct (finish_Wait_spec fs c) as (_ & Hb & _ & Hs). apply calm_frame; assumption.
Qed.

Lemma not_done_le_length flags : (not_done flags <= length flags)%nat.
Proof. unfold not_done. apply List.filter_length_le. Qed.

Lemma not_done_insert (flags : list (option bool)) (n : nat) (d : bool) :
  flags !! n = Some (Some false) ->
  (not_done (<[n := Some d]> flags) + (if d then 1 else 0))%nat = not_done flags
  /\ (1 <= not_done flags)%nat.
Proof.
  unfold not_done. revert n. induction flags as [|f rest IH]; intros n Hn; [discriminate|].
  destruct n as [|n]; simpl in *.
  - injection Hn as ->. destruct d; simpl; lia.
  - apply IH in Hn as [H1 H2]. destruct f as [[|]|]; simpl; lia.
Qed.

(** A state in which the counters are right stays one under any change that
    is calm. *)
Lemma counters_ok_calm w c c' : evolves c c' -> calm c c' -> counters_ok_upto w c -> counters_ok_upto w c'.
Proof.
  intros Hev [Hf Hn Hw Hx] [I1 I2 I3]. split.
  - unfold count_not_done in *. rewrite Hf, Hn. exact I1.
  - rewrite Hn. exact I2.
  - rewrite Hw, Hx, Hn. intros Hwaited Hcalled Hexec.
    destruct (I3 Hwaited Hcalled Hexec) as [H|H]; [|auto].
    left. rewrite (evolves_query_status _ _ Hev H). exact H.
Qed.

Lemma advances_refl c : advances c c.
Proof. split; reflexivity || lia. Qed.

Lemma advances_trans c1 c2 c3 : advances c1 c2 -> advances c2 c3 -> advances c1 c3.
Proof. intros [] []. split; try congruence. lia. Qed.

Lemma calm_advances c c' : calm c c' -> advances c c'.
Proof. intros []. split; try assumption. lia. Qed.

Lemma counters_ok_advances w c c' :
  evolves c c' -> advances c c' ->
  Z.of_nat (count_not_done c') <= num_remaining_backends_ c' ->
  counters_ok_upto w c -> counters_ok_upto w c'.
Proof.
  intros Hev [Hn Hw Hx] I1' [I1 I2 I3]. split.
  - exact I1'.
  - lia.
  - rewrite Hw, Hx. intros Hwaited Hcalled Hexec.
    destruct (I3 Hwaited Hcalled Hexec) as [H|H]; [|right; lia].
    left. rewrite (evolves_query_status _ _ Hev H). exact H.
Qed.

Lemma done_flags_backend_completed n c :
  done_flags (backend_completed n c) = done_flags c.
Proof.
  unfold backend_completed, DCHECK.
  assert (forall l : list (option BackendExecState),
            map (fmap done) (alter (fmap (set_stopwatch_running false)) n l)
            = map (fmap done) l) as H.
  { intros l. revert n. induction l as [|s l IH]; intros [|n]; simpl; try reflexivity.
    - destruct s; reflexivity.
    - f_equal. apply IH. }
  unfold done_flags.
  destruct (0 <? _); simpl; destruct (_ =? 0); simpl; apply H.
Qed.

Lemma report_expected_state params c :
  report_expected (done_flags c) params = true ->
  0 <= Report.backend_num params
  /\ exists b, backend_exec_states_ c !! Z.to_nat (Report.backend_num params) = Some (Some b)
       /\ done b = false.
Proof.
  unfold report_expected, done_flags. intros H. apply andb_prop in H as [Hpos H].
  apply Z.leb_le in Hpos. split; [exact Hpos|].
  change (map (fmap done) (backend_exec_states_ c))
    with (fmap (M := list) (fmap done) (backend_exec_states_ c)) in H.
  rewrite list_lookup_fmap in H.
  destruct (backend_exec_states_ c !! _) as [[b|]|]; simpl in H; try discriminate.
  exists b. split; [reflexivity|]. destruct (done b); [discriminate|reflexivity].
Qed.

(** What a report that follows the worker protocol does to the counters. *)
Lemma counters_ok_report w params c :
  counters_ok_upto w c ->
  report_expected (done_flags c) params = true ->
  counters_ok_upto w (snd (UpdateFragmentExecStatus params c))
  /\ advances c (snd (UpdateFragmentExecStatus params c))
  /\ done_flags (snd (UpdateFragmentExecStatus params c))
     = flags_after_report (done_flags c) params.
Proof.
  intros Hok Hexp.
  pose proof (evolves_UpdateFragmentExecStatus params c) as Hev.
  destruct (report_expected_state params c Hexp) as (Hpos & b & Hn & Hdone).
  set (n := Z.to_nat (Report.backend_num params)) in *.
  revert Hev. rewrite (UpdateFragmentExecStatus_received params c n b Hpos eq_refl Hn).
  destruct (report_received_spec params n b c) as (Hq1 & Hn1 & Hs1 & Hr1 & Hw1 & Hx1).
  set (c1 := report_received params n b c) in *.
  assert (done_flags c1 = flags_after_report (done_flags c) params) as Hflags.
  { unfold done_flags, flags_after_report. rewrite Hs1. fold n.
    change (map (fmap done) ?l) with (fmap (M := list) (fmap done) l).
    rewrite list_fmap_insert. simpl. rewrite update_exec_state_done. reflexivity. }
  assert (done_flags c !! n = Some (Some false)) as Hflag.
  { unfold done_flags. change (map (fmap done) ?l) with (fmap (M := list) (fmap done) l).
    rewrite list_lookup_fmap, Hn. simpl. rewrite Hdone. reflexivity. }
  destruct (not_done_insert _ _ (Report.done params) Hflag) as [Hcount Hone].
  change (<[n := Some (Report.done params)]> (done_flags c))
    with (flags_after_report (done_flags c) params) in Hcount.
  rewrite <- Hflags in Hcount.
  destruct Hok as [I1 I2 I3]. unfold count_not_done in I1.
  cbv zeta. destruct (negb _ && negb _); cbn [snd]; intros Hev.
  - pose proof (calm_UpdateStatus (Report.status params) c1) as [Hf Hr Hw Hx].
    assert (advances c (snd (UpdateStatus (Report.status params) c1))) as Hadv.
    { split; [lia|congruence|congruence]. }
    split; [|split; [exact Hadv|congruence]].
    apply (counters_ok_advances w c); try assumption; [|split; assumption].
    unfold count_not_done. rewrite Hf, Hr, Hn1. destruct (Report.done params); lia.
  - destruct (Report.done params) eqn:Hpdone; cbn [snd] in *.
    + destruct (backend_completed_spec n c1) as (Hn2 & Hq2 & Hs2).
      { unfold INT_MIN. lia. }
      pose proof (done_flags_backend_completed n c1) as Hf2.
      assert (advances c (backend_completed n c1)) as Hadv.
      { split; [lia| |].
        - unfold backend_completed, DCHECK. destruct (0 <? _); simpl;
            destruct (_ =? 0); simpl; exact Hw1.
        - unfold backend_completed, DCHECK. destruct (0 <? _); simpl;
            destruct (_ =? 0); simpl; exact Hx1. }
      split; [|split; [exact Hadv|congruence]].
      apply (counters_ok_advances w c); try assumption; [|split; assumption].
      unfold count_not_done. rewrite Hf2. lia.
    + assert (advances c c1) as Hadv by (split; [lia|assumption|assumption]).
      split; [|split; [exact Hadv|exact Hflags]].
      apply (counters_ok_advances w c); try assumption; [|split; assumption].
      unfold count_not_done. lia.
Qed.

Lemma reports_expected_app flags events1 events2 :
  reports_expected flags (events1 ++ events2)
  = reports_expected flags events1 && reports_expected (flags_after flags events1) events2.
Proof.
  revert flags. induction events1 as [|[params|cause] rest IH]; intros flags; simpl.
  - reflexivity.
  - rewrite IH. apply andb_assoc.
  - apply IH.
Qed.

Lemma counters_ok_run w events c :
  counters_ok_upto w c ->
  reports_expected (done_flags c) events = true ->
  counters_ok_upto w (run events c) /\ advances c (run events c)
  /\ done_flags (run events c) = flags_after (done_flags c) events.
Proof.
  unfold run. revert c. induction events as [|[params|cause] rest IH]; intros c Hok Hexp;
    simpl in *.
  - auto using advances_refl.
  - apply andb_prop in Hexp as [Hp Hrest].
    destruct (counters_ok_report w params c Hok Hp) as (Hok1 & Hadv1 & Hf1).
    rewrite <- Hf1 in Hrest. destruct (IH _ Hok1 Hrest) as (Hok2 & Hadv2 & Hf2).
    split; [exact Hok2|]. split; [eapply advances_trans; eassumption|].
    rewrite Hf2, Hf1. reflexivity.
  - pose proof (calm_Cancel cause c) as Hcalm.
    assert (counters_ok_upto w (Cancel cause c)) as Hok1
      by (eapply counters_ok_calm; [apply evolves_Cancel|exact Hcalm|exact Hok]).
    rewrite <- (calm_flags _ _ Hcalm) in Hexp.
    destruct (IH _ Hok1 Hexp) as (Hok2 & Hadv2 & Hf2).
    split; [exact Hok2|].
    split; [eapply advances_trans; [apply calm_advances, Hcalm|exact Hadv2]|].
    rewrite Hf2, (calm_flags _ _ Hcalm). reflexivity.
Qed.

Lemma counters_ok_WaitForAllBackends w wakeups c st c' :
  counters_ok_upto w c ->
  reports_expected (done_flags c) (concat wakeups) = true ->
  WaitForAllBackends wakeups c = Returned (st, c') ->
  counters_ok_upto w c' /\ advances c c'.
Proof.
  revert c. induction wakeups as [|events rest IH]; intros c Hok Hexp; simpl;
    destruct ((0 <? num_remaining_backends_ c) && ok (query_status_ c));
    intros H; try discriminate.
  - injection H as <- <-. auto using advances_refl.
  - simpl in Hexp. rewrite reports_expected_app in Hexp.
    apply andb_prop in Hexp as [He Hrest].
    destruct (counters_ok_run w events c Hok He) as (Hok1 & Hadv1 & Hf1).
    rewrite <- Hf1 in Hrest. destruct (IH _ Hok1 Hrest H) as [Hok2 Hadv2].
    split; [exact Hok2|eapply advances_trans; eassumption].
  - injection H as <- <-. auto using advances_refl.
Qed.

Lemma calm_emit evs c : calm c (emit evs c).
Proof. split; reflexivity. Qed.

Lemma calm_fault fs c : calm c (fault fs c).
Proof. split; reflexivity. Qed.

Lemma calm_set_returned_all_results_ v c : calm c (set_returned_all_results_ v c).
Proof. split; reflexivity. Qed.

Lemma calm_set_write_outputs rows files stats c :
  calm c (set_write_outputs rows files stats c).
Proof. split; reflexivity. Qed.

Lemma calm_DCHECK cond what c : calm c (DCHECK cond what c).
Proof. unfold DCHECK. destruct cond; [apply calm_refl|apply calm_fault]. Qed.

(** Peels one layer off the state on the right of [calm]. *)
Ltac calm_step :=
  match goal with
  | |- calm ?c ?c => apply calm_refl
  | |- calm _ (ReportQuerySummary _) => eapply calm_trans; [|apply calm_ReportQuerySummary]
  | |- calm _ (CancelRemoteFragments _) =>
      eapply calm_trans; [|apply calm_CancelRemoteFragments]
  | |- calm _ (snd (UpdateStatus _ _)) => eapply calm_trans; [|apply calm_UpdateStatus]
  | |- calm _ (snd (finish_Wait _ _)) => eapply calm_trans; [|apply calm_finish_Wait]
  | |- calm _ (emit _ _) => eapply calm_trans; [|apply calm_emit]
  | |- calm _ (fault _ _) => eapply calm_trans; [|apply calm_fault]
  | |- calm _ (set_returned_all_results_ _ _) =>
      eapply calm_trans; [|apply calm_set_returned_all_results_]
  | |- calm _ (set_write_outputs _ _ _ _) =>
      eapply calm_trans; [|apply calm_set_write_outputs]
  | H : calm ?c ?x |- calm ?c ?x => exact H
  | |- calm _ (DCHECK _ _ _) => eapply calm_trans; [|apply calm_DCHECK]
  | |- calm _ (if ?x then _ else _) => destruct x
  end.

Lemma counters_ok_GetNext next_result next_batch during_next reached_limit wakeups
    c st batch c' :
  counters_ok c ->
  reports_expected (done_flags c) (GetNext_events c during_next wakeups) = true ->
  GetNext next_result next_batch during_next reached_limit wakeups c
    = Returned (st, batch, c') ->
  counters_ok c' /\ advances c c'.
Proof.
  intros Hok Hexp HGet.
  pose proof (evolves_GetNext _ _ _ _ _ _ _ _ _ HGet) as Hev.
  revert Hexp HGet. unfold GetNext, GetNext_events.
  assert (calm c (DCHECK (has_called_wait_ c) "has_called_wait_" c)) as Hd
    by (repeat calm_step).
  assert (evolves c (DCHECK (has_called_wait_ c) "has_called_wait_" c)) as Hde
    by apply evolves_DCHECK.
  revert Hd Hde. generalize (DCHECK (has_called_wait_ c) "has_called_wait_" c).
  intros d Hd Hde. rewrite <- (calm_executor _ _ Hd).
  destruct (executor_ d) eqn:Hexec; simpl.
  2:{ intros _ H. injection H as <- <- <-.
      split; [eapply counters_ok_calm; eassumption|apply calm_advances, Hd]. }
  rewrite reports_expected_app. intros Hexp. apply andb_prop in Hexp as [Hnext Hwake].
  assert (counters_ok (emit [ExecutorGetNext] d)
          /\ calm c (emit [ExecutorGetNext] d)) as [Hok0 Hcalm0].
  { assert (calm c (emit [ExecutorGetNext] d)) as Hc by (repeat calm_step).
    split; [|exact Hc]. eapply counters_ok_calm; [|exact Hc|exact Hok].
    repeat evolve_step. }
  rewrite <- (calm_flags _ _ Hcalm0) in Hnext, Hwake.
  destruct (counters_ok_run true during_next _ Hok0 Hnext) as (Hok1 & Hadv1 & Hf1).
  rewrite <- Hf1 in Hwake.
  set (c1 := run during_next (emit [ExecutorGetNext] d)) in *.
  assert (advances c c1) as Hadv01
    by (eapply advances_trans; [apply calm_advances, Hcalm0|exact Hadv1]).
  pose proof (calm_UpdateStatus next_result c1) as Hcalm2.
  assert (counters_ok (snd (UpdateStatus next_result c1))) as Hok2
    by (eapply counters_ok_calm; [apply evolves_UpdateStatus|exact Hcalm2|exact Hok1]).
  assert (advances c (snd (UpdateStatus next_result c1))) as Hadv2
    by (eapply advances_trans; [exact Hadv01|apply calm_advances, Hcalm2]).
  destruct (negb (ok (fst (UpdateStatus next_result c1)))).
  { intros H. injection H as <- <- <-. auto. }
  destruct next_batch as [rows|].
  { intros H. injection H as <- <- <-. auto. }
  match goal with |- context [WaitForAllBackends wakeups ?x] =>
    set (c3 := x) in *; assert (calm (snd (UpdateStatus next_result c1)) c3) as Hcalm3
      by (subst c3; repeat calm_step);
    assert (evolves (snd (UpdateStatus next_result c1)) c3) as Hev3
      by (subst c3; repeat evolve_step) end.
  assert (counters_ok c3) as Hok3 by (eapply counters_ok_calm; eassumption).
  rewrite <- (calm_flags _ _ Hcalm2), <- (calm_flags _ _ Hcalm3) in Hwake.
  destruct (WaitForAllBackends wakeups c3) as [[st0 c0]|] eqn:Hwait; [|discriminate].
  destruct (counters_ok_WaitForAllBackends true _ _ _ _ Hok3 Hwake Hwait) as [Hok4 Hadv4].
  assert (advances c c0) as Hadv04.
  { eapply advances_trans; [exact Hadv2|].
    eapply advances_trans; [apply calm_advances, Hcalm3|exact Hadv4]. }
  destruct (negb (ok st0)); intros H; injection H as <- <- <-; [auto|].
  destruct (ok (query_status_ c0)); [|auto].
  pose proof (calm_ReportQuerySummary c0) as Hcalm5.
  split; [eapply counters_ok_calm; [apply evolves_ReportQuerySummary|exact Hcalm5|exact Hok4]|].
  eapply advances_trans; [exact Hadv04|apply calm_advances, Hcalm5].
Qed.

Lemma counters_ok_weaken w c : counters_ok_upto w c -> counters_ok_upto false c.
Proof. intros [I1 I2 _]. split; [exact I1|exact I2|discriminate]. Qed.

Lemma counters_ok_waited c :
  counters_ok_upto false c ->
  (has_called_wait_ c = true -> executor_ c = false ->
   ok (query_status_ c) = false \/ num_remaining_backends_ c <= 0) ->
  counters_ok c.
Proof. intros [I1 I2 _] I3. split; auto. Qed.

Lemma counters_ok_Wait open_result during_open state wakeups fs c st fs' c' :
  counters_ok c ->
  reports_expected (done_flags c) (Wait_events c during_open wakeups) = true ->
  Wait open_result during_open state wakeups fs c = Returned (st, fs', c') ->
  counters_ok c'
  /\ num_remaining_backends_ c' <= num_remaining_backends_ c
  /\ executor_ c' = executor_ c.
Proof.
  intros Hok. unfold Wait, Wait_events. destruct (has_called_wait_ c) eqn:Hcalled.
  { intros _ H. injection H as <- <- <-. split; [exact Hok|]. split; [lia|reflexivity]. }
  set (c0 := set_has_called_wait_ true c).
  assert (counters_ok_upto false c0) as Hok0.
  { destruct Hok as [I1 I2 _]. split; [exact I1|exact I2|discriminate]. }
  change (executor_ c0) with (executor_ c). destruct (executor_ c) eqn:Hexec.
  - intros Hexp.
    assert (forall x : Coordinator,
              counters_ok_upto false x -> executor_ x = true ->
              num_remaining_backends_ x <= num_remaining_backends_ c ->
              finish_Wait fs x = (st, fs', c') ->
              counters_ok c'
              /\ num_remaining_backends_ c' <= num_remaining_backends_ c
              /\ executor_ c' = true) as Hfinish.
    { intros x Hx Hxe Hxn Hr.
      pose proof (calm_finish_Wait fs x) as Hcalm.
      destruct (finish_Wait_spec fs x) as (Hev & _).
      rewrite Hr in Hcalm, Hev. simpl in Hcalm, Hev.
      split; [|split].
      - apply counters_ok_waited.
        + eapply counters_ok_calm; eassumption.
        + rewrite (calm_executor _ _ Hcalm), Hxe. discriminate.
      - rewrite (calm_remaining _ _ Hcalm). exact Hxn.
      - rewrite (calm_executor _ _ Hcalm). exact Hxe. }
    assert (counters_ok_upto false (emit [ExecutorOpen] c0)) as Hok1.
    { eapply counters_ok_calm; [apply evolves_emit|apply calm_emit|exact Hok0]. }
    destruct (counters_ok_run false during_open (emit [ExecutorOpen] c0) Hok1 Hexp)
      as (Hok2 & Hadv2 & _).
    set (c2 := run during_open (emit [ExecutorOpen] c0)) in *.
    pose proof (calm_UpdateStatus open_result c2) as Hcalm3.
    assert (counters_ok_upto false (snd (UpdateStatus open_result c2))) as Hok3.
    { eapply counters_ok_calm; [apply evolves_UpdateStatus|exact Hcalm3|exact Hok2]. }
    assert (executor_ c2 = true /\ num_remaining_backends_ c2 <= num_remaining_backends_ c)
      as [Hx2 Hn2].
    { destruct Hadv2 as [Hn _ Hx]. simpl in *. split; [congruence|exact Hn]. }
    destruct (ok (fst (UpdateStatus open_result c2))); intros H; injection H as H.
    + match type of H with finish_Wait fs ?x = _ =>
        assert (calm (snd (UpdateStatus open_result c2)) x) as Hc
          by (repeat calm_step);
        assert (evolves (snd (UpdateStatus open_result c2)) x) as He
          by (repeat evolve_step) end.
      eapply Hfinish; [| | |exact H].
      * eapply counters_ok_calm; eassumption.
      * rewrite (calm_executor _ _ Hc), (calm_executor _ _ Hcalm3). exact Hx2.
      * rewrite (calm_remaining _ _ Hc), (calm_remaining _ _ Hcalm3). exact Hn2.
    + eapply Hfinish; [| | |exact H].
      * exact Hok3.
      * rewrite (calm_executor _ _ Hcalm3). exact Hx2.
      * rewrite (calm_remaining _ _ Hcalm3). exact Hn2.
  - intros Hexp.
    destruct (WaitForAllBackends wakeups c0) as [[st0 c1]|] eqn:Hwait; [|discriminate].
    destruct (counters_ok_WaitForAllBackends false _ _ _ _ Hok0 Hexp Hwait)
      as [Hok1 [Hn1 Hw1 Hx1]].
    apply evolves_WaitForAllBackends in Hwait as (Hev1 & -> & Hcond).
    simpl in Hn1, Hw1, Hx1.
    assert (counters_ok c1) as Hok1'.
    { apply counters_ok_waited; [exact Hok1|]. intros _ _.
      apply andb_false_iff in Hcond as [H|H]; [right; apply Z.ltb_ge in H; lia|left; exact H]. }
    destruct (negb (needs_finalization_ c1) && negb (ok (query_status_ c1))); intros H.
    + injection H as <- <- <-. split; [exact Hok1'|]. split; [exact Hn1|congruence].
    + injection H as H.
      pose proof (calm_finish_Wait fs c1) as Hcalm.
      destruct (finish_Wait_spec fs c1) as (Hev & _).
      rewrite H in Hcalm, Hev. simpl in Hcalm, Hev.
      split; [eapply counters_ok_calm; eassumption|].
      rewrite (calm_remaining _ _ Hcalm), (calm_executor _ _ Hcalm).
      split; [exact Hn1|congruence].
Qed.

(** Every call during which the backends follow the worker protocol keeps the
    counters right and does not let num_remaining_backends_ grow. *)
Lemma counters_ok_step c c' :
  step expected_reports c c' -> counters_ok c ->
  counters_ok c' /\ num_remaining_backends_ c' <= num_remaining_backends_ c.
Proof.
  unfold expected_reports. intros Hstep Hok. destruct Hstep.
  - simpl in H. rewrite andb_true_r in H.
    destruct (counters_ok_report true params c Hok H) as (Hok' & [Hn _ _] & _). auto.
  - pose proof (calm_Cancel cause c) as Hcalm.
    split; [eapply counters_ok_calm; [apply evolves_Cancel|exact Hcalm|exact Hok]|].
    rewrite (calm_remaining _ _ Hcalm). lia.
  - pose proof (calm_UpdateStatus st c) as Hcalm.
    split; [eapply counters_ok_calm; [apply evolves_UpdateStatus|exact Hcalm|exact Hok]|].
    rewrite (calm_remaining _ _ Hcalm). lia.
  - destruct (counters_ok_Wait _ _ _ _ _ _ _ _ _ Hok H H0) as (Hok' & Hn & _). auto.
  - destruct (counters_ok_GetNext _ _ _ _ _ _ _ _ _ Hok H H0) as (Hok' & [Hn _ _]). auto.
Qed.

Lemma counters_ok_steps c c' :
  rtc (step expected_reports) c c' -> counters_ok c ->
  counters_ok c' /\ num_remaining_backends_ c' <= num_remaining_backends_ c.
Proof.
  induction 1 as [|c1 c2 c3 H12 _ IH]; intros Hok; [split; [exact Hok|lia]|].
  destruct (counters_ok_step _ _ H12 Hok) as [Hok2 Hn2].
  destruct (IH Hok2) as [Hok3 Hn3]. split; [exact Hok3|lia].
Qed.

Lemma sized_refl c : sized c c.
Proof. split; reflexivity. Qed.

Lemma sized_trans c1 c2 c3 : sized c1 c2 -> sized c2 c3 -> sized c1 c3.
Proof. intros [] []. split; congruence. Qed.

Lemma calm_sized c c' : calm c c' -> sized c c'.
Proof.
  intros [Hf Hn Hw _]. split; try assumption.
  apply (f_equal length) in Hf. unfold done_flags in Hf. rewrite !length_map in Hf. exact Hf.
Qed.

Lemma sized_set_up_exec_states fragment_idx instance_idx params remaining_hosts backend_num c :
  sized c (set_up_exec_states fragment_idx instance_idx params remaining_hosts backend_num c).
Proof.
  revert instance_idx backend_num c.
  induction remaining_hosts as [|host rest IH]; intros instance_idx backend_num c; simpl.
  - apply sized_refl.
  - eapply sized_trans; [|apply IH].
    destruct (_ <? _)%nat; split; simpl; try reflexivity. apply length_insert.
Qed.

Lemma sized_ParallelExecutor_Exec i num first_error c :
  sized c (snd (ParallelExecutor_Exec i num first_error c)).
Proof.
  revert i first_error c. induction num as [|num IH]; intros i first_error c; simpl.
  - apply sized_refl.
  - destruct (backend_exec_states_ c !! i) as [[b|]|];
      (eapply sized_trans; [|apply IH]); split; simpl; try reflexivity.
    apply length_insert.
Qed.

Lemma sized_start_fragments schedule fragment_idxs backend_num c :
  sized c (snd (start_fragments schedule fragment_idxs backend_num c)).
Proof.
  revert backend_num c.
  induction fragment_idxs as [|fragment_idx rest IH]; intros backend_num c; simpl.
  - apply sized_refl.
  - match goal with |- context [ParallelExecutor_Exec ?i ?n ?e ?x] =>
      pose proof (sized_ParallelExecutor_Exec i n e x) as Hpar;
      assert (sized c x) as Hset
    end.
    { eapply sized_trans; [|apply sized_set_up_exec_states].
      apply calm_sized, calm_DCHECK. }
    destruct (negb (ok (fst (ParallelExecutor_Exec _ _ _ _)))); simpl.
    + eapply sized_trans; [exact Hset|]. eapply sized_trans; [exact Hpar|].
      eapply sized_trans; [|apply calm_sized, calm_CancelInternal].
      eapply sized_trans; [apply calm_sized, calm_DCHECK|]. split; reflexivity.
    + eapply sized_trans; [exact Hset|]. eapply sized_trans; [exact Hpar|apply IH].
Qed.

Lemma counters_ok_sized c :
  has_called_wait_ c = false ->
  Z.of_nat (length (backend_exec_states_ c)) <= num_remaining_backends_ c <= INT_MAX ->
  counters_ok c.
Proof.
  intros Hw [Hlen Hmax]. split; [|exact Hmax|congruence].
  pose proof (not_done_le_length (done_flags c)) as H.
  unfold count_not_done. unfold done_flags in H at 2. rewrite length_map in H. lia.
Qed.

(** Exec leaves the counters right (lines 391-392): backend_exec_states_ has
    num_backends slots and num_remaining_backends_ is num_backends. *)
Lemma counters_ok_Exec schedule prepare create_expr_trees expr_prepare :
  Z.of_nat (num_backends schedule) <= INT_MAX ->
  counters_ok (snd (Exec schedule prepare create_expr_trees expr_prepare Coordinator_new)).
Proof.
  intros Hmax. unfold Exec.
  set (c0 := DCHECK _ _ Coordinator_new).
  set (has := match fragments schedule with
              | partition_type :: _ => is_UNPARTITIONED partition_type
              | [] => false
              end).
  set (c1 := if has then emit [ExecutorPrepare] (set_request schedule has c0)
             else set_request schedule has c0).
  assert (has_called_wait_ c1 = false /\ backend_exec_states_ c1 = []
          /\ num_remaining_backends_ c1 = 0) as (Hw1 & Hs1 & Hn1).
  { subst c1 c0. unfold DCHECK. destruct has, (0 <? _)%nat; simpl; auto. }
  assert (counters_ok c1) as Hearly.
  { apply counters_ok_sized; [exact Hw1|]. rewrite Hs1, Hn1. unfold INT_MAX. simpl. lia. }
  destruct (has && negb (ok prepare)); [exact Hearly|].
  destruct (has && negb (ok create_expr_trees)); [exact Hearly|].
  destruct (has && negb (ok expr_prepare)); [exact Hearly|].
  match goal with |- context [start_fragments schedule ?l 0 ?x] =>
    pose proof (sized_start_fragments schedule l 0 x) as [Hlen Hn Hw];
    destruct (start_fragments schedule l 0 x) as [[st|] c2]
  end; simpl in *.
  - apply counters_ok_sized; [rewrite Hw; exact Hw1|].
    rewrite Hlen, Hn, Hs1, length_resize. lia.
  - assert (forall x, has_called_wait_ x = has_called_wait_ c2 ->
              backend_exec_states_ x = backend_exec_states_ c2 ->
              num_remaining_backends_ x = num_remaining_backends_ c2 ->
              counters_ok x) as Hfinal.
    { intros x Hxw Hxs Hxn. apply counters_ok_sized; [rewrite Hxw, Hw; exact Hw1|].
      rewrite Hxs, Hxn, Hlen, Hn, Hs1, length_resize. lia. }
    destruct (has && _); apply Hfinal; reflexivity.
Qed.

Lemma reachable_counters_ok c : reachable c -> counters_ok c.
Proof.
  intros (schedule & p1 & p2 & p3 & Hmax & Hsteps).
  apply (counters_ok_steps _ _ Hsteps). apply counters_ok_Exec, Hmax.
Qed.

Lemma returned_all_results_UpdateStatus st c :
  returned_all_results_ (snd (UpdateStatus st c)) = returned_all_results_ c.
Proof.
  pose proof (UpdateStatus_bookkeeping st c) as H. unfold bookkeeping in H. congruence.
Qed.

Lemma returned_all_results_Cancel cause c :
  returned_all_results_ (Cancel cause c) = returned_all_results_ c.
Proof.
  unfold Cancel. destruct (negb (ok (query_status_ c))); [reflexivity|].
  destruct (CancelInternal_bookkeeping (set_query_status_ (cancel_status cause) c))
    as [H _].
  fold (cancel_status cause). unfold bookkeeping in H. simpl in H. congruence.
Qed.

Lemma returned_all_results_UpdateFragmentExecStatus params c :
  returned_all_results_ (snd (UpdateFragmentExecStatus params c)) = returned_all_results_ c.
Proof.
  destruct (Report.backend_num params <? 0) eqn:E1.
  { unfold UpdateFragmentExecStatus. rewrite E1. reflexivity. }
  destruct (Z.of_nat (length (backend_exec_states_ c)) <=? Report.backend_num params) eqn:E2.
  { unfold UpdateFragmentExecStatus. rewrite E1, E2. reflexivity. }
  destruct (backend_exec_states_ c !! Z.to_nat (Report.backend_num params))
    as [[b|]|] eqn:Hn;
    [|unfold UpdateFragmentExecStatus; rewrite E1, E2, Hn; reflexivity..].
  apply Z.ltb_ge in E1.
  rewrite (UpdateFragmentExecStatus_received params c _ b E1 eq_refl Hn). cbv zeta.
  destruct (report_received_spec params (Z.to_nat (Report.backend_num params)) b c)
    as (_ & _ & _ & Hr & _).
  destruct (negb _ && negb _); cbn [snd].
  - rewrite returned_all_results_UpdateStatus. exact Hr.
  - destruct (Report.done params); cbn [snd]; [|exact Hr].
    unfold backend_completed, DCHECK. destruct (0 <? _); simpl;
      destruct (_ =? 0); simpl; exact Hr.
Qed.

Lemma returned_all_results_run events c :
  returned_all_results_ (run events c) = returned_all_results_ c.
Proof.
  unfold run. revert c. induction events as [|[params|cause] rest IH]; intros c; simpl.
  - reflexivity.
  - rewrite IH. apply returned_all_results_UpdateFragmentExecStatus.
  - rewrite IH. apply returned_all_results_Cancel.
Qed.

Lemma returned_all_results_WaitForAllBackends wakeups c st c' :
  WaitForAllBackends wakeups c = Returned (st, c') ->
  returned_all_results_ c' = returned_all_results_ c.
Proof.
  revert c. induction wakeups as [|events rest IH]; intros c; simpl;
    destruct ((0 <? num_remaining_backends_ c) && ok (query_status_ c));
    intros H; try discriminate.
  - injection H as <- <-. reflexivity.
  - rewrite (IH _ H). apply returned_all_results_run.
  - injection H as <- <-. reflexivity.
Qed.

(** When GetNext hands out the NULL batch with an OK status, no backend
    remains. *)
Lemma GetNext_final_batch next_result next_batch during_next reached_limit wakeups c st c' :
  GetNext next_result next_batch during_next reached_limit wakeups c
    = Returned (st, None, c') ->
  ok st = true ->
  (executor_ c = false ->
   ok (query_status_ c) = false \/ num_remaining_backends_ c <= 0) ->
  num_remaining_backends_ c' <= 0
  /\ (executor_ c = true -> returned_all_results_ c' = true).
Proof.
  unfold GetNext.
  assert (calm c (DCHECK (has_called_wait_ c) "has_called_wait_" c)) as Hd
    by apply calm_DCHECK.
  assert (query_status_ (DCHECK (has_called_wait_ c) "has_called_wait_" c)
          = query_status_ c) as Hq by (unfold DCHECK; destruct (has_called_wait_ c); auto).
  revert Hd Hq. generalize (DCHECK (has_called_wait_ c) "has_called_wait_" c).
  intros d Hd Hq. rewrite <- (calm_executor _ _ Hd).
  destruct (executor_ d); simpl.
  - destruct (negb (ok (fst (UpdateStatus next_result _)))) eqn:Herr.
    { intros H Hst. injection H as E _ _. rewrite E, Hst in Herr. discriminate. }
    destruct next_batch as [rows|]; [discriminate|].
    match goal with |- context [WaitForAllBackends wakeups ?x] =>
      assert (returned_all_results_ x = true) as Hret
        by (destruct reached_limit; reflexivity);
      destruct (WaitForAllBackends wakeups x) as [[st0 c0]|] eqn:Hwait; [|discriminate]
    end.
    apply returned_all_results_WaitForAllBackends in Hwait as Hret0.
    apply evolves_WaitForAllBackends in Hwait as (_ & -> & Hcond).
    destruct (negb (ok (query_status_ c0))) eqn:Herr0; intros H Hst _;
      injection H as <- <-.
    { rewrite Hst in Herr0. discriminate. }
    apply negb_false_iff in Herr0. rewrite Herr0, andb_true_r in Hcond.
    rewrite Herr0. apply Z.ltb_ge in Hcond.
    pose proof (calm_ReportQuerySummary c0) as Hcalm.
    destruct (ReportQuerySummary_bookkeeping c0) as (Hbook & _).
    unfold bookkeeping in Hbook.
    split; [rewrite (calm_remaining _ _ Hcalm); exact Hcond|].
    intros _. congruence.
  - intros H Hst Hwaited. injection H as <- <-. unfold GetStatus in Hst.
    rewrite Hq in Hst. rewrite (calm_remaining _ _ Hd).
    destruct (Hwaited eq_refl) as [H|H]; [congruence|]. split; [exact H|discriminate].
Qed.

(** C1 (as the code has it).  In every state [c] reached from Exec while the
    backends follow the worker protocol: num_remaining_backends_ is an int
    that is at least the number of BackendExecStates whose done is false; no
    call makes it grow; and a report for a backend that is not yet done sets
    the state's done to the report's, and decrements the count by exactly one
    when done is set and the status is not an error of the query (OK, or
    CANCELLED after all results were returned), and leaves it as it is
    otherwise, in particular when done comes with an error status.  Exec
    starts it at the number of backends. *)
Theorem num_remaining_backends_bounds_not_done (c : Coordinator) :
  reachable c ->
  (Z.of_nat (count_not_done c) <= num_remaining_backends_ c <= INT_MAX)
  /\ (forall c', rtc (step expected_reports) c c' ->
        num_remaining_backends_ c' <= num_remaining_backends_ c)
  /\ (forall params,
        report_expected (done_flags c) params = true ->
        let c' := snd (UpdateFragmentExecStatus params c) in
        done_flags c' !! Z.to_nat (Report.backend_num params) = Some (Some (Report.done params))
        /\ num_remaining_backends_ c'
           = (if Report.done params && negb (is_query_error c (Report.status params))
              then num_remaining_backends_ c - 1
              else num_remaining_backends_ c))
  /\ (forall schedule prepare create_expr_trees expr_prepare,
        ok prepare = true -> ok create_expr_trees = true -> ok expr_prepare = true ->
        let c0 := snd (Exec schedule prepare create_expr_trees expr_prepare Coordinator_new) in
        num_remaining_backends_ c0 = Z.of_nat (num_backends schedule)
        /\ length (backend_exec_states_ c0) = num_backends schedule).
Proof.
  intros Hreach. pose proof (reachable_counters_ok c Hreach) as Hok.
  split; [destruct Hok; auto|]. split; [|split].
  - intros c' Hsteps. apply (counters_ok_steps _ _ Hsteps Hok).
  - intros params Hexp c'.
    destruct (counters_ok_report true params c Hok Hexp) as (_ & _ & Hflags).
    fold c' in Hflags. split.
    { rewrite Hflags. unfold flags_after_report. apply list_lookup_insert_eq.
      unfold report_expected in Hexp. apply andb_prop in Hexp as [_ Hexp].
      destruct (done_flags c !! _) eqn:E; [|discriminate].
      apply lookup_lt_Some in E. exact E. }
    destruct (report_expected_state params c Hexp) as (Hpos & b & Hn & Hdone).
    subst c'. rewrite (UpdateFragmentExecStatus_received params c _ b Hpos eq_refl Hn).
    cbv zeta. fold (is_query_error c (Report.status params)).
    destruct (report_received_spec params (Z.to_nat (Report.backend_num params)) b c)
      as (_ & Hn1 & _).
    destruct (is_query_error c (Report.status params)); cbn [snd negb].
    + rewrite andb_false_r.
      rewrite (calm_remaining _ _ (calm_UpdateStatus _ _)). exact Hn1.
    + rewrite andb_true_r. destruct (Report.done params); cbn [snd]; [|exact Hn1].
      destruct (backend_completed_spec (Z.to_nat (Report.backend_num params))
                  (report_received params (Z.to_nat (Report.backend_num params)) b c))
        as (-> & _); [|rewrite Hn1; reflexivity].
      rewrite Hn1. destruct Hok as [I1 I2 _].
      assert (1 <= count_not_done c)%nat; [|unfold INT_MIN; lia].
      unfold count_not_done.
      assert (done_flags c !! Z.to_nat (Report.backend_num params) = Some (Some false)) as E.
      { unfold done_flags.
        change (map (fmap done) ?l) with (fmap (M := list) (fmap done) l).
        rewrite list_lookup_fmap, Hn. simpl. rewrite Hdone. reflexivity. }
      apply (not_done_insert _ _ true E).
  - intros schedule prepare create_expr_trees expr_prepare H1 H2 H3 c0. subst c0.
    unfold Exec. rewrite H1, H2, H3. simpl negb. rewrite !andb_false_r.
    match goal with |- context [start_fragments schedule ?l 0 ?x] =>
      pose proof (sized_start_fragments schedule l 0 x) as [Hlen Hn Hw];
      destruct (start_fragments schedule l 0 x) as [[st|] c2]
    end; simpl in *.
    + rewrite Hn, Hlen. split; [reflexivity|].
      unfold DCHECK. destruct (0 <? _)%nat; simpl;
        match goal with |- context [if ?b then _ else _] => destruct b end;
        simpl; apply length_resize.
    + match goal with |- context [if ?b then _ else _] => destruct b end; simpl;
        rewrite Hn, Hlen; (split; [reflexivity|]);
        unfold DCHECK; destruct (0 <? _)%nat; simpl;
        match goal with |- context [if ?b then _ else _] => destruct b end;
        simpl; apply length_resize.
Qed.

(** C6 (as the code has it).  In a state reached from Exec, after Wait has
    been called and while the backends follow the worker protocol (each
    reports until its report with done set, and not after it): when GetNext
    returns the NULL batch with an OK status, every BackendExecState has done
    set and num_remaining_backends_ is not positive; with a local executor
    returned_all_results_ is set as well.  WaitForAllBackends, through which
    GetNext gets there, stays blocked exactly while num_remaining_backends_ is
    positive and query_status_ is OK. *)
Theorem GetNext_final_batch_after_all_backends (next_result : Status)
    (next_batch : option RowBatch) (during_next : list Event) (reached_limit : bool)
    (wakeups : list (list Event)) (c : Coordinator) (st : Status) (c' : Coordinator) :
  reachable c ->
  has_called_wait_ c = true ->
  reports_expected (done_flags c) (GetNext_events c during_next wakeups) = true ->
  GetNext next_result next_batch during_next reached_limit wakeups c
    = Returned (st, None, c') ->
  ok st = true ->
  count_not_done c' = 0%nat
  /\ num_remaining_backends_ c' <= 0
  /\ (executor_ c = true -> returned_all_results_ c' = true)
  /\ (forall c0,
        WaitForAllBackends [] c0 = Blocked
        <-> (0 <? num_remaining_backends_ c0) && ok (query_status_ c0) = true).
Proof.
  intros Hreach Hcalled Hexp HGet Hst.
  pose proof (reachable_counters_ok c Hreach) as Hok.
  destruct (counters_ok_GetNext _ _ _ _ _ _ _ _ _ Hok Hexp HGet) as [[I1 _ _] _].
  destruct (GetNext_final_batch _ _ _ _ _ _ _ _ HGet Hst) as [Hn Hret].
  { intros Hexec. destruct Hok as [_ _ I3]. apply I3; auto. }
  split; [lia|]. split; [exact Hn|]. split; [exact Hret|].
  intros c0. simpl. destruct ((0 <? num_remaining_backends_ c0) && ok (query_status_ c0));
    split; intros H; try reflexivity; discriminate.
Qed.

(** * Further properties of the code *)

(** ** The debug_action option: the names and the backends *)

Lemma to_upper_idempotent c : to_upper (to_upper c) = to_upper c.
Proof. destruct c as [[] [] [] [] [] [] [] []]; reflexivity. Qed.

Lemma upper_idempotent s : upper (upper s) = upper s.
Proof.
  induction s as [|c s IH]; simpl; [reflexivity|]. rewrite to_upper_idempotent, IH.
  reflexivity.
Qed.

Lemma iequals_upper a b : iequals a b = String.eqb (upper a) (upper b).
Proof.
  revert b. induction a as [|x a IH]; intros [|y b]; simpl; try reflexivity.
  rewrite IH. reflexivity.
Qed.

Lemma iequals_spec a b : iequals a b = true <-> upper a = upper b.
Proof. rewrite iequals_upper. apply String.eqb_eq. Qed.

Lemma find_name_iequals table key key' dflt :
  iequals key key' = true -> find_name table key dflt = find_name table key' dflt.
Proof.
  intros H. apply iequals_spec in H.
  induction table as [|entry rest IH]; simpl; [reflexivity|].
  rewrite !iequals_upper, H, IH. reflexivity.
Qed.

(** X1.  The names of phases and actions are compared without regard to
    case: iequals holds exactly of two strings with the same upper-case form,
    so it is an equivalence that a string shares with its upper-case form,
    and GetExecNodePhase and GetDebugAction give the same value for two keys
    that are equal up to case. *)
Theorem names_ignore_case :
  (forall a b, iequals a b = true <-> upper a = upper b)
  /\ (forall a, iequals a (upper a) = true)
  /\ (forall key key', iequals key key' = true ->
        GetExecNodePhase key = GetExecNodePhase key'
        /\ GetDebugAction key = GetDebugAction key').
Proof.
  split; [exact iequals_spec|]. split.
  - intros a. apply iequals_spec. symmetry. apply upper_idempotent.
  - intros key key' H. split; apply find_name_iequals, H.
Qed.

Lemma find_name_entry table key value name dflt :
  NoDup (map (fun entry => upper (snd entry)) table) ->
  In (value, name) table -> iequals key name = true ->
  find_name table key dflt = value.
Proof.
  intros Hnodup Hin Hkey. apply iequals_spec in Hkey.
  induction table as [|entry rest IH]; simpl in *; [contradiction|].
  apply NoDup_cons in Hnodup as [Hfresh Hnodup].
  destruct Hin as [->|Hin]; simpl.
  - rewrite iequals_upper, Hkey, String.eqb_refl. reflexivity.
  - destruct (iequals key (snd entry)) eqn:E; [|auto].
    exfalso. apply Hfresh. apply iequals_spec in E.
    rewrite <- E, Hkey. apply list_elem_of_In, in_map_iff. exists (value, name). auto.
Qed.

(** X2.  Looking a name up gives back its value: in a table whose names are
    pairwise different up to case, a key that equals the name of an entry up
    to case is mapped to the value of that entry, by GetExecNodePhase in the
    phase table and by GetDebugAction in the action table. *)
Theorem name_lookup_gives_value (key name : string) (value : Z) :
  iequals key name = true ->
  (NoDup (map (fun entry => upper (snd entry)) TExecNodePhase_VALUES_TO_NAMES) ->
   In (value, name) TExecNodePhase_VALUES_TO_NAMES -> GetExecNodePhase key = value)
  /\ (NoDup (map (fun entry => upper (snd entry)) TDebugAction_VALUES_TO_NAMES) ->
      In (value, name) TDebugAction_VALUES_TO_NAMES -> GetDebugAction key = value).
Proof.
  intros Hkey. split; intros Hnodup Hin; eapply find_name_entry; eauto.
Qed.

(** X3.  Which backends get the debug options.  Let the phase component of
    a debug_action string name a valid phase.  With three components
    (node:phase:action) the options are handed to every backend, with
    backend_num -1; with four (backend:node:phase:action) they are handed to
    backend [num] exactly when atoi of the first component is [num] or -1. *)
Theorem debug_options_reach_backends (s : string) (num : Z) :
  s <> EmptyString ->
  GetExecNodePhase (phase_component s) <> TExecNodePhase_INVALID ->
  let d := exec_debug_options (mkTQueryOptions (Some s)) in
  (length (split s) = 3%nat ->
     backend_debug_options d num = Some d
     /\ DebugAction.backend_num d = -1
     /\ DebugAction.node_id d = atoi (first_component s))
  /\ (length (split s) = 4%nat ->
        DebugAction.backend_num d = atoi (first_component s)
        /\ (backend_debug_options d num = Some d
            <-> atoi (first_component s) = num \/ atoi (first_component s) = -1)
        /\ (backend_debug_options d num <> Some d -> backend_debug_options d num = None)).
Proof.
  intros Hs Hphase d. unfold d, exec_debug_options, ProcessQueryOptions, first_component.
  unfold phase_component in Hphase. simpl.
  destruct (String.eqb_spec s EmptyString) as [->|_]; [congruence|].
  split; intros Hlen; rewrite Hlen in *; simpl in *.
  - unfold backend_debug_options. simpl.
    apply Z.eqb_neq in Hphase. rewrite Hphase. simpl. auto.
  - unfold backend_debug_options. simpl.
    apply Z.eqb_neq in Hphase. rewrite Hphase. simpl.
    split; [reflexivity|]. split.
    + destruct (atoi (nth 0 (split s) EmptyString) =? -1) eqn:E1; simpl.
      * apply Z.eqb_eq in E1. split; auto.
      * destruct (atoi (nth 0 (split s) EmptyString) =? num) eqn:E2.
        -- apply Z.eqb_eq in E2. split; auto.
        -- apply Z.eqb_neq in E1, E2. split; [discriminate|]. intros [?|?]; contradiction.
    + destruct ((atoi (nth 0 (split s) EmptyString) =? -1)
                || (atoi (nth 0 (split s) EmptyString) =? num)); [|reflexivity].
      intros H. exfalso. apply H. reflexivity.
Qed.

(** ** Status reports *)

(** X4.  Which reports UpdateFragmentExecStatus accepts.  For a backend
    number that is out of range, negative numbers included (the int is
    compared with a size_t), it returns INTERNAL_ERROR with the message
    "unknown backend number" and changes nothing.  For a number in range whose
    BackendExecState exists it returns OK whatever status the report carries.
    For a number in range whose slot is still NULL (Exec has not created the
    state) the state is dereferenced, which is recorded as a fault, and
    nothing is said of the result.  So where no slot is NULL, an error is
    returned exactly for a number out of range. *)
Theorem unknown_backend_number (params : TReportExecStatusParams) (c : Coordinator) :
  let in_range :=
    0 <= Report.backend_num params < Z.of_nat (length (backend_exec_states_ c)) in
  let slot := backend_exec_states_ c !! Z.to_nat (Report.backend_num params) in
  (~ in_range ->
     UpdateFragmentExecStatus params c
     = (Status_of_code INTERNAL_ERROR "unknown backend number", c))
  /\ (forall b, in_range -> slot = Some (Some b) ->
        fst (UpdateFragmentExecStatus params c) = Status_OK)
  /\ (in_range -> slot = Some None ->
        faults_ (snd (UpdateFragmentExecStatus params c))
        = faults_ c ++ [NullDereference "UpdateFragmentExecStatus"])
  /\ (Forall (fun s : option BackendExecState => is_Some s) (backend_exec_states_ c) ->
      (ok (fst (UpdateFragmentExecStatus params c)) = true <-> in_range)).
Proof.
  intros in_range slot. unfold in_range, slot.
  split; [|split; [|split]].
  - intros Hout. unfold UpdateFragmentExecStatus.
    destruct (Report.backend_num params <? 0) eqn:Hneg; [reflexivity|].
    destruct (Z.of_nat (length (backend_exec_states_ c)) <=? Report.backend_num params)
      eqn:Hbig; [reflexivity|].
    apply Z.ltb_ge in Hneg. apply Z.leb_gt in Hbig. lia.
  - intros b [Hpos _] Hslot.
    rewrite (UpdateFragmentExecStatus_received params c _ b Hpos eq_refl Hslot).
    cbv zeta.
    repeat match goal with |- context [if ?x then _ else _] => destruct x end; reflexivity.
  - intros [Hpos Hlt] Hslot. unfold UpdateFragmentExecStatus.
    destruct (Report.backend_num params <? 0) eqn:Hneg; [apply Z.ltb_lt in Hneg; lia|].
    destruct (Z.of_nat (length (backend_exec_states_ c)) <=? Report.backend_num params)
      eqn:Hbig; [apply Z.leb_le in Hbig; lia|].
    simpl. rewrite Hslot. reflexivity.
  - intros Hstates. split.
    + intros Hok. unfold UpdateFragmentExecStatus in Hok.
      destruct (Report.backend_num params <? 0) eqn:Hneg; [discriminate|].
      destruct (Z.of_nat (length (backend_exec_states_ c)) <=? Report.backend_num params)
        eqn:Hbig; [discriminate|].
      apply Z.ltb_ge in Hneg. apply Z.leb_gt in Hbig. lia.
    + intros [Hpos Hlt].
      destruct (lookup_lt_is_Some_2 (backend_exec_states_ c)
                  (Z.to_nat (Report.backend_num params))) as [s Hs]; [lia|].
      destruct (Forall_lookup_1 _ _ _ _ Hstates Hs) as [b ->].
      rewrite (UpdateFragmentExecStatus_received params c _ b Hpos eq_refl Hs).
      cbv zeta.
      repeat match goal with |- context [if ?x then _ else _] => destruct x end;
        reflexivity.
Qed.

Lemma report_received_frame params n b c :
  effects_ (report_received params n b c) = effects_ c
  /\ query_id_ (report_received params n b c) = query_id_ c.
Proof.
  unfold report_received.
  destruct (Report.insert_exec_status params), (Report.done params); split; reflexivity.
Qed.

Lemma cancel_exec_state_not_ok query_id i b :
  ok (status b) = false -> cancel_exec_state query_id i (Some b) = (Some b, []).
Proof. intros H. simpl. rewrite H. reflexivity. Qed.

(** X5.  Any fragment failure fails the whole query.  While query_status_
    is OK, a report for backend [i] with an error status (other than a
    CANCELLED that arrives after all results were returned) makes that status
    the query status and the status of backend [i]; every other backend goes
    through the body of CancelRemoteFragments, so those that are OK,
    initiated and not done are sent one CancelPlanFragment; backend [i]
    itself is sent none; and num_remaining_backends_ stays as it is. *)
Theorem error_report_fails_query (params : TReportExecStatusParams) (c : Coordinator)
    (i : nat) (b : BackendExecState) :
  ok (query_status_ c) = true ->
  backend_exec_states_ c !! i = Some (Some b) ->
  Report.backend_num params = Z.of_nat i ->
  ok (Report.status params) = false ->
  returned_all_results_ c && IsCancelled (Report.status params) = false ->
  let c' := snd (UpdateFragmentExecStatus params c) in
  query_status_ c' = Report.status params
  /\ backend_exec_states_ c' !! i = Some (Some (update_exec_state params b))
  /\ status (update_exec_state params b) = Report.status params
  /\ (forall j s, j <> i -> backend_exec_states_ c !! j = Some s ->
        backend_exec_states_ c' !! j = Some (fst (cancel_exec_state (query_id_ c) j s)))
  /\ num_remaining_backends_ c' = num_remaining_backends_ c
  /\ exists added,
       effects_ c' = effects_ c ++ added
       /\ ~ In i (cancel_rpcs added)
       /\ forall j, In j (cancel_rpcs added) ->
            exists s, backend_exec_states_ c !! j = Some s /\ to_cancel s.
Proof.
  intros Hok Hi Hnum Hst Hignored c'.
  assert (Z.to_nat (Report.backend_num params) = i) as Hn by lia.
  unfold c'. rewrite (UpdateFragmentExecStatus_received params c i b) by (auto; lia).
  cbv zeta. rewrite Hignored, Hst. simpl.
  destruct (report_received_spec params i b c) as (Hq1 & Hr1 & Hs1 & Ha1 & _).
  destruct (report_received_frame params i b c) as [He1 Hid1].
  set (c1 := report_received params i b c) in *.
  unfold UpdateStatus. rewrite Ha1, Hignored, Hst, Hq1, Hok. simpl.
  set (c2 := set_query_status_ (Report.status params) c1).
  destruct (CancelInternal_bookkeeping c2) as [Hbook Hq2].
  assert (status (update_exec_state params b) = Report.status params) as Hstatus.
  { rewrite update_exec_state_status, Hst. reflexivity. }
  split; [rewrite Hq2; reflexivity|].
  split.
  { rewrite CancelInternal_lookup. unfold c2. simpl. rewrite Hs1, list_lookup_insert_eq.
    - simpl. rewrite Hstatus, Hst. reflexivity.
    - apply lookup_lt_Some in Hi. exact Hi. }
  split; [exact Hstatus|].
  split.
  { intros j s Hj Hs. rewrite CancelInternal_lookup. unfold c2. simpl.
    rewrite Hs1, list_lookup_insert_ne by congruence. rewrite Hs. simpl.
    rewrite Hid1. reflexivity. }
  split.
  { unfold bookkeeping in Hbook. injection Hbook as _ _ _ _ _ _ _ Hr _ _ _.
    rewrite Hr. exact Hr1. }
  destruct (CancelInternal_effects c2) as (before & after & Heff & Hb & Ha).
  exists (before ++ snd (cancel_exec_states (query_id_ c2) 0 (backend_exec_states_ c2))
            ++ after).
  split; [rewrite Heff; unfold c2; simpl; rewrite He1; reflexivity|].
  assert (forall j,
            In j (cancel_rpcs
                    (before
                     ++ snd (cancel_exec_states (query_id_ c2) 0 (backend_exec_states_ c2))
                     ++ after)) ->
            exists s, backend_exec_states_ c2 !! j = Some s /\ to_cancel s) as Hsent.
  { intros j Hj. rewrite !cancel_rpcs_app, Hb, Ha, app_nil_r in Hj. simpl in Hj.
    apply cancel_rpcs_cancel_exec_states in Hj as [_ (s & Hs & Hc)].
    rewrite Nat.sub_0_r in Hs. eauto. }
  split.
  - intros Hin. destruct (Hsent i Hin) as (s & Hs & b' & -> & Hokb & _).
    unfold c2 in Hs. simpl in Hs. rewrite Hs1, list_lookup_insert_eq in Hs.
    + injection Hs as <-. rewrite Hstatus, Hst in Hokb. discriminate.
    + apply lookup_lt_Some in Hi. exact Hi.
  - intros j Hin. destruct (Hsent j Hin) as (s & Hs & Hc).
    destruct (decide (j = i)) as [->|Hne].
    + exfalso. destruct Hc as (b' & -> & Hokb & _).
      unfold c2 in Hs. simpl in Hs. rewrite Hs1, list_lookup_insert_eq in Hs.
      * injection Hs as <-. rewrite Hstatus, Hst in Hokb. discriminate.
      * apply lookup_lt_Some in Hi. exact Hi.
    + unfold c2 in Hs. simpl in Hs. rewrite Hs1, list_lookup_insert_ne in Hs by congruence.
      eauto.
Qed.

(** ** Wait and GetNext *)

Lemma UpdateStatus_returns st c :
  fst (UpdateStatus st c) = query_status_ (snd (UpdateStatus st c)).
Proof.
  unfold UpdateStatus.
  destruct (returned_all_results_ c && IsCancelled st); [reflexivity|].
  destruct (ok st); [reflexivity|].
  destruct (negb (ok (query_status_ c))); reflexivity.
Qed.

Lemma query_status_ReportQuerySummary c :
  query_status_ (ReportQuerySummary c) = query_status_ c.
Proof. apply ReportQuerySummary_bookkeeping. Qed.

(** X6.  The status that GetNext returns is OK exactly when query_status_
    is OK when it returns, and an error that it returns is query_status_: an
    error of the local executor (which may well be CANCELLED after the query
    failed elsewhere) is returned only as far as it became the query
    status. *)
Theorem GetNext_returns_query_status (next_result : Status)
    (next_batch : option RowBatch) (during_next : list Event) (reached_limit : bool)
    (wakeups : list (list Event)) (c : Coordinator) (st : Status)
    (batch : option RowBatch) (c' : Coordinator) :
  GetNext next_result next_batch during_next reached_limit wakeups c
    = Returned (st, batch, c') ->
  ok st = ok (query_status_ c')
  /\ (ok st = false -> st = query_status_ c')
  /\ (ok st = true -> executor_ c = true -> st = Status_OK).
Proof.
  unfold GetNext. intros H.
  assert (executor_ (DCHECK (has_called_wait_ c) "has_called_wait_" c) = executor_ c) as He.
  { unfold DCHECK. destruct (has_called_wait_ c); reflexivity. }
  rewrite He in H. destruct (executor_ c) eqn:Hexec; simpl in H.
  - set (c1 := run during_next
                 (emit [ExecutorGetNext] (DCHECK (has_called_wait_ c) "has_called_wait_" c)))
      in *.
    pose proof (UpdateStatus_returns next_result c1) as Hret.
    destruct (ok (fst (UpdateStatus next_result c1))) eqn:Hokr; simpl in H.
    + destruct next_batch as [rows|].
      * injection H as <- <- <-. rewrite <- Hret, Hokr.
        split; [reflexivity|]. split; [discriminate | reflexivity].
      * match type of H with
        | match WaitForAllBackends ?w ?c0 with _ => _ end = _ =>
            destruct (WaitForAllBackends w c0) as [[st2 c2]|] eqn:HW; [|discriminate]
        end.
        apply evolves_WaitForAllBackends in HW as (_ & -> & _).
        destruct (ok (query_status_ c2)) eqn:Hok2; simpl in H; injection H as <- <- <-.
        -- rewrite query_status_ReportQuerySummary, Hok2.
           split; [reflexivity|]. split; [discriminate | reflexivity].
        -- rewrite Hok2. split; [reflexivity|]. split; [reflexivity | discriminate].
    + injection H as <- <- <-. rewrite <- Hret, Hokr.
      split; [reflexivity|]. split; [reflexivity | discriminate].
  - injection H as <- <- <-. unfold GetStatus.
    split; [reflexivity|]. split; [reflexivity | discriminate].
Qed.

Lemma bookkeeping_request c c' : bookkeeping c' = bookkeeping c -> request c' = request c.
Proof.
  unfold bookkeeping, request. intros H. injection H as Hid _ _ _ Hfin Hparams Hstmt _ _ _ _.
  rewrite Hid, Hfin, Hparams, Hstmt. reflexivity.
Qed.

Lemma request_backend_completed n c : request (backend_completed n c) = request c.
Proof.
  unfold backend_completed, DCHECK.
  repeat match goal with |- context [if ?b then _ else _] => destruct b end; reflexivity.
Qed.

Lemma request_report_received params n b c : request (report_received params n b c) = request c.
Proof.
  unfold report_received.
  destruct (Report.insert_exec_status params), (Report.done params); reflexivity.
Qed.

Lemma request_UpdateFragmentExecStatus params c :
  request (snd (UpdateFragmentExecStatus params c)) = request c.
Proof.
  unfold UpdateFragmentExecStatus.
  destruct ((Report.backend_num params <? 0)
            || (Z.of_nat (length (backend_exec_states_ c)) <=? Report.backend_num params));
    [reflexivity|].
  destruct (backend_exec_states_ c !! Z.to_nat (Report.backend_num params))
    as [[exec_state|]|]; try reflexivity.
  cbv zeta.
  fold (report_received params (Z.to_nat (Report.backend_num params)) exec_state c).
  set (c1 := report_received params (Z.to_nat (Report.backend_num params)) exec_state c).
  pose proof (request_report_received params (Z.to_nat (Report.backend_num params))
                exec_state c) as H1.
  fold c1 in H1.
  destruct (negb (returned_all_results_ c1 && IsCancelled (Report.status params))
            && negb (ok (Report.status params))); simpl.
  - rewrite (bookkeeping_request _ _ (UpdateStatus_bookkeeping _ c1)). exact H1.
  - destruct (Report.done params); simpl; [rewrite request_backend_completed|]; exact H1.
Qed.

Lemma request_Cancel cause c : request (Cancel cause c) = request c.
Proof.
  unfold Cancel. destruct (negb (ok (query_status_ c))); [reflexivity|].
  destruct (CancelInternal_bookkeeping
              (set_query_status_
                 match cause with
                 | Some s => if negb (ok s) then s else Status_CANCELLED
                 | None => Status_CANCELLED
                 end c)) as [Hb _].
  rewrite (bookkeeping_request _ _ Hb). reflexivity.
Qed.

Lemma request_run events c : request (run events c) = request c.
Proof.
  revert c. induction events as [|e events IH]; intros c; [reflexivity|].
  simpl. unfold run in IH. rewrite IH. destruct e as [params|cause]; simpl.
  - apply request_UpdateFragmentExecStatus.
  - apply request_Cancel.
Qed.



Lemma run_app events1 events2 c : run (events1 ++ events2) c = run events2 (run events1 c).
Proof. apply fold_left_app. Qed.

Lemma WaitForAllBackends_returns wakeups c st c' :
  WaitForAllBackends wakeups c = Returned (st, c') <->
  exists k,
    (k <= length wakeups)%nat
    /\ (forall j, (j < k)%nat -> waiting (after_wakeups j wakeups c) = true)
    /\ waiting (after_wakeups k wakeups c) = false
    /\ c' = after_wakeups k wakeups c
    /\ st = query_status_ c'.
Proof.
  revert c. induction wakeups as [|events rest IH]; intros c; simpl.
  - fold (waiting c). split.
    + destruct (waiting c) eqn:Hw; [discriminate|]. intros H. injection H as <- <-.
      exists 0%nat. repeat split; auto. intros j Hj. lia.
    + intros (k & Hk & _ & Hstop & -> & ->).
      assert (k = 0%nat) as -> by (simpl in Hk; lia).
      unfold after_wakeups in *. simpl in *. rewrite Hstop. reflexivity.
  - fold (waiting c). destruct (waiting c) eqn:Hw.
    + rewrite IH. split.
      * intros (k & Hk & Hgo & Hstop & -> & ->). exists (S k).
        unfold after_wakeups in *. simpl. rewrite !run_app.
        repeat split; auto; [lia|].
        intros [|j] Hj; simpl; [exact Hw|]. rewrite run_app. apply Hgo. lia.
      * intros (k & Hk & Hgo & Hstop & -> & ->). destruct k as [|k].
        { unfold after_wakeups in Hstop. simpl in Hstop. congruence. }
        exists k. unfold after_wakeups in *. simpl in *. rewrite !run_app in *.
        repeat split; auto; [lia|].
        intros j Hj. specialize (Hgo (S j)). simpl in Hgo. rewrite run_app in Hgo.
        apply Hgo. lia.
    + split.
      * intros H. injection H as <- <-. exists 0%nat.
        unfold after_wakeups. simpl. repeat split; auto; [lia|]. intros j Hj. lia.
      * intros (k & Hk & Hgo & Hstop & -> & ->). destruct k as [|k].
        { reflexivity. }
        specialize (Hgo 0%nat). unfold after_wakeups in Hgo. simpl in Hgo.
        rewrite Hgo in Hw by lia. discriminate.
Qed.

Lemma WaitForAllBackends_blocked wakeups c :
  WaitForAllBackends wakeups c = Blocked <->
  forall k, (k <= length wakeups)%nat -> waiting (after_wakeups k wakeups c) = true.
Proof.
  revert c. induction wakeups as [|events rest IH]; intros c; simpl.
  - fold (waiting c). split.
    + destruct (waiting c) eqn:Hw; [|discriminate]. intros _ k Hk.
      assert (k = 0%nat) as -> by lia. exact Hw.
    + intros H. specialize (H 0%nat). unfold after_wakeups in H. simpl in H.
      rewrite H by lia. reflexivity.
  - fold (waiting c). destruct (waiting c) eqn:Hw.
    + rewrite IH. split.
      * intros H [|k] Hk; unfold after_wakeups; simpl; [exact Hw|].
        rewrite run_app. apply H. lia.
      * intros H k Hk. specialize (H (S k)). unfold after_wakeups in H. simpl in H.
        rewrite run_app in H. apply H. lia.
    + split; [discriminate|]. intros H. specialize (H 0%nat).
      unfold after_wakeups in H. simpl in H. rewrite H in Hw by lia. discriminate.
Qed.

(** X8.  When WaitForAllBackends returns.  It returns after the first
    wake-up after which num_remaining_backends_ is not positive or
    query_status_ is not OK (at once, when that holds at the call), with the
    Coordinator as it is then and with query_status_ as its result; and it
    stays blocked exactly when the condition of its loop holds at the call
    and after every wake-up. *)
Theorem WaitForAllBackends_returns_at_first_stop (wakeups : list (list Event))
    (c : Coordinator) :
  (forall st c',
     WaitForAllBackends wakeups c = Returned (st, c') <->
     exists k,
       (k <= length wakeups)%nat
       /\ (forall j, (j < k)%nat -> waiting (after_wakeups j wakeups c) = true)
       /\ waiting (after_wakeups k wakeups c) = false
       /\ c' = after_wakeups k wakeups c
       /\ st = query_status_ c')
  /\ (WaitForAllBackends wakeups c = Blocked <->
      forall k, (k <= length wakeups)%nat -> waiting (after_wakeups k wakeups c) = true)
  /\ (waiting c = false -> WaitForAllBackends wakeups c = Returned (query_status_ c, c)).
Proof.
  split; [intros st c'; apply WaitForAllBackends_returns|].
  split; [apply WaitForAllBackends_blocked|].
  intros Hw. apply WaitForAllBackends_returns. exists 0%nat.
  unfold after_wakeups. simpl. repeat split; auto; [lia|]. intros j Hj. lia.
Qed.

Lemma WaitForAllBackends_stopped wakeups c :
  waiting c = false -> WaitForAllBackends wakeups c = Returned (query_status_ c, c).
Proof.
  intros H. unfold waiting in H. destruct wakeups; simpl; rewrite H; reflexivity.
Qed.

Lemma UpdateStatus_failed st c :
  ok (query_status_ c) = false -> UpdateStatus st c = (query_status_ c, c).
Proof.
  intros H. unfold UpdateStatus. rewrite H. simpl.
  destruct (returned_all_results_ c && IsCancelled st); [reflexivity|].
  destruct (ok st); reflexivity.
Qed.


Lemma FinalizeSuccessfulInsert_frame fs c c' :
  finalize_params_ c' = finalize_params_ c ->
  partition_row_counts_ c' = partition_row_counts_ c ->
  files_to_move_ c' = files_to_move_ c ->
  FinalizeSuccessfulInsert fs c' = FinalizeSuccessfulInsert fs c.
Proof.
  intros Hp Hr Hf. unfold FinalizeSuccessfulInsert, move_tmp_files.
  rewrite Hp, Hr, Hf. reflexivity.
Qed.

(** The directory that FinalizeQuery removes. *)
Lemma FinalizeQuery_result fs c :
  fst (FinalizeQuery fs c)
  = let r :=
      if ok (query_status_ c) then fst (FinalizeSuccessfulInsert fs c)
      else (query_status_ c, fs) in
    (fst r,
     hdfsDelete (snd r)
       (default EmptyString (staging_dir (finalize_params_ c))
        +:+ "/" +:+ PrintId (query_id_ c) "_" +:+ "/") 1).
Proof.
  unfold FinalizeQuery, GetStatus.
  set (c3 := emit [FinalizeQueryCall]
               (DCHECK (needs_finalization_ (DCHECK (has_called_wait_ c) "has_called_wait_" c))
                  "needs_finalization_" (DCHECK (has_called_wait_ c) "has_called_wait_" c))).
  assert (query_status_ c3 = query_status_ c /\ finalize_params_ c3 = finalize_params_ c
          /\ partition_row_counts_ c3 = partition_row_counts_ c
          /\ files_to_move_ c3 = files_to_move_ c /\ query_id_ c3 = query_id_ c)
    as (Hq & Hp & Hr & Hf & Hid).
  { unfold c3, DCHECK.
    repeat match goal with |- context [if ?b then _ else _] => destruct b end;
      repeat split; reflexivity. }
  rewrite Hq. cbv zeta.
  rewrite (FinalizeSuccessfulInsert_frame fs c c3 Hp Hr Hf).
  match goal with
  | |- context [DCHECK ?b ?w (fault ?f c3)] =>
      assert (finalize_params_ (DCHECK b w (fault f c3)) = finalize_params_ c
              /\ query_id_ (DCHECK b w (fault f c3)) = query_id_ c) as [-> ->]
  end.
  { unfold DCHECK.
    repeat match goal with |- context [if ?b then _ else _] => destruct b end;
      simpl; auto. }
  destruct (ok (query_status_ c)); reflexivity.
Qed.

Lemma FinalizeQuery_status fs c :
  fst (fst (FinalizeQuery fs c))
  = if ok (query_status_ c) then fst (fst (FinalizeSuccessfulInsert fs c))
    else query_status_ c.
Proof.
  rewrite FinalizeQuery_result. cbv zeta. destruct (ok (query_status_ c)); reflexivity.
Qed.

Lemma finish_Wait_ok fs c :
  needs_finalization_ c = true ->
  ok (fst (fst (finish_Wait fs c))) = true -> ok (query_status_ c) = true.
Proof.
  intros Hfin. unfold finish_Wait. rewrite Hfin.
  pose proof (FinalizeQuery_status fs c) as Hs.
  destruct (ok (fst (fst (FinalizeQuery fs c)))) eqn:E; cbn [negb].
  - intros _. rewrite Hs in E.
    destruct (ok (query_status_ c)) eqn:Hq; [reflexivity|]. congruence.
  - intros H. rewrite E in H. discriminate.
Qed.

(** X10.  What an OK from Wait means for a query without coordinator
    fragment (a parallel INSERT).  In a state reached from Exec, while the
    backends follow the worker protocol: when the first call of Wait returns
    OK, query_status_ is OK, num_remaining_backends_ is not positive and every
    BackendExecState has done set.  So finalization, when it succeeds, has
    seen the reports of all backends. *)
Theorem Wait_returns_OK_after_all_backends (open_result : Status)
    (during_open : list Event) (state : RuntimeState) (wakeups : list (list Event))
    (fs : FS) (c : Coordinator) (st : Status) (fs' : FS) (c' : Coordinator) :
  reachable c ->
  has_called_wait_ c = false ->
  executor_ c = false ->
  reports_expected (done_flags c) (concat wakeups) = true ->
  Wait open_result during_open state wakeups fs c = Returned (st, fs', c') ->
  ok st = true ->
  ok (query_status_ c') = true
  /\ num_remaining_backends_ c' <= 0
  /\ count_not_done c' = 0%nat.
Proof.
  intros Hreach Hcalled Hexec Hexp HWait Hst.
  pose proof (reachable_counters_ok c Hreach) as Hok.
  assert (reports_expected (done_flags c) (Wait_events c during_open wakeups) = true)
    as Hexp'.
  { unfold Wait_events. rewrite Hcalled, Hexec. exact Hexp. }
  destruct (counters_ok_Wait _ _ _ _ _ _ _ _ _ Hok Hexp' HWait)
    as ([I1 _ I3] & _ & Hexec').
  pose proof (Wait_first _ _ _ _ _ _ _ _ _ Hcalled HWait) as Hev.
  assert (ok (query_status_ c') = true) as Hq.
  { revert HWait. unfold Wait. rewrite Hcalled. simpl. rewrite Hexec.
    destruct (WaitForAllBackends wakeups (set_has_called_wait_ true c))
      as [[st0 c2]|] eqn:HW; [|discriminate].
    apply evolves_WaitForAllBackends in HW as (_ & -> & _).
    destruct (needs_finalization_ c2) eqn:Hfin; simpl.
    - intros H. injection H as H.
      destruct (finish_Wait_spec fs c2) as (_ & _ & Hqs & _).
      rewrite H in Hqs. simpl in Hqs. rewrite Hqs.
      apply (finish_Wait_ok fs c2 Hfin). rewrite H. exact Hst.
    - destruct (ok (query_status_ c2)) eqn:Hq2; simpl.
      + intros H. injection H as H.
        destruct (finish_Wait_spec fs c2) as (_ & _ & Hqs & _).
        rewrite H in Hqs. simpl in Hqs. rewrite Hqs. exact Hq2.
      + intros H. injection H as <- <- <-. congruence. }
  assert (num_remaining_backends_ c' <= 0) as Hn.
  { destruct I3 as [Hbad|Hn]; auto; [|rewrite Hexec'; exact Hexec|congruence].
    apply Hev. reflexivity. }
  split; [exact Hq|]. split; [exact Hn|]. lia.
Qed.

(** ** Wait does its work once: the first call *)

Lemma summaries_app l1 l2 : summaries (l1 ++ l2) = (summaries l1 + summaries l2)%nat.
Proof. unfold summaries. rewrite List.filter_app, length_app. reflexivity. Qed.

Lemma tallied_refl c : tallied c c.
Proof.
  split; [reflexivity | auto |].
  destruct (has_called_wait_ c), (ok (query_status_ c)); simpl; lia.
Qed.

Lemma tallied_trans c1 c2 c3 : tallied c1 c2 -> tallied c2 c3 -> tallied c1 c3.
Proof.
  intros [H1 S1 T1] [H2 S2 T2]. split; [congruence | auto |].
  rewrite T2, T1, H1.
  destruct (ok (query_status_ c1)) eqn:E1.
  - destruct (ok (query_status_ c2)) eqn:E2.
    + destruct (has_called_wait_ c1), (ok (query_status_ c3)); simpl; lia.
    + rewrite (S2 eq_refl). destruct (has_called_wait_ c1); simpl; lia.
  - rewrite (S1 eq_refl) in *. rewrite (S2 eq_refl).
    destruct (has_called_wait_ c1); simpl; lia.
Qed.

Lemma tallied_plain c c' :
  has_called_wait_ c' = has_called_wait_ c ->
  query_status_ c' = query_status_ c ->
  summaries (effects_ c') = summaries (effects_ c) ->
  tallied c c'.
Proof.
  intros Hw Hq Hs. split; [exact Hw | rewrite Hq; auto |].
  rewrite Hs, Hq. destruct (has_called_wait_ c), (ok (query_status_ c)); simpl; lia.
Qed.

Lemma summaries_cancel_exec_states query_id i states :
  summaries (snd (cancel_exec_states query_id i states)) = 0%nat.
Proof.
  revert i. induction states as [|s rest IH]; intros i; simpl; [reflexivity|].
  rewrite summaries_app, IH, Nat.add_0_r.
  destruct s as [b|]; simpl; [|reflexivity].
  destruct (negb (ok (status b))); simpl; [reflexivity|].
  destruct (negb (initiated b)); simpl; [reflexivity|].
  destruct (done b); simpl; [reflexivity|].
  destruct (cancel_rpc i); reflexivity.
Qed.

Lemma ReportQuerySummary_summaries c :
  summaries (effects_ (ReportQuerySummary c))
  = (summaries (effects_ c) + if has_called_wait_ c then 1 else 0)%nat.
Proof.
  unfold ReportQuerySummary. destruct (has_called_wait_ c); simpl; [|lia].
  destruct (existsb _ _); simpl; rewrite summaries_app; reflexivity.
Qed.

Lemma CancelInternal_summaries c :
  summaries (effects_ (CancelInternal c))
  = (summaries (effects_ c) + if has_called_wait_ c then 1 else 0)%nat.
Proof.
  unfold CancelInternal. rewrite ReportQuerySummary_summaries.
  unfold CancelRemoteFragments, DCHECK.
  destruct (negb (ok (query_status_ c))); simpl; destruct (executor_ c); simpl;
    rewrite ?summaries_app, summaries_cancel_exec_states;
    change (summaries [NotifyAll]) with 0%nat;
    try change (summaries [ExecutorCancel]) with 0%nat; lia.
Qed.

Lemma tallied_CancelInternal st c :
  ok (query_status_ c) = true -> ok st = false ->
  tallied c (CancelInternal (set_query_status_ st c)).
Proof.
  intros Hq Hst.
  destruct (CancelInternal_bookkeeping (set_query_status_ st c)) as [Hbook Hq'].
  assert (has_called_wait_ (CancelInternal (set_query_status_ st c)) = has_called_wait_ c)
    as Hw by (unfold bookkeeping in Hbook; injection Hbook as _ -> _ _ _ _ _ _ _ _ _;
              reflexivity).
  split; [exact Hw | rewrite Hq; discriminate |].
  rewrite CancelInternal_summaries, Hq', Hq. simpl. rewrite Hst. simpl.
  rewrite !andb_true_r. reflexivity.
Qed.

Lemma tallied_Cancel cause c : tallied c (Cancel cause c).
Proof.
  unfold Cancel. destruct (ok (query_status_ c)) eqn:Hq; simpl; [|apply tallied_refl].
  apply (tallied_CancelInternal (cancel_status cause) c Hq), cancel_status_not_ok.
Qed.

Lemma tallied_UpdateStatus st c : tallied c (snd (UpdateStatus st c)).
Proof.
  unfold UpdateStatus.
  destruct (returned_all_results_ c && IsCancelled st); [apply tallied_refl|].
  destruct (ok st) eqn:Hst; [apply tallied_refl|].
  destruct (ok (query_status_ c)) eqn:Hq; simpl; [|apply tallied_refl].
  apply tallied_CancelInternal; assumption.
Qed.

Lemma tallied_report_received params n b c : tallied c (report_received params n b c).
Proof.
  unfold report_received. destruct (Report.insert_exec_status params) as [ies|];
    [destruct (Report.done params)|]; apply tallied_plain; reflexivity.
Qed.

Lemma tallied_backend_completed n c : tallied c (backend_completed n c).
Proof.
  unfold backend_completed, DCHECK.
  destruct (0 <? _); simpl; destruct (_ =? 0); apply tallied_plain; simpl;
    rewrite ?summaries_app; try change (summaries [NotifyAll]) with 0%nat;
    try lia; reflexivity.
Qed.

Lemma tallied_UpdateFragmentExecStatus params c :
  tallied c (snd (UpdateFragmentExecStatus params c)).
Proof.
  destruct (Report.backend_num params <? 0) eqn:E1.
  { unfold UpdateFragmentExecStatus. rewrite E1. apply tallied_refl. }
  destruct (Z.of_nat (length (backend_exec_states_ c)) <=? Report.backend_num params) eqn:E2.
  { unfold UpdateFragmentExecStatus. rewrite E1, E2. apply tallied_refl. }
  destruct (backend_exec_states_ c !! Z.to_nat (Report.backend_num params))
    as [[b|]|] eqn:Hn.
  - apply Z.ltb_ge in E1.
    rewrite (UpdateFragmentExecStatus_received params c _ b E1 eq_refl Hn). simpl.
    destruct (negb _ && negb _); simpl;
      [eapply tallied_trans; [apply tallied_report_received|apply tallied_UpdateStatus]|].
    destruct (Report.done params); simpl;
      [eapply tallied_trans; [apply tallied_report_received|apply tallied_backend_completed]|].
    apply tallied_report_received.
  - unfold UpdateFragmentExecStatus. rewrite E1, E2, Hn. apply tallied_plain; reflexivity.
  - unfold UpdateFragmentExecStatus. rewrite E1, E2, Hn. apply tallied_plain; reflexivity.
Qed.

Lemma tallied_run events c : tallied c (run events c).
Proof.
  unfold run. revert c. induction events as [|e rest IH]; intros c; simpl.
  - apply tallied_refl.
  - eapply tallied_trans; [|apply IH].
    destruct e; simpl; [apply tallied_UpdateFragmentExecStatus|apply tallied_Cancel].
Qed.

Lemma tallied_WaitForAllBackends wakeups c st c' :
  WaitForAllBackends wakeups c = Returned (st, c') -> tallied c c'.
Proof.
  revert c. induction wakeups as [|events rest IH]; intros c; simpl;
    destruct ((0 <? num_remaining_backends_ c) && ok (query_status_ c));
    intros H; try discriminate.
  - injection H as <- <-. apply tallied_refl.
  - eapply tallied_trans; [apply tallied_run|apply IH, H].
  - injection H as <- <-. apply tallied_refl.
Qed.

Lemma request_WaitForAllBackends wakeups c st c' :
  WaitForAllBackends wakeups c = Returned (st, c') -> request c' = request c.
Proof.
  revert c. induction wakeups as [|events rest IH]; intros c; simpl;
    destruct ((0 <? num_remaining_backends_ c) && ok (query_status_ c));
    intros H; try discriminate.
  - injection H as <- <-. reflexivity.
  - rewrite (IH _ H). apply request_run.
  - injection H as <- <-. reflexivity.
Qed.

Lemma ReportQuerySummary_effects c :
  effects_ (ReportQuerySummary c)
  = effects_ c ++ if has_called_wait_ c then [QuerySummary] else [].
Proof.
  unfold ReportQuerySummary. destruct (has_called_wait_ c); simpl.
  - destruct (existsb _ _); reflexivity.
  - symmetry. apply app_nil_r.
Qed.

Lemma finish_Wait_trace fs c :
  has_called_wait_ c = true ->
  effects_ (snd (finish_Wait fs c))
  = effects_ c
    ++ (if needs_finalization_ c then [FinalizeQueryCall] else [])
    ++ (if ok (fst (fst (finish_Wait fs c))) && TStmtType_is_DML (stmt_type_ c)
        then [InsertStatsInfo; QuerySummary] else []).
Proof.
  intros Hcalled. unfold finish_Wait.
  pose proof (FinalizeQuery_effects fs c) as Hfin.
  destruct (FinalizeQuery_spec fs c) as (_ & Hbook & _).
  assert (stmt_type_ (snd (FinalizeQuery fs c)) = stmt_type_ c
          /\ has_called_wait_ (snd (FinalizeQuery fs c)) = true) as [Hstmt Hcalled'].
  { unfold bookkeeping in Hbook. injection Hbook as _ Hw _ _ _ _ Hs _ _ _ _.
    split; [exact Hs | transitivity (has_called_wait_ c); [exact Hw | exact Hcalled]]. }
  clear Hbook. revert Hfin Hstmt Hcalled'.
  generalize (FinalizeQuery fs c). intros [[stF fsF] cF]. simpl.
  intros Hfin Hstmt Hcalled'.
  destruct (needs_finalization_ c); simpl.
  - destruct (ok stF) eqn:Hok; simpl.
    + rewrite Hstmt. destruct (TStmtType_is_DML (stmt_type_ c)).
      * rewrite ReportQuerySummary_effects. simpl.
        rewrite Hcalled', Hfin, <- !app_assoc. reflexivity.
      * rewrite Hfin, ?app_nil_r. reflexivity.
    + rewrite ?Hok. simpl. rewrite Hfin, ?app_nil_r. reflexivity.
  - destruct (TStmtType_is_DML (stmt_type_ c)).
    + rewrite ReportQuerySummary_effects. simpl.
      rewrite Hcalled, <- ?app_assoc. reflexivity.
    + rewrite ?app_nil_r. reflexivity.
Qed.

(** The end of Wait in a call that has set has_called_wait_: FinalizeQuery is
    called exactly when finalization is needed, the insert stats are added and
    the summary is reported exactly when the result is OK and the statement
    is DML. *)
Lemma finish_Wait_tally fs c :
  has_called_wait_ c = true ->
  let r := finish_Wait fs c in
  let reported := ok (fst (fst r)) && TStmtType_is_DML (stmt_type_ c) in
  wait_effects (effects_ (snd r))
  = wait_effects (effects_ c)
    ++ (if needs_finalization_ c then [FinalizeQueryCall] else [])
    ++ (if reported then [InsertStatsInfo] else [])
  /\ summaries (effects_ (snd r))
     = (summaries (effects_ c) + if reported then 1 else 0)%nat
  /\ query_status_ (snd r) = query_status_ c
  /\ write_outputs (snd r) = write_outputs c.
Proof.
  intros Hcalled. cbv zeta.
  destruct (finish_Wait_spec fs c) as (_ & Hbook & Hq & _).
  assert (write_outputs (snd (finish_Wait fs c)) = write_outputs c) as Hout.
  { unfold write_outputs. unfold bookkeeping in Hbook.
    injection Hbook as _ _ _ _ _ _ _ _ Hrows Hfiles Hstats.
    f_equal; [f_equal; [exact Hrows | exact Hfiles] | exact Hstats]. }
  rewrite (finish_Wait_trace fs c Hcalled), !wait_effects_app, !summaries_app.
  split; [|split; [|split; [exact Hq | exact Hout]]].
  - destruct (needs_finalization_ c), (ok _ && _); reflexivity.
  - destruct (needs_finalization_ c), (ok _ && _); reflexivity.
Qed.

(** What a first call of Wait has done once it has reached the end of Wait
    (lines 680-694) in the state [x], with [pre] the calls of its own made
    until then. *)
Lemma Wait_first_tally fs c x pre st fs' c' :
  has_called_wait_ x = true ->
  tallied (set_has_called_wait_ true c) x ->
  wait_effects (effects_ x) = wait_effects (effects_ c) ++ pre ->
  request x = request c ->
  finish_Wait fs x = (st, fs', c') ->
  let reported := ok st && TStmtType_is_DML (stmt_type_ c) in
  wait_effects (effects_ c')
  = wait_effects (effects_ c) ++ pre
    ++ (if needs_finalization_ c then [FinalizeQueryCall] else [])
    ++ (if reported then [InsertStatsInfo] else [])
  /\ summaries (effects_ c')
     = (summaries (effects_ c)
        + (if ok (query_status_ c) && negb (ok (query_status_ c')) then 1 else 0)
        + (if reported then 1 else 0))%nat
  /\ query_status_ c' = query_status_ x
  /\ write_outputs c' = write_outputs x.
Proof.
  intros Hcalled [_ _ Htally] Hwait Hreq Hfinish.
  destruct (finish_Wait_tally fs x Hcalled) as (Hw & Hs & Hq & Hout).
  rewrite Hfinish in Hw, Hs, Hq, Hout. simpl in Hw, Hs, Hq, Hout.
  unfold request in Hreq. injection Hreq as _ Hfin _ Hstmt.
  rewrite Hfin, Hstmt in *. simpl in Htally.
  split; [|split; [|split; [exact Hq | exact Hout]]].
  - rewrite Hw, Hwait, <- !app_assoc. reflexivity.
  - rewrite Hs, Htally, Hq. reflexivity.
Qed.

(** C4 (as the code has it).  Wait is guarded by has_called_wait_.  When a
    call returns, has_called_wait_ is set, and every later call, whatever its
    arguments, returns OK and leaves the Coordinator, the trace of its calls
    and the file system as they are: OK is returned even when the first call
    returned an error.  The call that finds has_called_wait_ unset does the
    work: it opens the local executor exactly once when there is one, calls
    FinalizeQuery exactly once when finalization is needed, and adds the
    insert stats exactly once when it returns OK for a DML statement, in that
    order; it takes the snapshot of the write outputs exactly when there is a
    local executor and query_status_ is OK after Open, and writes them in no
    other way.  Summary reporting is not limited to once: the call reports
    one summary when query_status_ leaves OK during it (CancelInternal), and
    one more when it returns OK for a DML statement (line 691). *)
Theorem Wait_later_calls_return_OK (open_result : Status) (during_open : list Event)
    (state : RuntimeState) (wakeups : list (list Event)) (fs : FS) (c : Coordinator)
    (st : Status) (fs' : FS) (c' : Coordinator) :
  Wait open_result during_open state wakeups fs c = Returned (st, fs', c') ->
  has_called_wait_ c' = true
  /\ (forall open_result2 during_open2 state2 wakeups2 fs2,
        Wait open_result2 during_open2 state2 wakeups2 fs2 c'
        = Returned (Status_OK, fs2, c'))
  /\ (exists l,
        wait_effects (effects_ c') = wait_effects (effects_ c) ++ l
        /\ sublist l [ExecutorOpen; FinalizeQueryCall; InsertStatsInfo])
  /\ (has_called_wait_ c = true -> st = Status_OK /\ fs' = fs /\ c' = c)
  /\ (has_called_wait_ c = false ->
      let reported := ok st && TStmtType_is_DML (stmt_type_ c) in
      wait_effects (effects_ c')
      = wait_effects (effects_ c)
        ++ (if executor_ c then [ExecutorOpen] else [])
        ++ (if needs_finalization_ c then [FinalizeQueryCall] else [])
        ++ (if reported then [InsertStatsInfo] else [])
      /\ summaries (effects_ c')
         = (summaries (effects_ c)
            + (if ok (query_status_ c) && negb (ok (query_status_ c')) then 1 else 0)
            + (if reported then 1 else 0))%nat
      /\ (executor_ c = true ->
          write_outputs c'
          = if ok (query_status_ c')
            then (RuntimeState.num_appended_rows state,
                  RuntimeState.hdfs_files_to_move state,
                  RuntimeState.insert_stats state)
            else write_outputs
                   (run during_open (emit [ExecutorOpen] (set_has_called_wait_ true c))))
      /\ (executor_ c = false ->
          exists st0 c0,
            WaitForAllBackends wakeups (set_has_called_wait_ true c) = Returned (st0, c0)
            /\ write_outputs c' = write_outputs c0)).
Proof.
  intros HWait.
  destruct (Wait_guarded _ _ _ _ _ _ _ _ _ HWait) as (H1 & H2 & H3 & H4).
  split; [exact H1|]. split; [exact H2|]. split; [exact H3|]. split; [exact H4|].
  clear H1 H2 H3 H4. intros Hcalled. cbv zeta.
  revert HWait. unfold Wait. rewrite Hcalled. simpl.
  destruct (executor_ c) eqn:Hexec.
  - set (c0 := emit [ExecutorOpen] (set_has_called_wait_ true c)).
    set (c1 := run during_open c0).
    assert (tallied (set_has_called_wait_ true c) c1) as Ht1.
    { eapply tallied_trans; [|apply tallied_run].
      apply tallied_plain; simpl; try reflexivity.
      rewrite summaries_app. change (summaries [ExecutorOpen]) with 0%nat. lia. }
    assert (wait_effects (effects_ c1) = wait_effects (effects_ c) ++ [ExecutorOpen]) as Hw1.
    { pose proof (quiet_run during_open c0) as Hq. unfold quiet in Hq. fold c1 in Hq.
      rewrite Hq. unfold c0. simpl. rewrite wait_effects_app. reflexivity. }
    assert (request c1 = request c) as Hr1 by (unfold c1; rewrite request_run; reflexivity).
    pose proof (tallied_UpdateStatus open_result c1) as Ht2.
    pose proof (quiet_UpdateStatus open_result c1) as Hw2. unfold quiet in Hw2.
    pose proof (UpdateStatus_bookkeeping open_result c1) as Hb2.
    pose proof (UpdateStatus_returns open_result c1) as Hret.
    set (r := UpdateStatus open_result c1) in *.
    assert (tallied (set_has_called_wait_ true c) (snd r)) as Ht
      by (eapply tallied_trans; eassumption).
    assert (has_called_wait_ (snd r) = true) as Hc2 by (rewrite (tallied_called _ _ Ht); reflexivity).
    assert (write_outputs (snd r) = write_outputs c1) as Ho2.
    { unfold write_outputs. unfold bookkeeping in Hb2.
      injection Hb2 as _ _ _ _ _ _ _ _ Hrows Hfiles Hstats.
      f_equal; [f_equal; [exact Hrows | exact Hfiles] | exact Hstats]. }
    assert (request (snd r) = request c) as Hr2
      by (rewrite (bookkeeping_request _ _ Hb2); exact Hr1).
    destruct (ok (fst r)) eqn:Hokr; intros H; injection H as H.
    + match type of H with finish_Wait fs ?x = _ => set (c3 := x) in * end.
      assert (has_called_wait_ c3 = has_called_wait_ (snd r)
              /\ query_status_ c3 = query_status_ (snd r)
              /\ effects_ c3 = effects_ (snd r)
              /\ request c3 = request (snd r)
              /\ write_outputs c3
                 = (RuntimeState.num_appended_rows state,
                    RuntimeState.hdfs_files_to_move state,
                    RuntimeState.insert_stats state))
        as (Hc3 & Hq3 & He3 & Hr3 & Ho3).
      { unfold c3, DCHECK.
        repeat match goal with |- context [if ?b then _ else _] => destruct b end;
          simpl; auto. }
      destruct (Wait_first_tally fs c c3 [ExecutorOpen] st fs' c') as (Hw & Hs & Hq & Ho);
        [congruence
        | eapply tallied_trans; [exact Ht|]; apply tallied_plain; congruence
        | rewrite He3, Hw2; exact Hw1
        | congruence
        | exact H |].
      split; [exact Hw|]. split; [exact Hs|]. split; [|intros; discriminate].
      intros _. rewrite Hq, Hq3, <- Hret, Hokr, Ho. exact Ho3.
    + destruct (Wait_first_tally fs c (snd r) [ExecutorOpen] st fs' c')
        as (Hw & Hs & Hq & Ho);
        [exact Hc2 | exact Ht | rewrite Hw2; exact Hw1 | exact Hr2 | exact H |].
      split; [exact Hw|]. split; [exact Hs|]. split; [|intros; discriminate].
      intros _. rewrite Hq, <- Hret, Hokr, Ho. exact Ho2.
  - destruct (WaitForAllBackends wakeups (set_has_called_wait_ true c))
      as [[st0 c0]|] eqn:HW; [|discriminate].
    pose proof (tallied_WaitForAllBackends _ _ _ _ HW) as Ht.
    pose proof (quiet_WaitForAllBackends _ _ _ _ HW) as Hw0. unfold quiet in Hw0.
    simpl in Hw0.
    pose proof (request_WaitForAllBackends _ _ _ _ HW) as Hr0.
    change (request (set_has_called_wait_ true c)) with (request c) in Hr0.
    pose proof (evolves_WaitForAllBackends _ _ _ _ HW) as (_ & Hst0 & _).
    assert (needs_finalization_ c0 = needs_finalization_ c) as Hfin0
      by (unfold request in Hr0; injection Hr0 as _ Hf _ _; exact Hf).
    assert (has_called_wait_ c0 = true) as Hc0
      by (rewrite (tallied_called _ _ Ht); reflexivity).
    destruct (negb (needs_finalization_ c0) && negb (ok st0)) eqn:Hearly; intros H.
    + injection H as <- <- <-. apply andb_prop in Hearly as [Hnf Hnok].
      apply negb_true_iff in Hnf, Hnok. rewrite <- Hfin0, Hnf, Hnok. simpl.
      rewrite !app_nil_r, Nat.add_0_r. split; [exact Hw0|]. split.
      * destruct Ht as [_ _ Ht]. simpl in Ht. exact Ht.
      * split; [intros; discriminate|]. intros _. exists st0, c0. auto.
    + injection H as H.
      destruct (Wait_first_tally fs c c0 [] st fs' c') as (Hw & Hs & Hq & Ho);
        [exact Hc0 | exact Ht | rewrite Hw0, app_nil_r; reflexivity | exact Hr0
        | exact H |].
      split; [exact Hw|]. split; [exact Hs|]. split; [intros; discriminate|].
      intros _. exists st0, c0. auto.
Qed.

(** ** Finalization *)

Lemma finish_Wait_failed fs c :
  needs_finalization_ c = true -> ok (query_status_ c) = false ->
  fst (finish_Wait fs c) = (query_status_ c, hdfsDelete fs (staging_path c) 1).
Proof.
  intros Hfin Hq. unfold finish_Wait. rewrite Hfin.
  pose proof (FinalizeQuery_result fs c) as Hr. cbv zeta in Hr. rewrite Hq in Hr.
  fold (staging_path c) in Hr. cbn [fst snd] in Hr.
  destruct (FinalizeQuery fs c) as [[st fs'] c']. simpl in Hr. injection Hr as -> ->.
  cbn [fst snd]. rewrite Hq. reflexivity.
Qed.

(** X11.  A failed INSERT moves no file.  When query_status_ is not OK at
    the first call of Wait of a query that needs finalization, Wait returns
    query_status_, and all it does to the file system is to remove the
    staging directory of the query: FinalizeSuccessfulInsert is not run.
    In every case the last thing FinalizeQuery does to the file system is
    that removal. *)
Theorem failed_insert_only_removes_staging (open_result : Status)
    (during_open : list Event) (state : RuntimeState) (wakeups : list (list Event))
    (fs : FS) (c : Coordinator) :
  (has_called_wait_ c = false ->
   needs_finalization_ c = true ->
   ok (query_status_ c) = false ->
   exists c',
     Wait open_result during_open state wakeups fs c
     = Returned (query_status_ c, hdfsDelete fs (staging_path c) 1, c')
     /\ query_status_ c' = query_status_ c)
  /\ exists fs1, snd (fst (FinalizeQuery fs c)) = hdfsDelete fs1 (staging_path c) 1.
Proof.
  split.
  - intros Hcalled Hfin Hq. unfold Wait. rewrite Hcalled. simpl.
    destruct (executor_ c).
    + set (c1 := run during_open (emit [ExecutorOpen] (set_has_called_wait_ true c))).
      assert (query_status_ c1 = query_status_ c) as Hq1.
      { apply (evolves_run during_open (emit [ExecutorOpen] (set_has_called_wait_ true c))).
        exact Hq. }
      pose proof (request_run during_open (emit [ExecutorOpen] (set_has_called_wait_ true c)))
        as Hreq.
      fold c1 in Hreq. unfold request in Hreq. simpl in Hreq.
      injection Hreq as Hid1 Hfin1 Hp1 _.
      rewrite UpdateStatus_failed by (rewrite Hq1; exact Hq). cbn [fst snd].
      rewrite Hq1, Hq. cbn [negb].
      assert (staging_path c1 = staging_path c) as Hpath.
      { unfold staging_path. rewrite Hid1, Hp1. reflexivity. }
      pose proof (finish_Wait_failed fs c1) as Hf.
      rewrite Hfin1, Hq1, Hpath in Hf. specialize (Hf Hfin Hq).
      destruct (finish_Wait_spec fs c1) as (_ & _ & Hqs & _).
      destruct (finish_Wait fs c1) as [[st fs'] c']. simpl in Hf, Hqs.
      injection Hf as -> ->. exists c'. rewrite Hqs, Hq1. auto.
    + rewrite WaitForAllBackends_stopped
        by (unfold waiting; simpl; rewrite Hq; apply andb_false_r).
      simpl. rewrite Hfin. simpl.
      pose proof (finish_Wait_failed fs (set_has_called_wait_ true c) Hfin Hq) as Hf.
      destruct (finish_Wait_spec fs (set_has_called_wait_ true c)) as (_ & _ & Hqs & _).
      destruct (finish_Wait fs (set_has_called_wait_ true c)) as [[st fs'] c'].
      simpl in Hf, Hqs. injection Hf as -> ->. exists c'. auto.
  - rewrite FinalizeQuery_result. cbv zeta. fold (staging_path c). eauto.
Qed.

Lemma partition_create_ops_list_failure fs params n partitions ops rows :
  is_overwrite params = true ->
  hdfsListDirectory fs (hdfs_base_dir params +:+ "/" +:+ EmptyString) = None ->
  In (EmptyString, rows) partitions ->
  fst (partition_create_ops fs params n partitions ops)
  = inl (GetHdfsErrorMsg "Could not list directory: "
           (hdfs_base_dir params +:+ "/" +:+ EmptyString)).
Proof.
  intros Hover Hlist. revert ops.
  induction partitions as [|partition rest IH]; intros ops Hin; [contradiction|].
  simpl. destruct (String.eqb_spec (fst partition) EmptyString) as [Hkey|Hkey].
  - unfold partition_ops. rewrite Hover, Hkey. simpl. rewrite Hlist. reflexivity.
  - destruct (partition_ops_not_root fs params n partition Hkey) as [new_ops ->].
    simpl. apply IH. destruct Hin as [->|Hin]; [exfalso; apply Hkey; reflexivity | exact Hin].
Qed.

(** X12.  INSERT OVERWRITE into the root of a table whose directory cannot
    be listed: FinalizeSuccessfulInsert returns the status that
    GetHdfsErrorMsg makes of "Could not list directory: " and the path, and
    no operation has been executed: the file system is as it was. *)
Theorem listing_failure_executes_nothing (fs : FS) (c : Coordinator) (rows : Z) :
  is_overwrite (finalize_params_ c) = true ->
  partition_row_counts_ c !! EmptyString = Some rows ->
  hdfsListDirectory fs (partition_path c EmptyString) = None ->
  fst (FinalizeSuccessfulInsert fs c)
  = (GetHdfsErrorMsg "Could not list directory: " (partition_path c EmptyString), fs).
Proof.
  intros Hover Hrows Hlist. unfold FinalizeSuccessfulInsert.
  assert (In (EmptyString, rows) (PartitionRowCount_order (partition_row_counts_ c))) as Hin.
  { apply list_elem_of_In. rewrite PartitionRowCount_order_perm.
    apply elem_of_map_to_list. exact Hrows. }
  pose proof (partition_create_ops_list_failure fs (finalize_params_ c)
                (size (partition_row_counts_ c)) _ [] rows Hover Hlist Hin) as H.
  destruct (partition_create_ops fs (finalize_params_ c) (size (partition_row_counts_ c))
              (PartitionRowCount_order (partition_row_counts_ c)) [])
    as [[st|ops] faults]; simpl in H; [|discriminate].
  injection H as ->. reflexivity.
Qed.

Lemma partition_create_ops_append fs params n partitions ops :
  is_overwrite params = false ->
  partition_create_ops fs params n partitions ops
  = (inr (ops
          ++ map (fun partition : string * Z =>
                    mkHdfsOp CREATE_DIR (hdfs_base_dir params +:+ "/" +:+ fst partition)
                      EmptyString)
               partitions),
     []).
Proof.
  intros Hover. revert ops.
  induction partitions as [|partition rest IH]; intros ops; simpl.
  - rewrite app_nil_r. reflexivity.
  - unfold partition_ops. rewrite Hover. simpl. rewrite IH, <- app_assoc. reflexivity.
Qed.

(** X13.  An INSERT without OVERWRITE deletes nothing in the first phase:
    the operations it schedules are one CREATE_DIR per partition that has a
    row count, at the path of the partition.  So when the errors that Execute
    reports are errors of operations it was given, none is fatal, and
    FinalizeSuccessfulInsert goes on to move the staged files. *)
Theorem append_only_creates_directories (fs : FS) (c : Coordinator) :
  is_overwrite (finalize_params_ c) = false ->
  let create_ops :=
    map (fun partition : string * Z =>
           mkHdfsOp CREATE_DIR (partition_path c (fst partition)) EmptyString)
      (PartitionRowCount_order (partition_row_counts_ c)) in
  partition_create_ops fs (finalize_params_ c) (size (partition_row_counts_ c))
    (PartitionRowCount_order (partition_row_counts_ c)) [] = (inr create_ops, [])
  /\ (forall o, In o create_ops <->
        exists key, is_Some (partition_row_counts_ c !! key)
          /\ o = mkHdfsOp CREATE_DIR (partition_path c key) EmptyString)
  /\ (Forall (fun err => In (fst err) create_ops) (snd (Execute fs create_ops)) ->
      FinalizeSuccessfulInsert fs c = (move_tmp_files (fst (Execute fs create_ops)) c, [])).
Proof.
  intros Hover create_ops.
  assert (partition_create_ops fs (finalize_params_ c) (size (partition_row_counts_ c))
            (PartitionRowCount_order (partition_row_counts_ c)) [] = (inr create_ops, []))
    as Hloop.
  { rewrite partition_create_ops_append by exact Hover. reflexivity. }
  split; [exact Hloop|]. split.
  - intros o. unfold create_ops. rewrite in_map_iff. split.
    + intros ([key rows] & <- & Hin). exists key. split; [|reflexivity].
      apply list_elem_of_In in Hin. rewrite PartitionRowCount_order_perm in Hin.
      apply elem_of_map_to_list in Hin. eauto.
    + intros (key & [rows Hrows] & ->). exists (key, rows). split; [reflexivity|].
      apply list_elem_of_In. rewrite PartitionRowCount_order_perm.
      apply elem_of_map_to_list. exact Hrows.
  - intros Herrors. unfold FinalizeSuccessfulInsert. rewrite Hloop.
    rewrite first_fatal_error_tolerated; [reflexivity|].
    eapply Forall_impl; [exact Herrors|]. intros err Hin. simpl in Hin.
    unfold create_ops in Hin. apply in_map_iff in Hin as (partition & <- & _). reflexivity.
Qed.

Lemma In_move_and_deletion_ops (moves : list (string * string)) o :
  (In o (fst (move_and_deletion_ops moves)) <->
   exists source destination,
     In (source, destination) moves /\ destination <> EmptyString
     /\ o = mkHdfsOp RENAME source destination)
  /\ (In o (snd (move_and_deletion_ops moves)) <->
      exists source,
        In (source, EmptyString) moves /\ o = mkHdfsOp DELETE source EmptyString).
Proof.
  induction moves as [|[source destination] rest [IH1 IH2]]; simpl.
  - split; split; try contradiction; [intros (? & ? & [] & _) | intros (? & [] & _)].
  - destruct (String.eqb_spec destination EmptyString) as [->|Hne]; simpl.
    + split.
      * rewrite IH1. split.
        -- intros (s & d & Hin & Hd & ->). exists s, d. auto.
        -- intros (s & d & [E|Hin] & Hd & ->); [congruence|]. exists s, d. auto.
      * rewrite IH2. split.
        -- intros [<-|(s & Hin & ->)]; [exists source; auto|]. exists s. auto.
        -- intros (s & [E|Hin] & ->); [left; congruence|]. right. exists s. auto.
    + split.
      * rewrite IH1. split.
        -- intros [<-|(s & d & Hin & Hd & ->)]; [exists source, destination; auto|].
           exists s, d. auto.
        -- intros (s & d & [E|Hin] & Hd & ->); [left; congruence|]. right. exists s, d. auto.
      * rewrite IH2. split.
        -- intros (s & Hin & ->). exists s. auto.
        -- intros (s & [E|Hin] & ->); [congruence|]. exists s. auto.
Qed.

(** X14.  The second half of finalization.  Let iteration over a FileMoveMap
    visit each of its entries once.  An entry of files_to_move_ with a
    destination becomes one RENAME, an entry with an empty destination one
    DELETE, and nothing else is scheduled.  The deletions are executed only
    after the moves have succeeded: when a move fails, the returned status
    holds the number of failed moves and the message of the first, and the
    file system is the one the moves left.  When neither step reports an
    error the result is OK. *)
Theorem staged_files_are_moved_then_deleted (fs : FS) (c : Coordinator) :
  (forall m : gmap string string, FileMoveMap_order m ≡ₚ map_to_list m) ->
  let ops := move_and_deletion_ops (FileMoveMap_order (files_to_move_ c)) in
  let moved := Execute fs (fst ops) in
  let deleted := Execute (fst moved) (snd ops) in
  (forall o, In o (fst ops) <->
     exists source destination,
       files_to_move_ c !! source = Some destination /\ destination <> EmptyString
       /\ o = mkHdfsOp RENAME source destination)
  /\ (forall o, In o (snd ops) <->
        exists source,
          files_to_move_ c !! source = Some EmptyString
          /\ o = mkHdfsOp DELETE source EmptyString)
  /\ (forall err rest, snd moved = err :: rest ->
        move_tmp_files fs c
        = (Status_of_msg
             ("Error(s) moving partition files. First error (of "
              +:+ print_size (length (snd moved)) +:+ ") was: " +:+ snd err),
           fst moved))
  /\ (forall err rest, snd moved = [] -> snd deleted = err :: rest ->
        move_tmp_files fs c
        = (Status_of_msg
             ("Error(s) deleting staging directories. First error (of "
              +:+ print_size (length (snd deleted)) +:+ ") was: " +:+ snd err),
           fst deleted))
  /\ (snd moved = [] -> snd deleted = [] -> move_tmp_files fs c = (Status_OK, fst deleted)).
Proof.
  intros Hperm ops moved deleted.
  assert (forall source destination,
            In (source, destination) (FileMoveMap_order (files_to_move_ c))
            <-> files_to_move_ c !! source = Some destination) as Hin.
  { intros source destination. rewrite <- list_elem_of_In, Hperm.
    apply elem_of_map_to_list. }
  split; [|split; [|split; [|split]]].
  - intros o. unfold ops.
    rewrite (proj1 (In_move_and_deletion_ops _ o)).
    split; intros (s & d & H & Hd & ->); exists s, d; (split; [apply Hin, H | auto]).
  - intros o. unfold ops.
    rewrite (proj2 (In_move_and_deletion_ops _ o)).
    split; intros (s & H & ->); exists s; (split; [apply Hin, H | auto]).
  - intros err rest Hmoved. unfold move_tmp_files. fold ops. fold moved.
    rewrite Hmoved. reflexivity.
  - intros err rest Hmoved Hdeleted. unfold move_tmp_files. fold ops. fold moved.
    rewrite Hmoved. simpl. fold deleted. rewrite Hdeleted. reflexivity.
  - intros Hmoved Hdeleted. unfold move_tmp_files. fold ops. fold moved.
    rewrite Hmoved. simpl. fold deleted. rewrite Hdeleted. reflexivity.
Qed.

(** ** Cancellation of backends that need none *)

Lemma cancel_exec_state_skip query_id i s :
  ~ to_cancel s -> cancel_exec_state query_id i s = (s, []).
Proof.
  intros H. destruct s as [b|]; [|reflexivity]. simpl.
  destruct (ok (status b)) eqn:Hok; [|reflexivity].
  destruct (initiated b) eqn:Hinit; [|reflexivity].
  destruct (done b) eqn:Hdone; [reflexivity|].
  exfalso. apply H. exists b. auto.
Qed.

Lemma cancel_exec_states_skip query_id i states :
  Forall (fun s => ~ to_cancel s) states ->
  cancel_exec_states query_id i states = (states, []).
Proof.
  intros H. revert i. induction H as [|s rest Hs _ IH]; intros i; simpl; [reflexivity|].
  rewrite (cancel_exec_state_skip query_id i s Hs), IH. reflexivity.
Qed.

(** X15.  Cancelling when there is nothing to cancel.  When no backend is
    OK, initiated and not done (none was started, or all have finished or
    failed), Cancel still sets query_status_, but it sends no CancelPlanFragment
    and leaves every BackendExecState as it is. *)
Theorem Cancel_with_nothing_to_cancel (cause : option Status) (c : Coordinator) :
  ok (query_status_ c) = true ->
  Forall (fun s => ~ to_cancel s) (backend_exec_states_ c) ->
  backend_exec_states_ (Cancel cause c) = backend_exec_states_ c
  /\ query_status_ (Cancel cause c) = cancel_status cause
  /\ exists added,
       effects_ (Cancel cause c) = effects_ c ++ added /\ cancel_rpcs added = [].
Proof.
  intros Hok Hnone. unfold Cancel. rewrite Hok. simpl. fold (cancel_status cause).
  set (c1 := set_query_status_ (cancel_status cause) c).
  destruct (CancelInternal_bookkeeping c1) as [_ Hq].
  split; [|split; [exact Hq|]].
  - apply list_eq. intros j. rewrite CancelInternal_lookup. simpl.
    destruct (backend_exec_states_ c !! j) as [s|] eqn:Hj; [|reflexivity]. simpl.
    rewrite cancel_exec_state_skip; [reflexivity|].
    apply (Forall_lookup_1 _ _ _ _ Hnone Hj).
  - destruct (CancelInternal_effects c1) as (before & after & Heff & Hb & Ha).
    exists (before ++ snd (cancel_exec_states (query_id_ c1) 0 (backend_exec_states_ c1))
              ++ after).
    split; [exact Heff|].
    rewrite !cancel_rpcs_app, Hb, Ha. unfold c1. simpl.
    rewrite cancel_exec_states_skip by exact Hnone. reflexivity.
Qed.

(** ** Error logs and profiles of the backends *)

Lemma extends_log_refl b : extends_log [] b b.
Proof. unfold extends_log. rewrite app_nil_r. auto. Qed.

Lemma extends_log_trans l1 l2 b1 b2 b3 :
  extends_log l1 b1 b2 -> extends_log l2 b2 b3 -> extends_log (l1 ++ l2) b1 b3.
Proof.
  intros (Hid1 & Ha1 & Hl1 & Hs1) (Hid2 & Ha2 & Hl2 & Hs2). unfold extends_log.
  rewrite Hid2, Ha2, Hl2, Hl1, app_assoc.
  split; [exact Hid1|]. split; [exact Ha1|]. split; [reflexivity|].
  intros H. destruct (Hs1 H) as [H1 Hp1]. destruct (Hs2 H1) as [H2 Hp2].
  split; [exact H2 | congruence].
Qed.

Lemma extends_log_set_status st b :
  ok (status b) = true -> extends_log [] b (set_status st b).
Proof.
  intros Hok. unfold extends_log. simpl. rewrite app_nil_r. repeat split; congruence.
Qed.

Lemma cancel_exec_state_keeps query_id i b :
  exists b', fst (cancel_exec_state query_id i (Some b)) = Some b' /\ extends_log [] b b'.
Proof.
  simpl. destruct (ok (status b)) eqn:Hok; simpl;
    [|exists b; split; [reflexivity | apply extends_log_refl]].
  destruct (initiated b); simpl; [|exists b; split; [reflexivity | apply extends_log_refl]].
  destruct (done b); simpl; [exists b; split; [reflexivity | apply extends_log_refl]|].
  destruct (cancel_rpc i) as [?|res|?|res|?]; simpl; try destruct (ok res); simpl;
    eexists; (split; [reflexivity|]);
    unfold extends_log; simpl; rewrite app_nil_r; repeat split; congruence.
Qed.

Lemma CancelInternal_keeps c j b :
  backend_exec_states_ c !! j = Some (Some b) ->
  exists b', backend_exec_states_ (CancelInternal c) !! j = Some (Some b')
    /\ extends_log [] b b'.
Proof.
  intros Hj. rewrite CancelInternal_lookup, Hj. simpl.
  destruct (cancel_exec_state_keeps (query_id_ c) j b) as (b' & E & H).
  simpl in E. rewrite E. eauto.
Qed.

Lemma Cancel_keeps cause c j b :
  backend_exec_states_ c !! j = Some (Some b) ->
  exists b', backend_exec_states_ (Cancel cause c) !! j = Some (Some b')
    /\ extends_log [] b b'.
Proof.
  intros Hj. unfold Cancel.
  destruct (negb (ok (query_status_ c))); [eauto using extends_log_refl|].
  apply CancelInternal_keeps. exact Hj.
Qed.

Lemma UpdateStatus_keeps st c j b :
  backend_exec_states_ c !! j = Some (Some b) ->
  exists b', backend_exec_states_ (snd (UpdateStatus st c)) !! j = Some (Some b')
    /\ extends_log [] b b'.
Proof.
  intros Hj. unfold UpdateStatus.
  destruct (returned_all_results_ c && IsCancelled st); [eauto using extends_log_refl|].
  destruct (ok st); [eauto using extends_log_refl|].
  destruct (negb (ok (query_status_ c))); [eauto using extends_log_refl|].
  simpl. apply CancelInternal_keeps. exact Hj.
Qed.

Lemma backend_completed_keeps n c j b :
  backend_exec_states_ c !! j = Some (Some b) ->
  exists b', backend_exec_states_ (backend_completed n c) !! j = Some (Some b')
    /\ extends_log [] b b'.
Proof.
  intros Hj.
  assert (backend_exec_states_ (backend_completed n c)
          = alter (fmap (set_stopwatch_running false)) n (backend_exec_states_ c)) as ->.
  { unfold backend_completed, DCHECK.
    repeat match goal with |- context [if ?b then _ else _] => destruct b end;
      reflexivity. }
  destruct (decide (j = n)) as [->|Hne].
  - rewrite list_lookup_alter_eq, Hj. simpl. eexists. split; [reflexivity|].
    unfold extends_log. simpl. rewrite app_nil_r. auto.
  - rewrite list_lookup_alter_ne by congruence. eauto using extends_log_refl.
Qed.

Lemma update_exec_state_extends params b :
  extends_log (default [] (Report.error_log params)) b (update_exec_state params b).
Proof.
  unfold extends_log. split; [|split; [|split]].
  - unfold update_exec_state.
    destruct (Report.error_log params) as [log|]; [destruct (0 <? length log)%nat|];
      destruct (negb (ok (Report.status params))); simpl;
      repeat match goal with |- context [if ?b then _ else _] => destruct b end;
      reflexivity.
  - unfold update_exec_state.
    destruct (Report.error_log params) as [log|]; [destruct (0 <? length log)%nat|];
      destruct (negb (ok (Report.status params))); simpl;
      repeat match goal with |- context [if ?b then _ else _] => destruct b end;
      reflexivity.
  - unfold update_exec_state.
    destruct (Report.error_log params) as [[|line log]|]; simpl;
      destruct (negb (ok (Report.status params))); simpl;
      repeat match goal with |- context [if ?b then _ else _] => destruct b end;
      simpl; rewrite ?app_nil_r; reflexivity.
  - intros Hok. split.
    + rewrite update_exec_state_status. destruct (ok (Report.status params)) eqn:E; auto.
    + unfold update_exec_state.
      destruct (ok (Report.status params)) eqn:E; simpl; rewrite ?Hok, ?E;
        destruct (Report.error_log params) as [log|];
        try destruct (0 <? length log)%nat; reflexivity.
Qed.

Lemma UpdateFragmentExecStatus_extends params c j b :
  backend_exec_states_ c !! j = Some (Some b) ->
  exists b',
    backend_exec_states_ (snd (UpdateFragmentExecStatus params c)) !! j = Some (Some b')
    /\ extends_log (report_log_for j (ReportArrives params)) b b'.
Proof.
  intros Hj. pose proof (lookup_lt_Some _ _ _ Hj) as Hlt. simpl.
  destruct (Report.backend_num params <? 0) eqn:Hneg.
  { apply Z.ltb_lt in Hneg. unfold UpdateFragmentExecStatus.
    replace (Report.backend_num params <? 0) with true by (symmetry; lia). simpl.
    replace (Report.backend_num params =? Z.of_nat j) with false by (symmetry; lia).
    eauto using extends_log_refl. }
  apply Z.ltb_ge in Hneg.
  destruct (Z.of_nat (length (backend_exec_states_ c)) <=? Report.backend_num params)
    eqn:Hbig.
  { unfold UpdateFragmentExecStatus. rewrite Hbig, orb_true_r. apply Z.leb_le in Hbig.
    simpl. replace (Report.backend_num params =? Z.of_nat j) with false by (symmetry; lia).
    eauto using extends_log_refl. }
  apply Z.leb_gt in Hbig.
  set (n := Z.to_nat (Report.backend_num params)).
  assert (Z.of_nat n = Report.backend_num params) as Hnz by (unfold n; lia).
  destruct (backend_exec_states_ c !! n) as [[exec_state|]|] eqn:Hn.
  - rewrite (UpdateFragmentExecStatus_received params c n exec_state) by (auto; lia).
    destruct (report_received_spec params n exec_state c) as (_ & _ & Hs1 & _).
    set (c1 := report_received params n exec_state c) in *.
    assert (exists b1, backend_exec_states_ c1 !! j = Some (Some b1)
              /\ extends_log
                   (if Report.backend_num params =? Z.of_nat j
                    then default [] (Report.error_log params) else []) b b1)
      as (b1 & Hj1 & Hb1).
    { rewrite Hs1. destruct (decide (j = n)) as [->|Hne].
      - rewrite list_lookup_insert_eq by exact Hlt.
        rewrite Hnz, Z.eqb_refl.
        assert (exec_state = b) as -> by congruence.
        eauto using update_exec_state_extends.
      - rewrite list_lookup_insert_ne by congruence.
        replace (Report.backend_num params =? Z.of_nat j) with false
          by (symmetry; apply Z.eqb_neq; lia).
        eauto using extends_log_refl. }
    cbv zeta.
    destruct (negb (returned_all_results_ c && IsCancelled (Report.status params))
              && negb (ok (Report.status params))); simpl.
    + destruct (UpdateStatus_keeps (Report.status params) c1 j b1 Hj1) as (b' & Hj' & Hb').
      exists b'. split; [exact Hj'|].
      pose proof (extends_log_trans _ _ _ _ _ Hb1 Hb') as H. rewrite app_nil_r in H. exact H.
    + destruct (Report.done params); simpl.
      * destruct (backend_completed_keeps n c1 j b1 Hj1) as (b' & Hj' & Hb').
        exists b'. split; [exact Hj'|].
        pose proof (extends_log_trans _ _ _ _ _ Hb1 Hb') as H. rewrite app_nil_r in H. exact H.
      * eauto.
  - unfold UpdateFragmentExecStatus.
    replace (Report.backend_num params <? 0) with false by (symmetry; lia).
    replace (Z.of_nat (length (backend_exec_states_ c)) <=? Report.backend_num params)
      with false by (symmetry; lia).
    simpl. fold n. rewrite Hn. simpl.
    replace (Report.backend_num params =? Z.of_nat j) with false
      by (symmetry; apply Z.eqb_neq; intros E; assert (n = j) by lia; congruence).
    eauto using extends_log_refl.
  - apply lookup_ge_None in Hn. lia.
Qed.

Lemma run_extends events c j b :
  backend_exec_states_ c !! j = Some (Some b) ->
  exists b',
    backend_exec_states_ (run events c) !! j = Some (Some b')
    /\ extends_log (concat (map (report_log_for j) events)) b b'.
Proof.
  revert c b. induction events as [|e events IH]; intros c b Hj; simpl.
  - eauto using extends_log_refl.
  - assert (exists b1, backend_exec_states_ (handle c e) !! j = Some (Some b1)
              /\ extends_log (report_log_for j e) b b1) as (b1 & Hj1 & Hb1).
    { destruct e as [params|cause].
      - apply UpdateFragmentExecStatus_extends. exact Hj.
      - apply Cancel_keeps. exact Hj. }
    destruct (IH (handle c e) b1 Hj1) as (b' & Hj' & Hb').
    exists b'. split; [exact Hj'|]. eapply extends_log_trans; eauto.
Qed.

(** X16.  What reports and cancellations do to the error log and the
    profile of a backend.  Whatever reports arrive and whatever calls of
    Cancel are made, the state of backend [j] keeps its instance id and its
    address; its error log is the log it had followed by the error logs of
    the reports that name [j], in the order of their arrival; and once its
    status is not OK, no report updates its profile any more. *)
Theorem error_logs_accumulate (events : list Event) (c : Coordinator) (j : nat)
    (b : BackendExecState) :
  backend_exec_states_ c !! j = Some (Some b) ->
  exists b',
    backend_exec_states_ (run events c) !! j = Some (Some b')
    /\ fragment_instance_id b' = fragment_instance_id b
    /\ backend_address b' = backend_address b
    /\ error_log b' = error_log b ++ concat (map (report_log_for j) events)
    /\ (ok (status b) = false -> profile b' = profile b).
Proof.
  intros Hj. destruct (run_extends events c j b Hj) as (b' & Hj' & Hid & Ha & Hl & Hs).
  exists b'. repeat split; auto. intros Hok. apply Hs, Hok.
Qed.





(** ** The catalog update *)

Lemma elem_of_created (partitions : list (string * Z)) (created : gset string) key :
  key ∈ fold_left (fun created partition => {[ fst partition ]} ∪ created) partitions created
  <-> key ∈ created \/ exists rows, In (key, rows) partitions.
Proof.
  revert created. induction partitions as [|[k v] rest IH]; intros created; simpl.
  - split; [auto | intros [H|(? & [])]; exact H].
  - rewrite IH, elem_of_union, elem_of_singleton. split.
    + intros [[->|H]|(rows & H)]; eauto.
    + intros [H|(rows & [E|H])]; eauto. injection E as -> ->. auto.
Qed.

(** X18.  PrepareCatalogUpdate adds to created_partitions the key of every
    partition that has a row count, whatever the count, and nothing else; it
    returns true exactly when created_partitions is not empty afterwards, that
    is when it was not empty before or some partition has a row count.  Its
    only requirement, checked by a DCHECK, is that Wait has been called. *)
Theorem PrepareCatalogUpdate_created_partitions (created_partitions : gset string)
    (c : Coordinator) :
  let result := PrepareCatalogUpdate created_partitions c in
  (forall key,
     key ∈ snd (fst result)
     <-> key ∈ created_partitions \/ is_Some (partition_row_counts_ c !! key))
  /\ (fst (fst result) = true
      <-> created_partitions <> ∅ \/ partition_row_counts_ c <> ∅)
  /\ (snd result = [] <-> has_called_wait_ c = true).
Proof.
  intros result.
  assert (forall key,
            key ∈ snd (fst result)
            <-> key ∈ created_partitions \/ is_Some (partition_row_counts_ c !! key))
    as Hmem.
  { intros key. unfold result, PrepareCatalogUpdate. simpl. rewrite elem_of_created.
    apply or_iff_compat_l. split.
    - intros (rows & H). exists rows. apply elem_of_map_to_list.
      rewrite <- PartitionRowCount_order_perm. apply list_elem_of_In, H.
    - intros (rows & H). exists rows. apply list_elem_of_In.
      rewrite PartitionRowCount_order_perm. apply elem_of_map_to_list, H. }
  split; [exact Hmem|]. split.
  - assert (fst (fst result) = negb (size (snd (fst result)) =? 0)%nat) as -> by reflexivity.
    rewrite negb_true_iff, Nat.eqb_neq, size_non_empty_iff. split.
    + intros Hne.
      destruct (decide (created_partitions = ∅)) as [Hold|Hold]; [|auto]. right.
      intros Hcounts. apply Hne. intros key. rewrite Hmem, Hold, Hcounts, lookup_empty.
      split; [intros [H|[? H]]; [set_solver | discriminate] | set_solver].
    + intros [Hold|Hcounts] Hempty.
      * apply Hold. apply set_eq. intros key. split; [|intros H; set_solver].
        intros H. apply (Hempty key), Hmem. auto.
      * apply Hcounts. apply map_empty. intros key.
        destruct (partition_row_counts_ c !! key) as [rows|] eqn:E; [|reflexivity].
        exfalso. specialize (Hempty key). rewrite Hmem, E in Hempty.
        apply (not_elem_of_empty (C := gset string) key). apply Hempty. eauto.
  - unfold result, PrepareCatalogUpdate. simpl.
    destruct (has_called_wait_ c); split; auto; discriminate.
Qed.

(** ** Progress of the scan ranges *)

Lemma fold_wrap64_sum values acc :
  0 <= acc -> Forall (fun v => 0 <= v) values -> acc + sum_rows values <= INT64_MAX ->
  fold_left (fun total value => wrap64 (total + value)) values acc = acc + sum_rows values.
Proof.
  intros Hacc Hvalues. revert acc Hacc.
  induction Hvalues as [|v rest Hv Hrest IH]; intros acc Hacc Hfit; simpl in *; [lia|].
  assert (0 <= sum_rows rest) as Hsum.
  { clear -Hrest. induction Hrest; simpl; lia. }
  rewrite wrap64_id by lia. rewrite IH by lia. lia.
Qed.

Lemma UpdateNumScanRangesCompleted_delta values total :
  Forall (fun v => 0 <= v) values ->
  0 <= total <= sum_rows values -> sum_rows values <= INT64_MAX ->
  UpdateNumScanRangesCompleted values total
  = (sum_rows values - total, sum_rows values, []).
Proof.
  intros Hvalues Htotal Hfit. unfold UpdateNumScanRangesCompleted.
  rewrite fold_wrap64_sum by (auto; lia). rewrite Z.add_0_l. cbv zeta.
  rewrite wrap64_id by lia.
  replace (0 <=? sum_rows values - total) with true by (symmetry; lia). reflexivity.
Qed.

(** X19.  UpdateNumScanRangesCompleted returns the number of scan ranges
    completed since the last call.  While the counters are counts that only
    grow and whose sum is an int64_t, no DCHECK fails, every delta is the sum
    of the counters less the total of the call before, and over any number of
    calls the deltas add up to the last total less the first: the progress
    that the deltas are added to counts every completed range once. *)
Theorem scan_range_deltas_add_up (calls : list (list Z)) (total : Z) :
  0 <= total ->
  counters_grow calls total ->
  sum_rows (scan_range_deltas calls total) = scan_ranges_total calls total - total
  /\ Forall (fun delta => 0 <= delta) (scan_range_deltas calls total)
  /\ (forall values, last calls = Some values ->
        scan_ranges_total calls total = sum_rows values)
  /\ (forall values rest, calls = values :: rest ->
        UpdateNumScanRangesCompleted values total
        = (sum_rows values - total, sum_rows values, [])).
Proof.
  intros Htotal Hgrow. revert total Htotal Hgrow.
  induction calls as [|values rest IH]; intros total Htotal Hgrow.
  - simpl. split; [lia|]. split; [constructor|]. split; [discriminate | discriminate].
  - destruct Hgrow as (Hvalues & Hfit & Hrest).
    cbn [scan_range_deltas scan_ranges_total].
    rewrite (UpdateNumScanRangesCompleted_delta values total) by (auto; lia).
    cbn [fst snd].
    destruct (IH (sum_rows values)) as (Hsum & Hdeltas & Hlast & _); [lia | exact Hrest|].
    split; [simpl; rewrite Hsum; lia|]. split; [constructor; [lia | exact Hdeltas]|]. split.
    + intros values' Hl. destruct rest as [|values2 rest].
      * simpl in Hl. injection Hl as <-. reflexivity.
      * apply Hlast. exact Hl.
    + intros values' rest' E. injection E as <- <-.
      apply UpdateNumScanRangesCompleted_delta; auto; lia.
Qed.

(** ** Exec *)

Lemma query_status_set_up_exec_states fragment_idx instance_idx params remaining_hosts
    backend_num c :
  query_status_
    (set_up_exec_states fragment_idx instance_idx params remaining_hosts backend_num c)
  = query_status_ c.
Proof.
  revert instance_idx backend_num c.
  induction remaining_hosts as [|host rest IH]; intros instance_idx backend_num c; simpl.
  - reflexivity.
  - rewrite IH. destruct (_ <? _)%nat; reflexivity.
Qed.

Lemma query_status_ParallelExecutor_Exec i num first_error c :
  query_status_ (snd (ParallelExecutor_Exec i num first_error c)) = query_status_ c.
Proof.
  revert i first_error c. induction num as [|num IH]; intros i first_error c; simpl.
  - reflexivity.
  - destruct (backend_exec_states_ c !! i) as [[b|]|]; rewrite IH; reflexivity.
Qed.

Lemma start_fragments_status schedule fragment_idxs backend_num c :
  match fst (start_fragments schedule fragment_idxs backend_num c) with
  | Some st =>
      ok st = false
      /\ query_status_ (snd (start_fragments schedule fragment_idxs backend_num c)) = st
  | None =>
      query_status_ (snd (start_fragments schedule fragment_idxs backend_num c))
      = query_status_ c
  end.
Proof.
  revert backend_num c.
  induction fragment_idxs as [|fragment_idx rest IH]; intros backend_num c; simpl.
  - reflexivity.
  - match goal with |- context [ParallelExecutor_Exec ?i ?n ?e ?x] =>
      pose proof (query_status_ParallelExecutor_Exec i n e x) as Hpar;
      assert (query_status_ x = query_status_ c) as Hset;
      [|destruct (ok (fst (ParallelExecutor_Exec i n e x))) eqn:Hok]
    end.
    + rewrite query_status_set_up_exec_states. unfold DCHECK.
      destruct (0 <? _)%nat; reflexivity.
    + simpl. specialize (IH (backend_num + length (hosts (default (mkFragmentExecParams [] [])
                                                     (exec_params schedule !! fragment_idx))))%nat
                          (snd (ParallelExecutor_Exec backend_num
                                  (length (hosts (default (mkFragmentExecParams [] [])
                                                    (exec_params schedule !! fragment_idx))))
                                  Status_OK
                                  (set_up_exec_states fragment_idx 0
                                     (default (mkFragmentExecParams [] [])
                                        (exec_params schedule !! fragment_idx))
                                     (hosts (default (mkFragmentExecParams [] [])
                                               (exec_params schedule !! fragment_idx)))
                                     backend_num
                                     (DCHECK
                                        (0 <? length (hosts (default (mkFragmentExecParams [] [])
                                                       (exec_params schedule !! fragment_idx))))%nat
                                        "num_hosts > 0" c))))).
      destruct (fst (start_fragments _ _ _ _)) as [st|]; [exact IH|].
      rewrite IH, Hpar, Hset. reflexivity.
    + simpl. split; [exact Hok|].
      match goal with |- context [CancelInternal ?x] =>
        destruct (CancelInternal_bookkeeping x) as [_ ->]
      end.
      reflexivity.
Qed.

(** X20.  What Exec returns and what it records, on a new Coordinator.
    When the coordinator fragment cannot be prepared (Prepare,
    CreateExprTrees or Expr::Prepare fails), Exec returns that error before
    it starts any backend: there is no BackendExecState, and query_status_ is
    still OK, so the error is not recorded.  Otherwise the status that Exec
    returns is query_status_: OK, or the error of the first fragment whose
    instances could not all be started. *)
Theorem Exec_returns_and_records (schedule : QuerySchedule)
    (prepare create_expr_trees expr_prepare : Status) :
  let r := Exec schedule prepare create_expr_trees expr_prepare Coordinator_new in
  match coordinator_fragment_error schedule prepare create_expr_trees expr_prepare with
  | Some st =>
      fst r = st /\ ok st = false
      /\ query_status_ (snd r) = Status_OK
      /\ backend_exec_states_ (snd r) = []
      /\ effects_ (snd r) = [ExecutorPrepare]
  | None => fst r = query_status_ (snd r)
  end.
Proof.
  unfold coordinator_fragment_error, has_coordinator_fragment, Exec.
  set (c0 := DCHECK _ _ Coordinator_new).
  set (has := match fragments schedule with
              | partition_type :: _ => is_UNPARTITIONED partition_type
              | [] => false
              end).
  set (c1 := if has then emit [ExecutorPrepare] (set_request schedule has c0)
             else set_request schedule has c0).
  assert (query_status_ c1 = Status_OK /\ backend_exec_states_ c1 = []
          /\ (has = true -> effects_ c1 = [ExecutorPrepare])) as (Hq1 & Hs1 & He1).
  { subst c1 c0. unfold DCHECK.
    destruct has, (0 <? _)%nat; simpl; repeat split; try reflexivity; discriminate. }
  assert (forall l x, query_status_ x = Status_OK ->
            let r := start_fragments schedule l 0 x in
            fst match fst r with
                | Some st => (st, snd r)
                | None =>
                    (Status_OK,
                     if has && (1 <? length (fragments schedule))%nat
                     then emit [ExecutorReleaseThreadToken] (snd r) else snd r)
                end
            = query_status_
                (snd match fst r with
                     | Some st => (st, snd r)
                     | None =>
                         (Status_OK,
                          if has && (1 <? length (fragments schedule))%nat
                          then emit [ExecutorReleaseThreadToken] (snd r) else snd r)
                     end)) as Hstart.
  { intros l x Hx r. pose proof (start_fragments_status schedule l 0 x) as H. fold r in H.
    destruct (fst r) as [st|]; simpl.
    - destruct H as [_ ->]. reflexivity.
    - destruct (has && _); simpl; rewrite H, Hx; reflexivity. }
  destruct has; simpl.
  - destruct (ok prepare) eqn:E1; simpl; [|auto 6].
    destruct (ok create_expr_trees) eqn:E2; simpl; [|auto 6].
    destruct (ok expr_prepare) eqn:E3; simpl; [|auto 6].
    apply Hstart. exact Hq1.
  - apply Hstart. exact Hq1.
Qed.

Lemma ExecRemoteFragment_started query_id i exec_state :
  exec_rpc_failures_are_errors ->
  ok (fst (fst (ExecRemoteFragment query_id i exec_state))) = true ->
  done exec_state = false ->
  started (snd (fst (ExecRemoteFragment query_id i exec_state))).
Proof.
  intros Hsound. unfold ExecRemoteFragment, started.
  destruct (exec_rpc i) as [st|res|st|res|what] eqn:E; simpl.
  - intros Hok. rewrite (Hsound i st) in Hok by auto. discriminate.
  - destruct (ok res) eqn:Hres; simpl; [auto|]. intros Hok. congruence.
  - intros Hok. rewrite (Hsound i st) in Hok by auto. discriminate.
  - destruct (ok res) eqn:Hres; simpl; [auto|]. intros Hok. congruence.
  - discriminate.
Qed.

Lemma ParallelExecutor_Exec_started i num first_error c :
  exec_rpc_failures_are_errors ->
  ok (fst (ParallelExecutor_Exec i num first_error c)) = true ->
  (forall k b, (i <= k < i + num)%nat ->
     backend_exec_states_ c !! k = Some (Some b) -> done b = false) ->
  ok first_error = true
  /\ (forall k b, (i <= k < i + num)%nat ->
        backend_exec_states_ (snd (ParallelExecutor_Exec i num first_error c)) !! k
        = Some (Some b) -> started b)
  /\ (forall k, (k < i \/ i + num <= k)%nat ->
        backend_exec_states_ (snd (ParallelExecutor_Exec i num first_error c)) !! k
        = backend_exec_states_ c !! k).
Proof.
  intros Hsound. revert i first_error c.
  induction num as [|num IH]; intros i first_error c Hok Hfresh; simpl in *.
  - split; [exact Hok|]. split; [intros k b Hk; lia | reflexivity].
  - destruct (backend_exec_states_ c !! i) as [[exec_state|]|] eqn:Hi.
    + set (r := ExecRemoteFragment (query_id_ c) i exec_state) in *.
      set (c1 := emit (snd r)
                   (set_backend_exec_states_
                      (<[i := Some (snd (fst r))]> (backend_exec_states_ c)) c)) in *.
      destruct (IH (S i) _ c1 Hok) as (Hfirst & Hin & Hout).
      { intros k b Hk Hb. unfold c1 in Hb. simpl in Hb.
        rewrite list_lookup_insert_ne in Hb by lia. apply (Hfresh k b); [lia | exact Hb]. }
      assert (ok first_error = true /\ ok (fst (fst r)) = true) as [Hf Hr].
      { revert Hfirst. destruct (ok first_error) eqn:E; [auto | intros H; congruence]. }
      split; [exact Hf|]. split.
      * intros k b Hk Hb. destruct (decide (k = i)) as [->|Hne].
        -- rewrite Hout in Hb by lia. unfold c1 in Hb. simpl in Hb.
           rewrite list_lookup_insert_eq in Hb by (apply lookup_lt_Some in Hi; exact Hi).
           injection Hb as <-. apply ExecRemoteFragment_started; auto.
           apply (Hfresh i exec_state); [lia | exact Hi].
        -- apply (Hin k b); [lia | exact Hb].
      * intros k Hk. rewrite Hout by lia. unfold c1. simpl.
        apply list_lookup_insert_ne. lia.
    + destruct (IH (S i) _ _ Hok) as (Hfirst & Hin & Hout).
      { intros k b Hk Hb. simpl in Hb. apply (Hfresh k b); [lia | exact Hb]. }
      split; [exact Hfirst|]. split.
      * intros k b Hk Hb. destruct (decide (k = i)) as [->|Hne].
        -- rewrite Hout in Hb by lia. simpl in Hb. congruence.
        -- apply (Hin k b); [lia | exact Hb].
      * intros k Hk. rewrite Hout by lia. reflexivity.
    + destruct (IH (S i) _ _ Hok) as (Hfirst & Hin & Hout).
      { intros k b Hk Hb. simpl in Hb. apply (Hfresh k b); [lia | exact Hb]. }
      split; [exact Hfirst|]. split.
      * intros k b Hk Hb. destruct (decide (k = i)) as [->|Hne].
        -- rewrite Hout in Hb by lia. simpl in Hb. congruence.
        -- apply (Hin k b); [lia | exact Hb].
      * intros k Hk. rewrite Hout by lia. reflexivity.
Qed.

Lemma set_up_exec_states_lookup fragment_idx instance_idx params remaining_hosts
    backend_num c k b :
  backend_exec_states_
    (set_up_exec_states fragment_idx instance_idx params remaining_hosts backend_num c) !! k
  = Some (Some b) ->
  backend_exec_states_ c !! k = Some (Some b)
  \/ ((backend_num <= k < backend_num + length remaining_hosts)%nat /\ done b = false).
Proof.
  revert instance_idx backend_num c.
  induction remaining_hosts as [|host rest IH]; intros instance_idx backend_num c; simpl.
  - auto.
  - intros H. apply IH in H as [H|[Hk Hb]]; [|right; split; [lia | exact Hb]].
    destruct (backend_num <? length (backend_exec_states_ c))%nat eqn:Hlt; simpl in H;
      [|auto].
    destruct (decide (k = backend_num)) as [->|Hne].
    + apply Nat.ltb_lt in Hlt. rewrite list_lookup_insert_eq in H by exact Hlt.
      injection H as <-. right. split; [lia | reflexivity].
    + rewrite list_lookup_insert_ne in H by congruence. auto.
Qed.

Lemma start_fragments_started schedule fragment_idxs backend_num c :
  exec_rpc_failures_are_errors ->
  fst (start_fragments schedule fragment_idxs backend_num c) = None ->
  (forall k b, backend_exec_states_ c !! k = Some (Some b) ->
     (k < backend_num)%nat /\ started b) ->
  forall k b,
    backend_exec_states_ (snd (start_fragments schedule fragment_idxs backend_num c)) !! k
    = Some (Some b) -> started b.
Proof.
  intros Hsound. revert backend_num c.
  induction fragment_idxs as [|fragment_idx rest IH]; intros backend_num c Hnone Hinv; simpl.
  - intros k b Hb. apply (Hinv k b Hb).
  - simpl in Hnone.
    set (params := default (mkFragmentExecParams [] []) (exec_params schedule !! fragment_idx))
      in *.
    set (c2 := set_up_exec_states fragment_idx 0 params (hosts params) backend_num
                 (DCHECK (0 <? length (hosts params))%nat "num_hosts > 0" c)) in *.
    assert (forall k b, backend_exec_states_ c2 !! k = Some (Some b) ->
              ((k < backend_num)%nat /\ started b)
              \/ ((backend_num <= k < backend_num + length (hosts params))%nat
                  /\ done b = false)) as Hc2.
    { intros k b Hb. unfold c2 in Hb. apply set_up_exec_states_lookup in Hb as [Hb|Hb].
      - left. apply Hinv.
        replace (backend_exec_states_ c)
          with (backend_exec_states_
                  (DCHECK (0 <? length (hosts params))%nat "num_hosts > 0" c))
          by (unfold DCHECK; destruct (0 <? _)%nat; reflexivity).
        exact Hb.
      - right. exact Hb. }
    destruct (ok (fst (ParallelExecutor_Exec backend_num (length (hosts params)) Status_OK c2)))
      eqn:Hok; simpl in *; [|discriminate].
    destruct (ParallelExecutor_Exec_started backend_num (length (hosts params)) Status_OK c2
                Hsound Hok) as (_ & Hin & Hout).
    { intros k b Hk Hb. destruct (Hc2 k b Hb) as [[Hlt _]|[_ Hd]]; [lia | exact Hd]. }
    apply IH; [exact Hnone|].
    intros k b Hb.
    destruct (decide (backend_num <= k < backend_num + length (hosts params))%nat)
      as [Hk|Hk].
    + split; [lia|]. apply (Hin k b Hk Hb).
    + rewrite Hout in Hb by lia. destruct (Hc2 k b Hb) as [[Hlt Hs]|[Hk' _]]; [|lia].
      split; [lia | exact Hs].
Qed.

(** X21.  After Exec has returned OK on a new Coordinator, every backend
    that has a BackendExecState has been started: its state is initiated, its
    status is OK and it is not done.  (The answers of the RPC layer are taken
    to be what they say: a failure to connect or to reopen carries an error
    status.)  So a Cancel that follows reaches every one of them. *)
Theorem Exec_OK_has_started_every_backend (schedule : QuerySchedule)
    (prepare create_expr_trees expr_prepare : Status) :
  exec_rpc_failures_are_errors ->
  let r := Exec schedule prepare create_expr_trees expr_prepare Coordinator_new in
  ok (fst r) = true ->
  (forall k b, backend_exec_states_ (snd r) !! k = Some (Some b) -> started b)
  /\ forall k b, backend_exec_states_ (snd r) !! k = Some (Some b) ->
       to_cancel (Some b).
Proof.
  intros Hsound r Hok.
  assert (forall k b, backend_exec_states_ (snd r) !! k = Some (Some b) -> started b)
    as Hstarted.
  { revert Hok. unfold r, Exec.
    set (c0 := DCHECK _ _ Coordinator_new).
    set (has := match fragments schedule with
                | partition_type :: _ => is_UNPARTITIONED partition_type
                | [] => false
                end).
    set (c1 := if has then emit [ExecutorPrepare] (set_request schedule has c0)
               else set_request schedule has c0).
    assert (backend_exec_states_ c1 = []) as Hs1.
    { subst c1 c0. unfold DCHECK. destruct has, (0 <? _)%nat; reflexivity. }
    destruct (has && negb (ok prepare)) eqn:E1.
    { simpl. intros _ k b. rewrite Hs1, lookup_nil. discriminate. }
    destruct (has && negb (ok create_expr_trees)) eqn:E2.
    { simpl. intros _ k b. rewrite Hs1, lookup_nil. discriminate. }
    destruct (has && negb (ok expr_prepare)) eqn:E3.
    { simpl. intros _ k b. rewrite Hs1, lookup_nil. discriminate. }
    match goal with |- context [start_fragments schedule ?l 0 ?x] =>
      pose proof (start_fragments_status schedule l 0 x) as Hstatus;
      pose proof (start_fragments_started schedule l 0 x Hsound) as Hall;
      destruct (start_fragments schedule l 0 x) as [[st|] c2]
    end; simpl in *.
    - intros Hok. destruct Hstatus as [Hst _]. congruence.
    - intros _. specialize (Hall eq_refl).
      assert (forall k b,
                resize (num_backends schedule) None (backend_exec_states_ c1) !! k
                = Some (Some b) -> (k < 0)%nat /\ started b) as Hinit.
      { intros k b Hb. exfalso. rewrite Hs1 in Hb.
        rewrite resize_nil in Hb. apply lookup_replicate in Hb as [Hb _]. discriminate. }
      specialize (Hall Hinit).
      destruct (has && (1 <? length (fragments schedule))%nat); exact Hall. }
  split; [exact Hstarted|].
  intros k b Hb. destruct (Hstarted k b Hb) as (Hi & Hs & Hd). exists b. auto.
Qed.

(** ** Reports after the last batch *)

Lemma IsCancelled_not_ok st : IsCancelled st = true -> ok st = false.
Proof. unfold IsCancelled, ok. destruct (status_code st); simpl; congruence. Qed.

(** X22.  After all results were returned, a report with a CANCELLED status
    does not fail the query (GetNext cancels the remote fragments itself when
    the limit is reached): query_status_ stays as it is, no CancelPlanFragment
    is sent, the other backends stay as they are, and the state of the
    reporting backend takes the reported status and done flag. *)
Theorem cancelled_report_after_all_results (params : TReportExecStatusParams)
    (c : Coordinator) (i : nat) (b : BackendExecState) :
  returned_all_results_ c = true ->
  backend_exec_states_ c !! i = Some (Some b) ->
  Report.backend_num params = Z.of_nat i ->
  IsCancelled (Report.status params) = true ->
  let c' := snd (UpdateFragmentExecStatus params c) in
  query_status_ c' = query_status_ c
  /\ (exists added, effects_ c' = effects_ c ++ added /\ cancel_rpcs added = [])
  /\ (forall j, j <> i -> backend_exec_states_ c' !! j = backend_exec_states_ c !! j)
  /\ exists b',
       backend_exec_states_ c' !! i = Some (Some b')
       /\ status b' = Report.status params
       /\ done b' = Report.done params.
Proof.
  intros Hall Hi Hnum Hcancelled c'.
  pose proof (IsCancelled_not_ok _ Hcancelled) as Hst.
  pose proof (lookup_lt_Some _ _ _ Hi) as Hlt.
  unfold c'. rewrite (UpdateFragmentExecStatus_received params c i b) by (auto; lia).
  cbv zeta. rewrite Hall, Hcancelled. simpl.
  destruct (report_received_spec params i b c) as (Hq1 & _ & Hs1 & _).
  destruct (report_received_frame params i b c) as [He1 _].
  set (c1 := report_received params i b c) in *.
  assert (status (update_exec_state params b) = Report.status params
          /\ done (update_exec_state params b) = Report.done params) as [Hstatus Hdone].
  { rewrite update_exec_state_status, update_exec_state_done, Hst. auto. }
  destruct (Report.done params) eqn:Hd; simpl.
  - assert (query_status_ (backend_completed i c1) = query_status_ c1
            /\ backend_exec_states_ (backend_completed i c1)
               = alter (fmap (set_stopwatch_running false)) i (backend_exec_states_ c1)
            /\ exists added,
                 effects_ (backend_completed i c1) = effects_ c1 ++ added
                 /\ cancel_rpcs added = []) as (Hq2 & Hs2 & added & He2 & Hadded).
    { unfold backend_completed, DCHECK.
      repeat match goal with |- context [if ?b then _ else _] => destruct b end;
        simpl; repeat split; try reflexivity;
        try (exists [NotifyAll]; split; reflexivity);
        exists []; rewrite app_nil_r; split; reflexivity. }
    rewrite Hq2, Hq1, Hs2, Hs1. split; [reflexivity|].
    split; [exists added; rewrite He2, He1; auto|]. split.
    + intros j Hj. rewrite list_lookup_alter_ne, list_lookup_insert_ne by congruence.
      reflexivity.
    + rewrite list_lookup_alter_eq, list_lookup_insert_eq by exact Hlt. simpl.
      eexists. split; [reflexivity|]. simpl. rewrite Hstatus, Hdone. auto.
  - rewrite Hq1, Hs1. split; [reflexivity|].
    split; [exists []; rewrite app_nil_r; auto|]. split.
    + intros j Hj. rewrite list_lookup_insert_ne by congruence. reflexivity.
    + rewrite list_lookup_insert_eq by exact Hlt. eexists. split; [reflexivity|].
      rewrite Hstatus, Hdone. auto.
Qed.

End Model.

(** * Worked examples

    The theorems at the sample collaborators of [Sample], and the runs that
    separate the code from three sentences of its description. *)

Local Abbreviation sample_Cancel := (Cancel Sample.PrintId Sample.cancel_rpc).
Local Abbreviation sample_Cancel_again := (Cancel_again Sample.PrintId Sample.cancel_rpc).
Local Abbreviation sample_UpdateStatus := (UpdateStatus Sample.PrintId Sample.cancel_rpc).
Local Abbreviation sample_UpdateFragmentExecStatus :=
  (UpdateFragmentExecStatus Sample.PrintId Sample.cancel_rpc Sample.MergeInsertStats
     Sample.PartitionRowCount_order).
Local Abbreviation sample_run :=
  (run Sample.PrintId Sample.cancel_rpc Sample.MergeInsertStats
     Sample.PartitionRowCount_order).
Local Abbreviation sample_GetNext :=
  (GetNext Sample.PrintId Sample.cancel_rpc Sample.MergeInsertStats
     Sample.PartitionRowCount_order).
Local Abbreviation sample_Exec := (Exec Sample.PrintId Sample.cancel_rpc Sample.exec_rpc).
Local Abbreviation sample_Wait :=
  (Wait Sample.PrintId Sample.cancel_rpc Sample.MergeInsertStats
     Sample.PartitionRowCount_order Sample.FileMoveMap_order unit Sample.hdfsListDirectory
     Sample.hdfsExists Sample.hdfsDelete Sample.Execute Sample.IsHiddenFile
     Sample.path_filename Sample.GetHdfsErrorMsg).
Local Abbreviation sample_step :=
  (step Sample.PrintId Sample.cancel_rpc Sample.MergeInsertStats
     Sample.PartitionRowCount_order Sample.FileMoveMap_order unit Sample.hdfsListDirectory
     Sample.hdfsExists Sample.hdfsDelete Sample.Execute Sample.IsHiddenFile
     Sample.path_filename Sample.GetHdfsErrorMsg).
Local Abbreviation sample_reachable :=
  (reachable Sample.PrintId Sample.cancel_rpc Sample.MergeInsertStats
     Sample.PartitionRowCount_order Sample.FileMoveMap_order unit Sample.hdfsListDirectory
     Sample.hdfsExists Sample.hdfsDelete Sample.Execute Sample.IsHiddenFile
     Sample.path_filename Sample.GetHdfsErrorMsg Sample.exec_rpc).
Local Abbreviation sample_FinalizeSuccessfulInsert :=
  (FinalizeSuccessfulInsert Sample.PartitionRowCount_order Sample.FileMoveMap_order unit
     Sample.hdfsListDirectory Sample.hdfsExists Sample.Execute Sample.IsHiddenFile
     Sample.path_filename Sample.GetHdfsErrorMsg).
Local Abbreviation sample_partition_ops :=
  (partition_ops unit Sample.hdfsListDirectory Sample.hdfsExists Sample.IsHiddenFile
     Sample.path_filename Sample.GetHdfsErrorMsg).
Local Abbreviation sample_ProcessQueryOptions :=
  (ProcessQueryOptions Sample.TExecNodePhase_VALUES_TO_NAMES
     Sample.TDebugAction_VALUES_TO_NAMES 4 3 0 Sample.atoi).
Local Abbreviation sample_exec_debug_options :=
  (exec_debug_options Sample.TExecNodePhase_VALUES_TO_NAMES
     Sample.TDebugAction_VALUES_TO_NAMES 4 3 0 Sample.atoi).
(** The Coordinator after Exec of the sample schedules. *)
Local Abbreviation running :=
  (snd (sample_Exec Sample.insert_schedule Status_OK Status_OK Status_OK Coordinator_new)).
Local Abbreviation selecting :=
  (snd (sample_Exec Sample.select_schedule Status_OK Status_OK Status_OK Coordinator_new)).
Local Abbreviation inserting :=
  (snd (sample_Exec Sample.dml_schedule Status_OK Status_OK Status_OK Coordinator_new)).
Local Abbreviation selecting_two :=
  (snd (sample_Exec Sample.select_two_schedule Status_OK Status_OK Status_OK
          Coordinator_new)).

Lemma sample_order_perm (m : gmap string Z) :
  Sample.PartitionRowCount_order m ≡ₚ map_to_list m.
Proof. reflexivity. Defined.

(** C10 at the sample tables: [1:OPEN] has two components and changes
    nothing; [2:NOSUCH:FAIL] names no phase and attaches nothing;
    [2:OPEN:NOSUCH] names no action and waits. *)
Lemma debug_action_parsing_witness :
  let d := mkDebugOptions 5 6 1 2 in
  sample_ProcessQueryOptions (mkTQueryOptions (Some "1:OPEN")) d = (d, [])
  /\ backend_debug_options 4 (sample_exec_debug_options (mkTQueryOptions (Some "1:OPEN"))) 0
     = None
  /\ backend_debug_options 4
       (sample_exec_debug_options (mkTQueryOptions (Some "2:NOSUCH:FAIL"))) 2 = None
  /\ DebugAction.action
       (fst (sample_ProcessQueryOptions (mkTQueryOptions (Some "2:OPEN:NOSUCH")) d)) = 0.
Proof.
  intros d.
  destruct (debug_action_parsing Sample.TExecNodePhase_VALUES_TO_NAMES
              Sample.TDebugAction_VALUES_TO_NAMES 4 3 0 Sample.atoi)
    as (Hsize & _ & Hphase & _ & Haction).
  destruct (Hsize "1:OPEN" d) as (H1 & _ & H2);
    [discriminate | left; vm_compute; lia |].
  split; [exact H1|]. split; [apply H2|]. split.
  - apply Hphase; [discriminate | vm_compute; lia | reflexivity].
  - apply Haction; [discriminate | vm_compute; lia | reflexivity].
Defined.

(** C8 at the sample table: of the data file, the hidden file and the
    directory of the root, the data file alone is deleted. *)
Lemma overwrite_root_deletes_only_files_witness :
  size (partition_row_counts_ Sample.overwrite_root) = 1%nat
  /\ sample_partition_ops tt (finalize_params_ Sample.overwrite_root) 1 (EmptyString, 5)
     = (inr [mkHdfsOp DELETE "/t/data0" EmptyString], []).
Proof.
  destruct (overwrite_root_deletes_only_files Sample.PartitionRowCount_order
              sample_order_perm unit Sample.hdfsListDirectory Sample.hdfsExists
              Sample.IsHiddenFile Sample.path_filename Sample.GetHdfsErrorMsg tt
              Sample.overwrite_root 5 Sample.root_files)
    as (Hops & _ & _ & Hloop); [reflexivity | reflexivity | reflexivity |].
  destruct Hloop as [Hsize _]; [reflexivity|].
  split; [exact Hsize|]. rewrite Hsize in Hops. exact Hops.
Defined.

(** C9 at the sample file system, where every CREATE_DIR and every DELETE
    fails: the INSERT into partition p=1 only creates a directory and
    returns OK; the INSERT OVERWRITE into the root deletes a file and
    returns the error. *)
Lemma partition_directory_errors_witness :
  fst (fst (sample_FinalizeSuccessfulInsert tt Sample.append_partition)) = Status_OK
  /\ fst (fst (sample_FinalizeSuccessfulInsert tt Sample.overwrite_root))
     = Status_of_msg
         "Error(s) deleting partition directories. First error (of 1) was: Permission denied".
Proof.
  split.
  - destruct (partition_directory_errors Sample.PartitionRowCount_order
                Sample.FileMoveMap_order unit Sample.hdfsListDirectory Sample.hdfsExists
                Sample.Execute Sample.IsHiddenFile Sample.path_filename
                Sample.GetHdfsErrorMsg tt Sample.append_partition
                [mkHdfsOp CREATE_DIR "/t/p=1" EmptyString] [])
      as [Htolerated _]; [reflexivity|].
    destruct Htolerated as [_ Hok]; [repeat constructor|].
    apply Hok; reflexivity.
  - destruct (partition_directory_errors Sample.PartitionRowCount_order
                Sample.FileMoveMap_order unit Sample.hdfsListDirectory Sample.hdfsExists
                Sample.Execute Sample.IsHiddenFile Sample.path_filename
                Sample.GetHdfsErrorMsg tt Sample.overwrite_root
                [mkHdfsOp DELETE "/t/data0" EmptyString] [])
      as [_ Hfatal]; [reflexivity|].
    destruct (Hfatal [] (mkHdfsOp DELETE "/t/data0" EmptyString, "Permission denied") [])
      as [E _]; [reflexivity | constructor | discriminate |].
    rewrite E. reflexivity.
Defined.

(** C3 at a run: the query fails with a parse error reported by backend 0;
    a later Cancel, a later error and a later Wait leave that status. *)
Lemma query_status_error_sticky_witness :
  let failed := snd (sample_UpdateFragmentExecStatus Sample.error_report running) in
  query_status_ failed = Status_of_msg "parse error"
  /\ sample_Cancel None failed = failed
  /\ sample_UpdateStatus (Status_of_msg "disk full") failed
     = (Status_of_msg "parse error", failed)
  /\ forall c', rtc (sample_step any_reports) failed c' ->
       query_status_ c' = Status_of_msg "parse error".
Proof.
  intros failed.
  destruct (query_status_error_sticky Sample.PrintId Sample.cancel_rpc
              Sample.MergeInsertStats Sample.PartitionRowCount_order
              Sample.FileMoveMap_order unit Sample.hdfsListDirectory Sample.hdfsExists
              Sample.hdfsDelete Sample.Execute Sample.IsHiddenFile Sample.path_filename
              Sample.GetHdfsErrorMsg)
    as (Hsteps & Hupdate & Hcancel & _ & _).
  split; [reflexivity|]. split; [apply Hcancel; reflexivity|].
  split; [apply Hupdate; reflexivity|].
  intros c' H. apply (Hsteps failed c' H). reflexivity.
Defined.

(** C2 at a run: backend 0 is running when the query is cancelled, and its
    last report, with an OK status, comes afterwards. *)
Lemma backend_status_never_back_to_OK_witness :
  let cancelled := sample_Cancel None running in
  let reported := snd (sample_UpdateFragmentExecStatus Sample.ok_report cancelled) in
  map (fmap status) (backend_exec_states_ cancelled) = [Some Status_CANCELLED]
  /\ map (fmap status) (backend_exec_states_ reported) = [Some Status_CANCELLED]
  /\ done_flags reported = [Some true]
  /\ num_remaining_backends_ cancelled = 1
  /\ num_remaining_backends_ reported = 0
  /\ query_status_ reported = Status_CANCELLED.
Proof.
  intros cancelled reported.
  destruct (backend_status_never_back_to_OK Sample.PrintId Sample.cancel_rpc
              Sample.MergeInsertStats Sample.PartitionRowCount_order
              Sample.FileMoveMap_order unit Sample.hdfsListDirectory Sample.hdfsExists
              Sample.hdfsDelete Sample.Execute Sample.IsHiddenFile Sample.path_filename
              Sample.GetHdfsErrorMsg)
    as [_ Hlate].
  destruct (Hlate running None 0%nat
              (mkBackendExecState (mkTUniqueId 1 1) "host1" 0 Status_OK true false false []
                 [] true)
              Sample.ok_report)
    as (b1 & b2 & H1 & Hb1 & H2 & Hdone & Hsame & Hn1 & Hn2 & Hq1 & Hq2);
    [reflexivity | vm_compute; reflexivity | reflexivity | reflexivity | reflexivity
    | reflexivity | reflexivity | reflexivity
    | vm_compute; split; [reflexivity | discriminate] |].
  vm_compute. repeat split; reflexivity.
Defined.

(** C5 at a run: two backends are running; the first Cancel sends each of
    them one CancelPlanFragment, and two more calls change nothing. *)
Lemma Cancel_idempotent_witness :
  let once := sample_Cancel None Sample.two_backends in
  sample_Cancel_again [Some (Status_of_msg "timeout"); None] once = once
  /\ cancel_rpcs (effects_ once) = [0%nat; 1%nat]
  /\ query_status_ once = Status_CANCELLED.
Proof.
  intros once.
  destruct (Cancel_idempotent Sample.PrintId Sample.cancel_rpc) as (_ & Hfirst & Hagain & _).
  split; [apply Hagain|]. split; [reflexivity|].
  apply (Hfirst Sample.two_backends None). reflexivity.
Defined.

(** C4 (as the code has it) at two runs.  A query without coordinator
    fragment is cancelled before Wait: the first Wait returns CANCELLED and
    sets has_called_wait_; the second returns OK and changes nothing.  A DML
    query with a coordinator fragment whose Open fails: the first Wait opens
    the executor and adds the insert stats once each, takes no snapshot, and
    reports two summaries. *)
Lemma Wait_later_calls_return_OK_witness :
  let cancelled := sample_Cancel None running in
  let state := mkRuntimeState ∅ ∅ ∅ in
  (exists c',
     sample_Wait Status_OK [] state [] tt cancelled = Returned (Status_CANCELLED, tt, c')
     /\ has_called_wait_ c' = true
     /\ sample_Wait Status_OK [] state [] tt c' = Returned (Status_OK, tt, c'))
  /\ exists c',
       sample_Wait (Status_of_msg "disk full") [] state [] tt inserting
       = Returned (Status_OK, tt, c')
       /\ wait_effects (effects_ c') = [ExecutorOpen; InsertStatsInfo]
       /\ summaries (effects_ c') = 2%nat
       /\ write_outputs c' = write_outputs inserting.
Proof.
  intros cancelled state. split.
  - eexists. split; [vm_compute; reflexivity|].
    match goal with |- has_called_wait_ ?c' = true /\ _ =>
      destruct (Wait_later_calls_return_OK Sample.PrintId Sample.cancel_rpc
                  Sample.MergeInsertStats Sample.PartitionRowCount_order
                  Sample.FileMoveMap_order unit Sample.hdfsListDirectory Sample.hdfsExists
                  Sample.hdfsDelete Sample.Execute Sample.IsHiddenFile Sample.path_filename
                  Sample.GetHdfsErrorMsg Status_OK [] state [] tt cancelled
                  Status_CANCELLED tt c')
        as (Hcalled & Hlater & _)
    end; [vm_compute; reflexivity|].
    split; [exact Hcalled | apply Hlater].
  - eexists. split; [vm_compute; reflexivity|].
    match goal with |- wait_effects (effects_ ?c') = _ /\ _ =>
      destruct (Wait_later_calls_return_OK Sample.PrintId Sample.cancel_rpc
                  Sample.MergeInsertStats Sample.PartitionRowCount_order
                  Sample.FileMoveMap_order unit Sample.hdfsListDirectory Sample.hdfsExists
                  Sample.hdfsDelete Sample.Execute Sample.IsHiddenFile Sample.path_filename
                  Sample.GetHdfsErrorMsg (Status_of_msg "disk full") [] state [] tt
                  inserting Status_OK tt c')
        as (_ & _ & _ & _ & Hfirst)
    end; [vm_compute; reflexivity|].
    destruct Hfirst as (Hown & Hsummaries & Hsnapshot & _); [reflexivity|].
    split; [exact Hown|]. split; [exact Hsummaries|]. apply Hsnapshot. reflexivity.
Defined.

(** C4 as stated fails at those runs.  Wait called twice on the cancelled
    query returns CANCELLED and then OK, two different statuses.  One call of
    Wait on the DML query whose Open fails reports the summary twice: once
    from CancelInternal, once at the end of Wait. *)
Lemma Wait_two_statuses_and_two_summaries :
  let cancelled := sample_Cancel None running in
  let state := mkRuntimeState ∅ ∅ ∅ in
  (exists c',
     sample_Wait Status_OK [] state [] tt cancelled = Returned (Status_CANCELLED, tt, c')
     /\ sample_Wait Status_OK [] state [] tt c' = Returned (Status_OK, tt, c')
     /\ Status_CANCELLED <> Status_OK)
  /\ exists c',
       sample_Wait (Status_of_msg "disk full") [] state [] tt inserting
       = Returned (Status_OK, tt, c')
       /\ effects_ c'
          = effects_ inserting
            ++ [ExecutorOpen; ExecutorCancel; CancelPlanFragmentRpc 0; NotifyAll;
                QuerySummary; InsertStatsInfo; QuerySummary].
Proof.
  intros cancelled state. split.
  - eexists. split; [vm_compute; reflexivity|].
    split; [vm_compute; reflexivity | discriminate].
  - eexists. split; vm_compute; reflexivity.
Defined.

(** C7 at a run: two backends report 3 and 4 rows appended to partition
    p=1 and one file each; the Coordinator then holds 7 rows for p=1 and both
    files. *)
Lemma write_outputs_are_merged_witness :
  let reports := [Sample.insert_report 0 3 "a"; Sample.insert_report 1 4 "b"] in
  let c' := sample_run (map ReportArrives reports) Sample.two_backends in
  partition_row_counts_ c' !! "p=1" = Some 7
  /\ files_to_move_ c' !! "a" = Some "/t/p=1/a"
  /\ files_to_move_ c' !! "b" = Some "/t/p=1/b".
Proof.
  intros reports c'.
  destruct (write_outputs_are_merged Sample.PrintId Sample.cancel_rpc
              Sample.MergeInsertStats Sample.PartitionRowCount_order sample_order_perm
              reports Sample.two_backends)
    as (Hrows & Hfiles & _ & _ & _).
  - intros key. change (partition_row_counts_ Sample.two_backends) with (∅ : gmap string Z).
    rewrite lookup_empty.
    change (omap (merged_status Sample.two_backends) reports)
      with [mkTInsertExecStatus {[ "p=1" := 3 ]} {[ "a" := "/t/p=1/a" ]} None;
            mkTInsertExecStatus {[ "p=1" := 4 ]} {[ "b" := "/t/p=1/b" ]} None].
    unfold reported_rows. cbn [omap list_omap Coord.num_appended_rows].
    destruct (decide (key = "p=1")) as [->|Hne].
    + rewrite !lookup_singleton_eq. cbn. unfold rows_fit, INT64_MAX. cbn.
      split; [lia|]. split; [|lia]. repeat constructor; lia.
    + rewrite !lookup_singleton_ne by congruence. cbn. unfold rows_fit, INT64_MAX. cbn.
      split; [lia|]. split; [constructor | lia].
  - split; [exact (Hrows "p=1")|].
    fold c' in Hfiles. rewrite Hfiles. split; reflexivity.
Defined.

Lemma sample_reachable_running : sample_reachable running.
Proof.
  exists Sample.insert_schedule, Status_OK, Status_OK, Status_OK.
  split; [vm_compute; discriminate | apply rtc_refl].
Defined.

(** C1 (as the code has it) at a run: after Exec with one backend the count
    is 1; the report with done set and an OK status decrements it to 0. *)
Lemma num_remaining_backends_bounds_not_done_witness :
  num_remaining_backends_ running = 1
  /\ count_not_done running = 1%nat
  /\ num_remaining_backends_ (snd (sample_UpdateFragmentExecStatus Sample.ok_report running))
     = 0.
Proof.
  destruct (num_remaining_backends_bounds_not_done Sample.PrintId Sample.cancel_rpc
              Sample.MergeInsertStats Sample.PartitionRowCount_order
              Sample.FileMoveMap_order unit Sample.hdfsListDirectory Sample.hdfsExists
              Sample.hdfsDelete Sample.Execute Sample.IsHiddenFile Sample.path_filename
              Sample.GetHdfsErrorMsg Sample.exec_rpc running sample_reachable_running)
    as (_ & _ & Hreport & Hexec).
  split; [apply (Hexec Sample.insert_schedule Status_OK Status_OK Status_OK); reflexivity|].
  split; [reflexivity|].
  destruct (Hreport Sample.ok_report) as [_ Hcount]; [reflexivity|].
  exact Hcount.
Defined.

(** C1 as stated fails at this run: backend 0 reports a parse error with
    done set.  The state's done becomes true, so no state has done false, but
    num_remaining_backends_ stays 1: the report that set done did not
    decrement it, and the count differs from the number of states that are
    not done. *)
Lemma error_report_sets_done_without_decrement :
  let failed := snd (sample_UpdateFragmentExecStatus Sample.error_report running) in
  sample_reachable running
  /\ report_expected (done_flags running) Sample.error_report = true
  /\ done_flags running = [Some false]
  /\ num_remaining_backends_ running = 1
  /\ done_flags failed = [Some true]
  /\ count_not_done failed = 0%nat
  /\ num_remaining_backends_ failed = 1
  /\ num_remaining_backends_ failed <> Z.of_nat (count_not_done failed)
  /\ num_remaining_backends_ failed <> num_remaining_backends_ running - 1.
Proof.
  intros failed. split; [exact sample_reachable_running|].
  vm_compute. repeat split; try reflexivity; discriminate.
Defined.

(** C6 at a run: a query with a coordinator fragment and one backend.  Wait
    opens the local executor; GetNext then finds it exhausted, and the
    backend's last report arrives while it waits. *)
Lemma GetNext_final_batch_after_all_backends_witness :
  let state := mkRuntimeState ∅ ∅ ∅ in
  exists waited c',
    sample_Wait Status_OK [] state [] tt selecting = Returned (Status_OK, tt, waited)
    /\ sample_GetNext Status_OK None [] false [[ReportArrives Sample.ok_report]] waited
       = Returned (Status_OK, None, c')
    /\ count_not_done c' = 0%nat
    /\ num_remaining_backends_ c' <= 0
    /\ returned_all_results_ c' = true.
Proof.
  intros state. eexists. eexists.
  split; [vm_compute; reflexivity|]. split; [vm_compute; reflexivity|].
  match goal with |- count_not_done ?c' = _ /\ _ =>
    destruct (GetNext_final_batch_after_all_backends Sample.PrintId Sample.cancel_rpc
                Sample.MergeInsertStats Sample.PartitionRowCount_order
                Sample.FileMoveMap_order unit Sample.hdfsListDirectory Sample.hdfsExists
                Sample.hdfsDelete Sample.Execute Sample.IsHiddenFile Sample.path_filename
                Sample.GetHdfsErrorMsg Sample.exec_rpc Status_OK None [] false
                [[ReportArrives Sample.ok_report]]
                (match sample_Wait Status_OK [] state [] tt selecting with
                 | Returned (_, _, waited) => waited
                 | Blocked => selecting
                 end)
                Status_OK c')
      as (Hcount & Hremaining & Hreturned & _)
  end.
  - exists Sample.select_schedule, Status_OK, Status_OK, Status_OK.
    split; [vm_compute; discriminate|].
    eapply rtc_l; [|apply rtc_refl].
    eapply (step_Wait _ _ _ _ _ _ _ _ _ _ _ _ _ _ Status_OK [] state [] tt selecting
              Status_OK tt); [reflexivity | vm_compute; reflexivity].
  - reflexivity.
  - reflexivity.
  - vm_compute. reflexivity.
  - reflexivity.
  - split; [exact Hcount|]. split; [exact Hremaining|]. apply Hreturned. reflexivity.
Defined.

(** C6 as stated fails when a report is delivered twice.  A query with a
    coordinator fragment and two backends, after Wait: GetNext finds the local
    executor exhausted, and while it waits the last report of backend 0
    arrives twice.  Each of the two decrements num_remaining_backends_, no
    DCHECK fails, and GetNext returns the NULL batch with an OK status while
    backend 1 has not reported done. *)
Lemma duplicate_report_ends_GetNext_early :
  let state := mkRuntimeState ∅ ∅ ∅ in
  let reports := [[ReportArrives Sample.ok_report]; [ReportArrives Sample.ok_report]] in
  exists waited c',
    sample_Wait Status_OK [] state [] tt selecting_two = Returned (Status_OK, tt, waited)
    /\ sample_reachable waited
    /\ sample_GetNext Status_OK None [] false reports waited
       = Returned (Status_OK, None, c')
    /\ done_flags c' = [Some true; Some false]
    /\ count_not_done c' = 1%nat
    /\ num_remaining_backends_ c' = 0
    /\ faults_ c' = []
    /\ reports_expected (done_flags waited) (concat reports) = false.
Proof.
  intros state reports. eexists. eexists.
  split; [vm_compute; reflexivity|]. split.
  - exists Sample.select_two_schedule, Status_OK, Status_OK, Status_OK.
    split; [vm_compute; discriminate|].
    eapply rtc_l; [|apply rtc_refl].
    eapply (step_Wait _ _ _ _ _ _ _ _ _ _ _ _ _ _ Status_OK [] state [] tt selecting_two
              Status_OK tt); [reflexivity | vm_compute; reflexivity].
  - split; [vm_compute; reflexivity|]. vm_compute. repeat split; reflexivity.
Defined.

(** * Worked examples of the further properties *)

Local Abbreviation sample_WaitForAllBackends :=
  (WaitForAllBackends Sample.PrintId Sample.cancel_rpc Sample.MergeInsertStats
     Sample.PartitionRowCount_order).
Local Abbreviation sample_GetExecNodePhase :=
  (GetExecNodePhase Sample.TExecNodePhase_VALUES_TO_NAMES 4).
Local Abbreviation sample_state := (mkRuntimeState ∅ ∅ ∅).
(** The Coordinator of the sample SELECT after Wait has opened the local
    executor. *)
Local Abbreviation waited :=
  (match sample_Wait Status_OK [] sample_state [] tt selecting with
   | Returned (_, _, c) => c
   | Blocked => selecting
   end).
(** The first and the second BackendExecState of [Sample.two_backends]. *)
Local Abbreviation backend0 :=
  (mkBackendExecState (mkTUniqueId 1 1) "host1" 0 Status_OK true false false [] [] true).
Local Abbreviation backend1 :=
  (mkBackendExecState (mkTUniqueId 1 2) "host2" 0 Status_OK true false false [] [] true).

Lemma sample_move_perm (m : gmap string string) :
  Sample.FileMoveMap_order m ≡ₚ map_to_list m.
Proof. reflexivity. Defined.

(** X1 at the sample phase table. *)
Lemma names_ignore_case_witness :
  sample_GetExecNodePhase "open" = sample_GetExecNodePhase "OPEN".
Proof.
  destruct (names_ignore_case Sample.TExecNodePhase_VALUES_TO_NAMES
              Sample.TDebugAction_VALUES_TO_NAMES 4 0) as (_ & _ & H).
  apply (H "open" "OPEN"). reflexivity.
Defined.

(** X2 at the sample phase table. *)
Lemma name_lookup_gives_value_witness : sample_GetExecNodePhase "GetNext" = 2.
Proof.
  destruct (name_lookup_gives_value Sample.TExecNodePhase_VALUES_TO_NAMES
              Sample.TDebugAction_VALUES_TO_NAMES 4 0 "GetNext" "GETNEXT" 2) as [H _];
    [reflexivity|].
  apply H.
  - apply (bool_decide_unpack _). vm_compute. exact I.
  - simpl. auto.
Defined.

(** X3 at a string with three components. *)
Lemma debug_options_reach_backends_witness :
  backend_debug_options 4
    (sample_exec_debug_options (mkTQueryOptions (Some "2:OPEN:FAIL"))) 7
  = Some (mkDebugOptions (-1) 0 1 1).
Proof.
  destruct (debug_options_reach_backends Sample.TExecNodePhase_VALUES_TO_NAMES
              Sample.TDebugAction_VALUES_TO_NAMES 4 3 0 Sample.atoi "2:OPEN:FAIL" 7)
    as [Hthree _]; [discriminate | vm_compute; discriminate |].
  destruct Hthree as [H _]; [reflexivity|]. exact H.
Defined.

(** X4 at the sample INSERT with its one backend: a report for backend 5
    is refused, an error report of backend 0 is accepted. *)
Lemma unknown_backend_number_witness :
  sample_UpdateFragmentExecStatus
    (mkTReportExecStatusParams 5 Status_OK true 0 None None) running
  = (Status_of_code INTERNAL_ERROR "unknown backend number", running)
  /\ fst (sample_UpdateFragmentExecStatus Sample.error_report running) = Status_OK.
Proof.
  split.
  - destruct (unknown_backend_number Sample.PrintId Sample.cancel_rpc
                Sample.MergeInsertStats Sample.PartitionRowCount_order
                (mkTReportExecStatusParams 5 Status_OK true 0 None None) running)
      as [H _].
    apply H. intros [_ Hlt]. vm_compute in Hlt. discriminate.
  - destruct (unknown_backend_number Sample.PrintId Sample.cancel_rpc
                Sample.MergeInsertStats Sample.PartitionRowCount_order
                Sample.error_report running)
      as (_ & H & _).
    eapply H; [vm_compute; split; [discriminate | reflexivity] | vm_compute; reflexivity].
Defined.

(** X5 at a run: backend 0 of two reports a parse error. *)
Lemma error_report_fails_query_witness :
  let failed := snd (sample_UpdateFragmentExecStatus Sample.error_report Sample.two_backends) in
  query_status_ failed = Status_of_msg "parse error"
  /\ cancel_rpcs (effects_ failed) = [1%nat].
Proof.
  intros failed.
  destruct (error_report_fails_query Sample.PrintId Sample.cancel_rpc
              Sample.MergeInsertStats Sample.PartitionRowCount_order Sample.error_report
              Sample.two_backends 0%nat backend0)
    as (Hq & _); try reflexivity.
  split; [exact Hq | reflexivity].
Defined.

(** X6 at a run: the query times out while the local executor runs, and
    the executor returns CANCELLED. *)
Lemma GetNext_returns_query_status_witness :
  exists c',
    sample_GetNext Status_CANCELLED None [CancelCalled (Some (Status_of_msg "timeout"))]
      false [] waited
    = Returned (Status_of_msg "timeout", None, c')
    /\ query_status_ c' = Status_of_msg "timeout".
Proof.
  eexists. split; [vm_compute; reflexivity|].
  match goal with |- query_status_ ?c' = _ =>
    destruct (GetNext_returns_query_status Sample.PrintId Sample.cancel_rpc
                Sample.MergeInsertStats Sample.PartitionRowCount_order Status_CANCELLED
                None [CancelCalled (Some (Status_of_msg "timeout"))] false [] waited
                (Status_of_msg "timeout") None c')
      as (_ & H & _)
  end; [vm_compute; reflexivity|].
  symmetry. apply H. reflexivity.
Defined.


(** X8 at a run: nothing happens at the first wake-up, the last report
    arrives before the second. *)
Lemma WaitForAllBackends_returns_at_first_stop_witness :
  sample_WaitForAllBackends [[]; [ReportArrives Sample.ok_report]; []] running
  = Returned (Status_OK, sample_run [ReportArrives Sample.ok_report] running).
Proof.
  destruct (WaitForAllBackends_returns_at_first_stop Sample.PrintId Sample.cancel_rpc
              Sample.MergeInsertStats Sample.PartitionRowCount_order
              [[]; [ReportArrives Sample.ok_report]; []] running)
    as (Hreturns & _).
  apply Hreturns. exists 2%nat. split; [simpl; lia|]. split.
  - intros [|[|j]] Hj; [vm_compute; reflexivity | vm_compute; reflexivity | lia].
  - split; [vm_compute; reflexivity|]. split; vm_compute; reflexivity.
Defined.


(** X10 at a run: the only backend of an INSERT reports while Wait waits. *)
Lemma Wait_returns_OK_after_all_backends_witness :
  exists c',
    sample_Wait Status_OK [] sample_state [[ReportArrives Sample.ok_report]] tt running
    = Returned (Status_OK, tt, c')
    /\ count_not_done c' = 0%nat.
Proof.
  eexists. split; [vm_compute; reflexivity|].
  match goal with |- count_not_done ?c' = _ =>
    destruct (Wait_returns_OK_after_all_backends Sample.PrintId Sample.cancel_rpc
                Sample.MergeInsertStats Sample.PartitionRowCount_order
                Sample.FileMoveMap_order unit Sample.hdfsListDirectory Sample.hdfsExists
                Sample.hdfsDelete Sample.Execute Sample.IsHiddenFile Sample.path_filename
                Sample.GetHdfsErrorMsg Sample.exec_rpc Status_OK [] sample_state
                [[ReportArrives Sample.ok_report]] tt running Status_OK tt c')
      as (_ & _ & H)
  end;
    [exact sample_reachable_running | reflexivity | reflexivity | vm_compute; reflexivity
    | vm_compute; reflexivity | reflexivity |].
  exact H.
Defined.

(** X11 at a cancelled INSERT. *)
Lemma failed_insert_only_removes_staging_witness :
  exists c',
    sample_Wait Status_OK [] sample_state [] tt (sample_Cancel None Sample.two_backends)
    = Returned (Status_CANCELLED, tt, c').
Proof.
  destruct (failed_insert_only_removes_staging Sample.PrintId Sample.cancel_rpc
              Sample.MergeInsertStats Sample.PartitionRowCount_order
              Sample.FileMoveMap_order unit Sample.hdfsListDirectory Sample.hdfsExists
              Sample.hdfsDelete Sample.Execute Sample.IsHiddenFile Sample.path_filename
              Sample.GetHdfsErrorMsg Status_OK [] sample_state [] tt
              (sample_Cancel None Sample.two_backends))
    as [H _].
  destruct H as (c' & HWait & _); try reflexivity.
  exists c'. exact HWait.
Defined.

(** X12 at the sample table, with a root directory that cannot be listed. *)
Lemma listing_failure_executes_nothing_witness :
  fst (FinalizeSuccessfulInsert Sample.PartitionRowCount_order Sample.FileMoveMap_order
         unit (fun _ _ => None) Sample.hdfsExists Sample.Execute Sample.IsHiddenFile
         Sample.path_filename Sample.GetHdfsErrorMsg tt Sample.overwrite_root)
  = (Status_of_msg "Could not list directory: /t/", tt).
Proof.
  apply (listing_failure_executes_nothing Sample.PartitionRowCount_order sample_order_perm
           Sample.FileMoveMap_order unit (fun _ _ => None) Sample.hdfsExists Sample.Execute
           Sample.IsHiddenFile Sample.path_filename Sample.GetHdfsErrorMsg tt
           Sample.overwrite_root 5); reflexivity.
Defined.

(** X13 at the INSERT into partition p=1. *)
Lemma append_only_creates_directories_witness :
  sample_FinalizeSuccessfulInsert tt Sample.append_partition = (Status_OK, tt, []).
Proof.
  destruct (append_only_creates_directories Sample.PartitionRowCount_order
              sample_order_perm Sample.FileMoveMap_order unit Sample.hdfsListDirectory
              Sample.hdfsExists Sample.Execute Sample.IsHiddenFile Sample.path_filename
              Sample.GetHdfsErrorMsg tt Sample.append_partition)
    as (_ & _ & H); [reflexivity|].
  rewrite H; [reflexivity|]. vm_compute. repeat constructor.
Defined.

(** X14 at an INSERT that staged one file and one directory: the file is
    moved, and the deletion of the directory fails. *)
Lemma staged_files_are_moved_then_deleted_witness :
  move_tmp_files Sample.FileMoveMap_order unit Sample.Execute tt
    (set_write_outputs {[ "p=1" := 5 ]}
       {[ "/staging/a" := "/t/p=1/a"; "/staging/dir" := EmptyString ]} ∅
       Sample.append_partition)
  = (Status_of_msg
       "Error(s) deleting staging directories. First error (of 1) was: Permission denied",
     tt).
Proof.
  destruct (staged_files_are_moved_then_deleted Sample.FileMoveMap_order unit
              Sample.Execute tt
              (set_write_outputs {[ "p=1" := 5 ]}
                 {[ "/staging/a" := "/t/p=1/a"; "/staging/dir" := EmptyString ]} ∅
                 Sample.append_partition)
              sample_move_perm)
    as (_ & _ & _ & H & _).
  apply (H (mkHdfsOp DELETE "/staging/dir" EmptyString, "Permission denied") []);
    vm_compute; reflexivity.
Defined.

(** X15 at a query whose only backend has finished. *)
Lemma Cancel_with_nothing_to_cancel_witness :
  let finished := snd (sample_UpdateFragmentExecStatus Sample.ok_report running) in
  backend_exec_states_ (sample_Cancel None finished) = backend_exec_states_ finished
  /\ query_status_ (sample_Cancel None finished) = Status_CANCELLED.
Proof.
  intros finished.
  destruct (Cancel_with_nothing_to_cancel Sample.PrintId Sample.cancel_rpc None finished)
    as (Hstates & Hstatus & _); [reflexivity | |].
  - apply List.Forall_forall. intros s Hs. vm_compute in Hs. destruct Hs as [<-|[]].
    intros (b & E & _ & _ & Hdone). injection E as <-. discriminate.
  - split; [exact Hstates | exact Hstatus].
Defined.

(** X16 at a run: backend 1 reports two error logs, with a Cancel between
    them. *)
Lemma error_logs_accumulate_witness :
  let report log := mkTReportExecStatusParams 1 Status_OK false 0 (Some [log]) None in
  exists b',
    backend_exec_states_
      (sample_run [ReportArrives (report "disk slow"); CancelCalled None;
                   ReportArrives (report "gave up")] Sample.two_backends) !! 1%nat
    = Some (Some b')
    /\ error_log b' = ["disk slow"; "gave up"].
Proof.
  intros report.
  destruct (error_logs_accumulate Sample.PrintId Sample.cancel_rpc Sample.MergeInsertStats
              Sample.PartitionRowCount_order
              [ReportArrives (report "disk slow"); CancelCalled None;
               ReportArrives (report "gave up")] Sample.two_backends 1%nat backend1)
    as (b' & Hj & _ & _ & Hlog & _); [reflexivity|].
  exists b'. split; [exact Hj | exact Hlog].
Defined.


(** X18 at the INSERT into partition p=1. *)
Lemma PrepareCatalogUpdate_created_partitions_witness :
  fst (fst (PrepareCatalogUpdate Sample.PartitionRowCount_order ∅ Sample.append_partition))
  = true.
Proof.
  destruct (PrepareCatalogUpdate_created_partitions Sample.PartitionRowCount_order
              sample_order_perm ∅ Sample.append_partition) as (_ & H & _).
  apply H. right. intros E.
  assert (partition_row_counts_ Sample.append_partition !! "p=1" = Some 5) as Hrows
    by reflexivity.
  rewrite E, lookup_empty in Hrows. discriminate.
Defined.

(** X19 at two calls: the counters hold 1 and 2, then 3 and 4. *)
Lemma scan_range_deltas_add_up_witness :
  scan_range_deltas [[1; 2]; [3; 4]] 0 = [3; 4]
  /\ sum_rows (scan_range_deltas [[1; 2]; [3; 4]] 0) = 7.
Proof.
  destruct (scan_range_deltas_add_up [[1; 2]; [3; 4]] 0) as (Hsum & _); [lia | |].
  - simpl. unfold INT64_MAX. repeat split; try lia; repeat constructor; lia.
  - split; [reflexivity | exact Hsum].
Defined.

(** X20 at a SELECT whose coordinator fragment cannot be prepared. *)
Lemma Exec_returns_and_records_witness :
  let r :=
    sample_Exec Sample.select_schedule (Status_of_msg "no memory") Status_OK Status_OK
      Coordinator_new in
  fst r = Status_of_msg "no memory" /\ query_status_ (snd r) = Status_OK.
Proof.
  intros r.
  pose proof (Exec_returns_and_records Sample.PrintId Sample.cancel_rpc Sample.exec_rpc
                Sample.select_schedule (Status_of_msg "no memory") Status_OK Status_OK)
    as H.
  cbv zeta in H.
  change (coordinator_fragment_error Sample.select_schedule (Status_of_msg "no memory")
            Status_OK Status_OK)
    with (Some (Status_of_msg "no memory")) in H.
  destruct H as (Hreturned & _ & Hstatus & _). split; [exact Hreturned | exact Hstatus].
Defined.

(** X21 at the sample INSERT. *)
Lemma Exec_OK_has_started_every_backend_witness :
  exists b, backend_exec_states_ running !! 0%nat = Some (Some b) /\ started b.
Proof.
  eexists. split; [vm_compute; reflexivity|].
  destruct (Exec_OK_has_started_every_backend Sample.PrintId Sample.cancel_rpc
              Sample.exec_rpc Sample.insert_schedule Status_OK Status_OK Status_OK)
    as [H _].
  - intros i st [E|E]; discriminate.
  - reflexivity.
  - apply (H 0%nat). vm_compute. reflexivity.
Defined.

(** X22 at a run: all results were returned, and backend 0 reports
    CANCELLED. *)
Lemma cancelled_report_after_all_results_witness :
  query_status_
    (snd (sample_UpdateFragmentExecStatus
            (mkTReportExecStatusParams 0 Status_CANCELLED true 0 None None)
            (set_returned_all_results_ true Sample.two_backends)))
  = Status_OK.
Proof.
  destruct (cancelled_report_after_all_results Sample.PrintId Sample.cancel_rpc
              Sample.MergeInsertStats Sample.PartitionRowCount_order
              (mkTReportExecStatusParams 0 Status_CANCELLED true 0 None None)
              (set_returned_all_results_ true Sample.two_backends) 0%nat backend0)
    as (H & _); [reflexivity | reflexivity | reflexivity | reflexivity |].
  exact H.
Defined.
